(** * The VDSM sos plugin: a shallow embedding and its collection contract

    The plugin ([common/test-scenarios-files/vdsm-sos-plugin/vdsm.py]) is a
    straight-line script over three collaborators: the sos [Plugin] object it
    inherits from (the archival subsystem), the filesystem and process table
    of the host, and the VDSM JSON-RPC client.  The embedding keeps the
    script's control flow (sequencing, [try]/[except], [with closing],
    [for] loops and the one early [return]) in a small trace-and-exception
    monad; every request to the archival subsystem and every call on the
    client is an [event] of the trace, and everything the collaborators
    answer is a field of the [world]. *)

From Stdlib Require Import List String Ascii ZArith Bool Arith Lia.
From Stdlib Require Import DecimalString DecimalZ.
Import ListNotations.

Local Open Scope list_scope.
Local Open Scope string_scope.

(** ** Python strings *)

Module PyStr.

Definition dquote : ascii := "034"%char.
Definition LF : ascii := "010"%char.
Definition CR : ascii := "013"%char.

(** One-character string. *)
Definition chr (c : ascii) : string := String c EmptyString.

Fixpoint rev_onto (s acc : string) : string :=
  match s with
  | EmptyString => acc
  | String c s' => rev_onto s' (String c acc)
  end.

Definition rev (s : string) : string := rev_onto s EmptyString.

(** [s.startswith(p)] *)
Fixpoint startswith (s p : string) {struct p} : bool :=
  match p, s with
  | EmptyString, _ => true
  | String _ _, EmptyString => false
  | String a p', String b s' => Ascii.eqb a b && startswith s' p'
  end.

(** [s.endswith(p)] *)
Definition endswith (s p : string) : bool := startswith (rev s) (rev p).

(** The characters [str.strip()] removes and the regex class [\s] matches
    on a byte string: space, [\t], [\n], [\v], [\f], [\r]. *)
Definition isspace (c : ascii) : bool :=
  let n := nat_of_ascii c in
  (n =? 32)%nat || ((9 <=? n)%nat && (n <=? 13)%nat).

Fixpoint lstrip (s : string) : string :=
  match s with
  | EmptyString => EmptyString
  | String c s' => if isspace c then lstrip s' else s
  end.

Definition rstrip (s : string) : string := rev (lstrip (rev s)).

(** [s.strip()] *)
Definition strip (s : string) : string := rstrip (lstrip s).

(** [re.sub(r"\s+", " ", s)]: [inrun] tells that the previous character
    belonged to a run of blanks which has already been replaced. *)
Fixpoint sub_blanks (inrun : bool) (s : string) : string :=
  match s with
  | EmptyString => EmptyString
  | String c s' =>
      if isspace c
      then (if inrun then sub_blanks true s'
            else String " "%char (sub_blanks true s'))
      else String c (sub_blanks false s')
  end.

(** [s.splitlines()] on a byte string: lines end at [\n], [\r] or [\r\n];
    [line] is the line read so far. *)
Fixpoint splitlines_from (line s : string) : list string :=
  match s with
  | EmptyString =>
      match line with EmptyString => [] | _ => [line] end
  | String c s' =>
      if Ascii.eqb c LF then line :: splitlines_from EmptyString s'
      else if Ascii.eqb c CR then
        match s' with
        | String c' s'' =>
            if Ascii.eqb c' LF
            then line :: splitlines_from EmptyString s''
            else line :: splitlines_from EmptyString s'
        | EmptyString => [line]
        end
      else splitlines_from (line ++ chr c) s'
  end.

Definition splitlines (s : string) : list string :=
  splitlines_from EmptyString s.

(** [str(n)] for an integer. *)
Definition of_int (z : Z) : string := NilZero.string_of_int (Z.to_int z).

(** *** A byte string under [%s]

    The plugin formats what [pgrep] printed with [%s].  On Python 2 the
    output of a process is a [str] and [%s] gives it as it is.  On Python 3
    it is a [bytes] object, and [%s] gives its [repr]: [b'12'] for the two
    bytes [12]. *)

Inductive python : Type := Python2 | Python3.

Fixpoint contains (c : ascii) (s : string) : bool :=
  match s with
  | EmptyString => false
  | String d s' => Ascii.eqb c d || contains c s'
  end.

(** The quote [repr] puts around a byte string: a double quote when the
    bytes hold a single quote and no double quote, a single quote
    otherwise. *)
Definition bytes_quote (b : string) : ascii :=
  if contains "'"%char b && negb (contains dquote b) then dquote
  else "'"%char.

Definition hex_lower (n : nat) : ascii :=
  if (n <? 10)%nat then ascii_of_nat (48 + n) else ascii_of_nat (87 + n).

(** One byte inside the quotes: the quote and the backslash behind a
    backslash, the short escapes of tab, line feed and carriage return,
    every other byte outside the printable ASCII range as [\xhh]. *)
Definition bytes_repr_char (quote c : ascii) : string :=
  let n := nat_of_ascii c in
  if Ascii.eqb c quote || Ascii.eqb c "\"%char then String "\"%char (chr c)
  else if (n =? 9)%nat then "\t"
  else if (n =? 10)%nat then "\n"
  else if (n =? 13)%nat then "\r"
  else if (n <? 32)%nat || (127 <=? n)%nat
  then "\x" ++ chr (hex_lower (n / 16)) ++ chr (hex_lower (n mod 16))
  else chr c.

Fixpoint bytes_repr_body (quote : ascii) (b : string) : string :=
  match b with
  | EmptyString => EmptyString
  | String c b' => bytes_repr_char quote c ++ bytes_repr_body quote b'
  end.

(** [repr(b)] of a [bytes] object on Python 3. *)
Definition bytes_repr (b : string) : string :=
  let quote := bytes_quote b in
  "b" ++ chr quote ++ bytes_repr_body quote b ++ chr quote.

(** ["%s" % b] for the byte string [b]. *)
Definition percent_s (py : python) (b : string) : string :=
  match py with
  | Python2 => b
  | Python3 => bytes_repr b
  end.

End PyStr.

(** ** Python values and exceptions *)

Unset Elimination Schemes.
(** The values the collaborators hand to the plugin: what a JSON-RPC answer
    decodes to (integers only, no floating point numbers; a string is a
    sequence of code points below 256), plus tuples, which [json.dumps]
    accepts as well, and [PyObject], any other object, which [json.dumps]
    rejects; it carries its [repr].  A dictionary is the list of its
    items; its keys are strings. *)
Inductive pyval : Type :=
| PyNone
| PyBool (b : bool)
| PyInt (z : Z)
| PyStr (s : string)
| PyList (l : list pyval)
| PyTuple (t : list pyval)
| PyDict (d : list (string * pyval))
| PyObject (repr : string).
Set Elimination Schemes.

(** An instance of [Exception]; [str_exn] is Python's [str(e)]. *)
Inductive exn : Type := Exception (msg : string).

Definition str_exn (e : exn) : string := let 'Exception m := e in m.

(** Truth value of an object in an [if]. *)
Definition truthy (v : pyval) : bool :=
  match v with
  | PyNone => false
  | PyBool b => b
  | PyInt z => negb (z =? 0)%Z
  | PyStr s => negb (s =? "")%string
  | PyList l => match l with [] => false | _ => true end
  | PyTuple t => match t with [] => false | _ => true end
  | PyDict d => match d with [] => false | _ => true end
  | PyObject _ => true
  end.

(** [v is not None] *)
Definition is_not_None (v : pyval) : bool :=
  match v with PyNone => false | _ => true end.

Definition kwargs := list (string * pyval).

(** ** [json.dumps] with its default arguments *)

Module Json.

Definition hex_digit (n : nat) : ascii :=
  if (n <? 10)%nat then ascii_of_nat (48 + n) else ascii_of_nat (87 + n).

(** One character of a string literal under [ensure_ascii=True]: the
    short escapes, printable ASCII as it is, everything else as a
    [\uXXXX] escape (code points stay below 256 here). *)
Definition escape_char (c : ascii) : string :=
  let n := nat_of_ascii c in
  if (n =? 34)%nat then String "\"%char (PyStr.chr PyStr.dquote)
  else if (n =? 92)%nat then "\\"
  else if (n =? 10)%nat then "\n"
  else if (n =? 13)%nat then "\r"
  else if (n =? 9)%nat then "\t"
  else if (n =? 8)%nat then "\b"
  else if (n =? 12)%nat then "\f"
  else if ((32 <=? n) && (n <=? 126))%nat then PyStr.chr c
  else "\u00" ++ PyStr.chr (hex_digit (n / 16))
               ++ PyStr.chr (hex_digit (n mod 16)).

Fixpoint escape (s : string) : string :=
  match s with
  | EmptyString => EmptyString
  | String c s' => escape_char c ++ escape s'
  end.

Definition encode_string (s : string) : string :=
  String PyStr.dquote (escape s ++ PyStr.chr PyStr.dquote).

(** The text the encoder writes for a value without foreign objects;
    list items and dictionary items are joined by [", "], a key and its
    value by [": "]; a tuple is written as a list is. *)
Fixpoint encode (v : pyval) : string :=
  match v with
  | PyNone => "null"
  | PyBool true => "true"
  | PyBool false => "false"
  | PyInt z => PyStr.of_int z
  | PyStr s => encode_string s
  | PyList l => "[" ++ String.concat ", " (map encode l) ++ "]"
  | PyTuple t => "[" ++ String.concat ", " (map encode t) ++ "]"
  | PyDict d =>
      "{" ++ String.concat ", "
               (map (fun kv => encode_string (fst kv) ++ ": "
                                 ++ encode (snd kv)) d) ++ "}"
  | PyObject _ => EmptyString
  end.

(** The first object, in encoding order, that the encoder has no rule
    for. *)
Fixpoint foreign (v : pyval) : option string :=
  match v with
  | PyObject r => Some r
  | PyList l | PyTuple l =>
      fold_right (fun x rest => match foreign x with
                                | Some r => Some r
                                | None => rest
                                end) None l
  | PyDict d =>
      fold_right (fun kv rest => match foreign (snd kv) with
                                 | Some r => Some r
                                 | None => rest
                                 end) None d
  | _ => None
  end.

(** [json.dumps(v)]: the text, or the [TypeError] raised at the first
    foreign object (with the message of Python 2.7, the Python of this
    plugin). *)
Definition dumps (v : pyval) : exn + string :=
  match foreign v with
  | Some r => inl (Exception (r ++ " is not JSON serializable"))
  | None => inr (encode v)
  end.

(** *** [json.loads]

    The decoder for the same fragment: a number with a fraction or an
    exponent (and [NaN], [Infinity]) is a float and a [\uXXXX] escape
    above 255 is a character this model has no value for, so the decoder
    gives nothing there; [None] is also the [ValueError] of a malformed
    text. *)
























End Json.



(** ** What the plugin asks of its collaborators *)

(** The methods of the JSON-RPC client the plugin uses. *)
Inductive method : Type :=
| Host_getCapabilities
| Host_getStats
| Host_getAllVmStats
| Host_getVMFullList
| Host_getDeviceList
| Host_hostdevListByCaps
| Host_getAllTasksInfo
| Host_getAllTasksStatuses
| Host_getConnectedStoragePools
| StoragePool_getSpmStatus
| Host_getStorageDomains.

(** One call that leaves the plugin.  The first five are the requests to
    the archival subsystem (the inherited [Plugin] methods), in the names the
    class binds them to; the rest are the calls on the JSON-RPC client.
    Queries of the host (options, [glob], [os.stat], the output of [pgrep])
    answer without leaving a mark. *)
Inductive event : Type :=
| addForbiddenPath (path : string)
| addCopySpec (path : string)
| addCopySpecLimit (path : string) (sizelimit : pyval)
| collectExtOutput (cmd : string)
| addStringAsFile (content name : string)
| connect (host : string)
| invoke (m : method) (kw : kwargs)
| close.

Definition trace := list event.

(** ** Control flow: a trace with a result or a raised exception *)

Inductive outcome (A : Type) : Type :=
| Returned (a : A)
| Raised (e : exn).
Arguments Returned {A} a.
Arguments Raised {A} e.

Definition run (A : Type) : Type := (trace * outcome A)%type.

Definition events {A} (m : run A) : trace := fst m.
Definition result {A} (m : run A) : outcome A := snd m.

Module Run.

Definition ret {A} (a : A) : run A := ([], Returned a).

Definition bind {A B} (m : run A) (k : A -> run B) : run B :=
  match m with
  | (t, Returned a) => let '(t', o) := k a in ((t ++ t')%list, o)
  | (t, Raised e) => (t, Raised e)
  end.

(** A call on a collaborator: the call is logged, then it answers. *)
Definition call {A} (ev : event) (answer : exn + A) : run A :=
  ([ev], match answer with inl e => Raised e | inr a => Returned a end).

(** A query of the host, or a library function that may raise. *)
Definition ask {A} (answer : exn + A) : run A :=
  ([], match answer with inl e => Raised e | inr a => Returned a end).

(** A request to the archival subsystem; it only records. *)
Definition request (ev : event) : run unit := ([ev], Returned tt).

(** [try: m  except Exception as e: h e] *)
Definition try_except {A} (m : run A) (h : exn -> run A) : run A :=
  match m with
  | (t, Raised e) => let '(t', o) := h e in ((t ++ t')%list, o)
  | _ => m
  end.

(** [try: m  finally: c]: [c] runs on both exits and an exception of [m]
    goes on after it. *)
Definition finally {A} (m : run A) (c : run unit) : run A :=
  match m with
  | (t, o) =>
      match c with
      | (t', Returned _) => ((t ++ t')%list, o)
      | (t', Raised e) => ((t ++ t')%list, Raised e)
      end
  end.

(** [for x in l: body x] *)
Fixpoint for_each {A} (l : list A) (body : A -> run unit) : run unit :=
  match l with
  | [] => ret tt
  | x :: l' => bind (body x) (fun _ => for_each l' body)
  end.

End Run.

Declare Scope run_scope.
Delimit Scope run_scope with run.
Notation "x <- m ;; k" := (Run.bind m (fun x => k))
  (at level 61, m at next level, right associativity) : run_scope.
Notation "m ;; k" := (Run.bind m (fun _ => k))
  (at level 61, right associativity) : run_scope.
Local Open Scope run_scope.

(** ** The host *)

(** The connected client: what each collected method answers to given
    keyword arguments, and the two discovery calls, which the API types as
    lists of UUID strings. *)
Record client : Type := {
  answer : method -> kwargs -> exn + pyval;
  getConnectedStoragePools : exn + list string;
  getStorageDomains : kwargs -> exn + list string
}.

(** Everything outside the plugin that one collection run sees. *)
Record world : Type := {
  (** [Plugin.get_option] *)
  getOption : string -> pyval;
  (** the names in [/var/run/vdsm], as [os.listdir] gives them *)
  run_dir : list string;
  (** [os.stat(path).st_mode], or the [OSError] *)
  st_mode : string -> exn + Z;
  (** standard output of [/usr/bin/pgrep qemu-kvm], or the [OSError] of
      [Popen] *)
  pgrep : exn + string;
  (** [client.connect('localhost')] *)
  client_connect : exn + client;
  (** the Python the plugin runs on *)
  interpreter : PyStr.python
}.

(** [glob.glob(dir + "/*")]: the entries of [dir] whose name does not start
    with a dot, each with the directory in front. *)
Definition glob_star (dir : string) (names : list string) : list string :=
  map (fun n => dir ++ "/" ++ n)
      (filter (fun n => negb (PyStr.startswith n ".")) names).

(** [stat.S_ISSOCK(mode)]: [S_IFMT(mode) == S_IFSOCK]. *)
Definition S_ISSOCK (mode : Z) : bool :=
  (Z.land mode 61440 =? 49152)%Z.

(** ** The plugin *)

Module vdsm.

(** Hardcoded data domain storage class. *)
Definition DATA_DOMAIN : Z := 1.

Definition LVM_CONFIG_text : string :=
  let nl := PyStr.chr PyStr.LF in
  let q := PyStr.chr PyStr.dquote in
  nl ++ "global {" ++ nl
     ++ "    locking_type=0" ++ nl
     ++ "    metadata_read_only=1" ++ nl
     ++ "    use_lvmetad=0" ++ nl
     ++ "}" ++ nl
     ++ "devices {" ++ nl
     ++ "    preferred_names=[ " ++ q ++ "^/dev/mapper/" ++ q ++ " ]" ++ nl
     ++ "    ignore_suspended_devices=1" ++ nl
     ++ "    write_cache_state=0" ++ nl
     ++ "    disable_after_error_count=3" ++ nl
     ++ "    filter=[ " ++ q ++ "a|^/dev/mapper/.*|" ++ q ++ ", "
                        ++ q ++ "r|.*|" ++ q ++ " ]" ++ nl
     ++ "}" ++ nl.

(** [re.sub(r"\s+", " ", LVM_CONFIG).strip()] *)
Definition LVM_CONFIG : string :=
  Eval vm_compute in PyStr.strip (PyStr.sub_blanks false LVM_CONFIG_text).

(** The options the class declares in [option_list]: name, description,
    speed and default of each. *)
Definition option_tuples : list (string * string * string * pyval) :=
  [("logsize", "max size (MiB) to collect per log file", "", PyBool false);
   ("dump-volume-chains", "Collect volume chains info", "", PyBool false)].

(** The names of the declared options. *)
Definition option_list : list string :=
  map (fun o => fst (fst (fst o))) option_tuples.

(** A bound method of the client, as the plugin passes it around. *)
Definition bound (cli : client) (m : method) (kw : kwargs) : run pyval :=
  Run.call (invoke m kw) (answer cli m kw).

Definition collectVdsmCommand (name : string) (call : kwargs -> run pyval)
    (kw : kwargs) : run unit :=
  Run.try_except
    (result <- call kw ;;
     text <- Run.ask (Json.dumps result) ;;
     Run.request (addStringAsFile text name))
    (fun e => Run.request (addStringAsFile (str_exn e) name)).

(** Everything under [/var/run/vdsm] except possibly confidential
    sysprep vfds and sockets. *)
Definition _addVdsmRunDir (w : world) : run unit :=
  Run.for_each (glob_star "/var/run/vdsm" (run_dir w)) (fun f =>
    if negb (PyStr.endswith f ".vfd")
       && negb (PyStr.endswith f "/isoUploader")
       && negb (PyStr.endswith f "/storage")
    then
      mode <- Run.ask (st_mode w f) ;;
      if negb (S_ISSOCK mode) then Run.request (addCopySpec f)
      else Run.ret tt
    else Run.ret tt).

(** The part of [setup] that runs inside [with utils.closing(cli)]. *)
Definition remote_phase (w : world) (cli : client) : run unit :=
  collectVdsmCommand "Host.getCapabilities"
    (bound cli Host_getCapabilities) [] ;;
  collectVdsmCommand "Host.getStats" (bound cli Host_getStats) [] ;;
  collectVdsmCommand "Host.getAllVmStats"
    (bound cli Host_getAllVmStats) [] ;;
  collectVdsmCommand "Host.getVMFullList"
    (bound cli Host_getVMFullList) [] ;;
  collectVdsmCommand "Host.getDeviceList" (bound cli Host_getDeviceList)
    [("checkStatus", PyBool false)] ;;
  collectVdsmCommand "Host.hostdevListByCaps"
    (bound cli Host_hostdevListByCaps) [] ;;
  collectVdsmCommand "Host.getAllTasksInfo"
    (bound cli Host_getAllTasksInfo) [] ;;
  collectVdsmCommand "Host.getAllTasksStatuses"
    (bound cli Host_getAllTasksStatuses) [] ;;
  pools_list <- Run.call (invoke Host_getConnectedStoragePools [])
                         (getConnectedStoragePools cli) ;;
  Run.for_each pools_list (fun pool =>
    collectVdsmCommand ("StoragePool.getSpmStatus " ++ pool)
      (bound cli StoragePool_getSpmStatus)
      [("storagepoolID", PyStr pool)]) ;;
  if truthy (getOption w "dump-volume-chains") then
    let kw := [("domainClass", PyInt DATA_DOMAIN)] in
    sd_uuids <- Run.call (invoke Host_getStorageDomains kw)
                         (getStorageDomains cli kw) ;;
    Run.for_each sd_uuids (fun sd_uuid =>
      Run.request
        (collectExtOutput ("vdsm-tool dump-volume-chains " ++ sd_uuid)))
  else Run.ret tt.

(** The part of [setup] before [client.connect]. *)
Definition local_phase (w : world) : run unit :=
  Run.request (addForbiddenPath "/etc/pki/vdsm/keys/*") ;;
  Run.request (addForbiddenPath "/etc/pki/vdsm/libvirt-spice/*-key.*") ;;
  Run.request (addForbiddenPath "/etc/pki/libvirt/private/*") ;;
  Run.request (collectExtOutput "service vdsmd status") ;;
  Run.request (addCopySpec "/tmp/vds_installer*") ;;
  Run.request (addCopySpec "/tmp/vds_bootstrap*") ;;
  Run.request (addCopySpec "/etc/vdsm/*") ;;
  (let logsize := getOption w "logsize" in
   if is_not_None logsize
   then Run.request (addCopySpecLimit "/var/log/vdsm/*" logsize)
   else Run.request (addCopySpec "/var/log/vdsm/*")) ;;
  _addVdsmRunDir w ;;
  Run.request (addCopySpec "/usr/libexec/vdsm/hooks") ;;
  Run.request (addCopySpec "/var/lib/vdsm") ;;
  Run.request (addCopySpec "/var/log/ovirt.log") ;;
  Run.request (addCopySpec "/var/log/sanlock.log") ;;
  out <- Run.ask (pgrep w) ;;
  Run.for_each (PyStr.splitlines out) (fun line =>
    let pid := PyStr.strip line in
    Run.request (addCopySpec
      ("/proc/" ++ PyStr.percent_s (interpreter w) pid ++ "/cmdline")) ;;
    Run.request (addCopySpec
      ("/proc/" ++ PyStr.percent_s (interpreter w) pid ++ "/status")) ;;
    Run.request (addCopySpec
      ("/proc/" ++ PyStr.percent_s (interpreter w) pid ++ "/mountstats"))) ;;
  Run.request (collectExtOutput "/bin/ls -ldZ /etc/vdsm") ;;
  Run.request (collectExtOutput
    "/bin/su vdsm -s /bin/sh -c '/usr/bin/tree -l /rhev/data-center'") ;;
  Run.request (collectExtOutput
    "/bin/su vdsm -s /bin/sh -c '/bin/ls -lR /rhev/data-center'") ;;
  Run.request (collectExtOutput
    ("/sbin/lvm vgs -v -o +tags --config '" ++ LVM_CONFIG ++ "'")) ;;
  Run.request (collectExtOutput
    ("/sbin/lvm lvs -v -o +tags --config '" ++ LVM_CONFIG ++ "'")) ;;
  Run.request (collectExtOutput
    ("/sbin/lvm pvs -v -o +all --config '" ++ LVM_CONFIG ++ "'")) ;;
  Run.request (collectExtOutput "/sbin/fdisk -l") ;;
  Run.request (collectExtOutput "/usr/bin/iostat") ;;
  Run.request (collectExtOutput "/sbin/iscsiadm -m node") ;;
  Run.request (collectExtOutput "/sbin/iscsiadm -m session") ;;
  Run.request (collectExtOutput "/usr/sbin/nodectl info") ;;
  Run.request (collectExtOutput "/usr/bin/abrt-cli list").

Definition setup (w : world) : run unit :=
  local_phase w ;;
  cli <- Run.try_except
           (cli <- Run.call (connect "localhost") (client_connect w) ;;
            Run.ret (Some cli))
           (fun e =>
              Run.request (addStringAsFile
                ("Cannot connect to vdsm: " ++ str_exn e)
                "client.connect") ;;
              Run.ret None) ;;
  match cli with
  | None => Run.ret tt
  | Some cli => Run.finally (remote_phase w cli) (Run.request close)
  end.

End vdsm.

(** ** Reading a trace *)

(** The named string artifacts of a trace, as (name, content). *)
Fixpoint string_files (t : trace) : list (string * string) :=
  match t with
  | [] => []
  | addStringAsFile content name :: t' => (name, content) :: string_files t'
  | _ :: t' => string_files t'
  end.

(** The copy requests of a trace: path and size limit, if any. *)
Fixpoint copy_requests (t : trace) : list (string * option pyval) :=
  match t with
  | [] => []
  | addCopySpec p :: t' => (p, None) :: copy_requests t'
  | addCopySpecLimit p n :: t' => (p, Some n) :: copy_requests t'
  | _ :: t' => copy_requests t'
  end.

(** The external commands of a trace. *)
Fixpoint commands (t : trace) : list string :=
  match t with
  | [] => []
  | collectExtOutput c :: t' => c :: commands t'
  | _ :: t' => commands t'
  end.

(** The remote calls of a trace. *)
Fixpoint invocations (t : trace) : list (method * kwargs) :=
  match t with
  | [] => []
  | invoke m kw :: t' => (m, kw) :: invocations t'
  | _ :: t' => invocations t'
  end.

Definition is_connect (ev : event) : bool :=
  match ev with connect _ => true | _ => false end.

Definition is_close (ev : event) : bool :=
  match ev with close => true | _ => false end.

Definition is_forbidden (ev : event) : bool :=
  match ev with addForbiddenPath _ => true | _ => false end.

Definition is_copy (ev : event) : bool :=
  match ev with
  | addCopySpec _ | addCopySpecLimit _ _ => true
  | _ => false
  end.

(** Requests to the archival subsystem that do not need the connection:
    copy requests and external commands. *)
Definition is_local (ev : event) : bool :=
  match ev with
  | addForbiddenPath _ | addCopySpec _ | addCopySpecLimit _ _
  | collectExtOutput _ => true
  | _ => false
  end.

(** What [collectVdsmCommand] files for an outcome of the call. *)
Definition artifact (o : outcome pyval) : string :=
  match o with
  | Returned v =>
      match Json.dumps v with
      | inr text => text
      | inl e => str_exn e
      end
  | Raised e => str_exn e
  end.

(** The outcome of a method of the client. *)
Definition answered (cli : client) (m : method) (kw : kwargs)
  : outcome pyval :=
  match answer cli m kw with
  | inl e => Raised e
  | inr v => Returned v
  end.

(** The trace of one collected remote call. *)
Definition collected (cli : client) (name : string) (m : method)
    (kw : kwargs) : trace :=
  [invoke m kw; addStringAsFile (artifact (answered cli m kw)) name].

(** The remote calls [setup] always makes once connected: declared name,
    method and keyword arguments, in the order of the script. *)
Definition fixed_calls : list (string * method * kwargs) :=
  [("Host.getCapabilities", Host_getCapabilities, []);
   ("Host.getStats", Host_getStats, []);
   ("Host.getAllVmStats", Host_getAllVmStats, []);
   ("Host.getVMFullList", Host_getVMFullList, []);
   ("Host.getDeviceList", Host_getDeviceList,
    [("checkStatus", PyBool false)]);
   ("Host.hostdevListByCaps", Host_hostdevListByCaps, []);
   ("Host.getAllTasksInfo", Host_getAllTasksInfo, []);
   ("Host.getAllTasksStatuses", Host_getAllTasksStatuses, [])].

Definition fixed_trace (cli : client) : trace :=
  flat_map (fun c => collected cli (fst (fst c)) (snd (fst c)) (snd c))
           fixed_calls.

(** The trace of the per-pool loop. *)
Definition pools_trace (cli : client) (pools : list string) : trace :=
  flat_map (fun pool =>
              collected cli ("StoragePool.getSpmStatus " ++ pool)
                        StoragePool_getSpmStatus
                        [("storagepoolID", PyStr pool)]) pools.

Definition domains_kwargs : kwargs :=
  [("domainClass", PyInt vdsm.DATA_DOMAIN)].

(** The trace of the per-domain loop. *)
Definition domains_trace (sd_uuids : list string) : trace :=
  map (fun sd_uuid =>
         collectExtOutput ("vdsm-tool dump-volume-chains " ++ sd_uuid))
      sd_uuids.

(** The trace and the result of the per-domain branch. *)
Definition domains_branch (w : world) (cli : client) : run unit :=
  if truthy (getOption w "dump-volume-chains") then
    match getStorageDomains cli domains_kwargs with
    | inl e => ([invoke Host_getStorageDomains domains_kwargs], Raised e)
    | inr sd_uuids =>
        (invoke Host_getStorageDomains domains_kwargs
           :: domains_trace sd_uuids, Returned tt)
    end
  else ([], Returned tt).

(** The requests [setup] starts with. *)
Definition header_trace : trace :=
  [addForbiddenPath "/etc/pki/vdsm/keys/*";
   addForbiddenPath "/etc/pki/vdsm/libvirt-spice/*-key.*";
   addForbiddenPath "/etc/pki/libvirt/private/*";
   collectExtOutput "service vdsmd status";
   addCopySpec "/tmp/vds_installer*";
   addCopySpec "/tmp/vds_bootstrap*";
   addCopySpec "/etc/vdsm/*"].

(** The copy requests between the run directory and the [pgrep] query. *)
Definition static_copies : trace :=
  [addCopySpec "/usr/libexec/vdsm/hooks";
   addCopySpec "/var/lib/vdsm";
   addCopySpec "/var/log/ovirt.log";
   addCopySpec "/var/log/sanlock.log"].

(** The copy requests for the processes [pgrep] printed. *)
Definition proc_trace (py : PyStr.python) (out : string) : trace :=
  flat_map (fun line =>
              let pid := PyStr.percent_s py (PyStr.strip line) in
              [addCopySpec ("/proc/" ++ pid ++ "/cmdline");
               addCopySpec ("/proc/" ++ pid ++ "/status");
               addCopySpec ("/proc/" ++ pid ++ "/mountstats")])
           (PyStr.splitlines out).

(** The external commands that close the local phase. *)
Definition tail_commands : trace :=
  map collectExtOutput
    ["/bin/ls -ldZ /etc/vdsm";
     "/bin/su vdsm -s /bin/sh -c '/usr/bin/tree -l /rhev/data-center'";
     "/bin/su vdsm -s /bin/sh -c '/bin/ls -lR /rhev/data-center'";
     "/sbin/lvm vgs -v -o +tags --config '" ++ vdsm.LVM_CONFIG ++ "'";
     "/sbin/lvm lvs -v -o +tags --config '" ++ vdsm.LVM_CONFIG ++ "'";
     "/sbin/lvm pvs -v -o +all --config '" ++ vdsm.LVM_CONFIG ++ "'";
     "/sbin/fdisk -l";
     "/usr/bin/iostat";
     "/sbin/iscsiadm -m node";
     "/sbin/iscsiadm -m session";
     "/usr/sbin/nodectl info";
     "/usr/bin/abrt-cli list"].

(** The local phase after the run directory. *)
Definition after_run_dir (w : world) : run unit :=
  match pgrep w with
  | inl e => (static_copies, Raised e)
  | inr out =>
      ((static_copies ++ proc_trace (interpreter w) out ++ tail_commands)
         %list, Returned tt)
  end.

(** The artifact filed when the connection is refused. *)
Definition connect_error (e : exn) : event :=
  addStringAsFile ("Cannot connect to vdsm: " ++ str_exn e) "client.connect".

(** [setup] from [client.connect] on. *)
Definition connection_phase (w : world) : run unit :=
  match client_connect w with
  | inl e => ([connect "localhost"; connect_error e], Returned tt)
  | inr cli =>
      ((connect "localhost" :: events (vdsm.remote_phase w cli) ++ [close])
         %list, result (vdsm.remote_phase w cli))
  end.

(** [setup] after the request for the log directory. *)
Definition after_log_request (w : world) : run unit :=
  Run.bind (vdsm._addVdsmRunDir w) (fun _ =>
    Run.bind (after_run_dir w) (fun _ => connection_phase w)).

(** The request for the log directory. *)
Definition log_request (w : world) : event :=
  if is_not_None (getOption w "logsize")
  then addCopySpecLimit "/var/log/vdsm/*" (getOption w "logsize")
  else addCopySpec "/var/log/vdsm/*".

(** The world in which option [name] has the value [v]. *)
Definition with_option (w : world) (name : string) (v : pyval) : world :=
  {| getOption := fun n => if (n =? name)%string then v else getOption w n;
     run_dir := run_dir w;
     st_mode := st_mode w;
     pgrep := pgrep w;
     client_connect := client_connect w;
     interpreter := interpreter w |}.

(** The test [_addVdsmRunDir] puts a path to. *)
Definition wanted (w : world) (f : string) : bool :=
  negb (PyStr.endswith f ".vfd")
  && negb (PyStr.endswith f "/isoUploader")
  && negb (PyStr.endswith f "/storage")
  && match st_mode w f with
     | inr mode => negb (S_ISSOCK mode)
     | inl _ => false
     end.

(** [os.stat] answers for every path of [l] that [_addVdsmRunDir] asks
    about. *)
Definition stat_answers (w : world) (l : list string) : Prop :=
  forall f, In f l ->
    PyStr.endswith f ".vfd" = false ->
    PyStr.endswith f "/isoUploader" = false ->
    PyStr.endswith f "/storage" = false ->
    exists mode, st_mode w f = inr mode.

(** ** Paths and patterns *)

(** [fnmatch.fnmatchcase(s, pat)] for patterns made of literal characters,
    [*] (any run of characters) and [?] (any one character). *)
Fixpoint fnmatch (pat : string) : string -> bool :=
  match pat with
  | EmptyString =>
      fun s => match s with EmptyString => true | String _ _ => false end
  | String c pat' =>
      if Ascii.eqb c "*"%char then
        fix star (s : string) : bool :=
          fnmatch pat' s
          || match s with
             | EmptyString => false
             | String _ s' => star s'
             end
      else if Ascii.eqb c "?"%char then
        fun s => match s with
                 | EmptyString => false
                 | String _ s' => fnmatch pat' s'
                 end
      else
        fun s => match s with
                 | EmptyString => false
                 | String d s' => Ascii.eqb c d && fnmatch pat' s'
                 end
  end.

(** The patterns [setup] declares forbidden. *)
Definition forbidden_paths : list string :=
  ["/etc/pki/vdsm/keys/*";
   "/etc/pki/vdsm/libvirt-spice/*-key.*";
   "/etc/pki/libvirt/private/*"].

(** A copy request for [spec] covers [path] when [spec] matches [path] or
    a directory above it. *)
Definition covers (spec path : string) : Prop :=
  exists q, fnmatch spec q = true
            /\ (path = q \/ exists below, path = q ++ "/" ++ below).

(** The roots the copy requests of [setup] stay under. *)
Definition under_collected_root (spec : string) : bool :=
  PyStr.startswith spec "/tmp/"
  || PyStr.startswith spec "/etc/vdsm/"
  || PyStr.startswith spec "/var/"
  || PyStr.startswith spec "/usr/"
  || PyStr.startswith spec "/proc/".

Definition copies_under_root (ev : event) : Prop :=
  match ev with
  | addCopySpec p | addCopySpecLimit p _ => under_collected_root p = true
  | _ => True
  end.

(** A file name has no [/] in it. *)
Fixpoint has_slash (s : string) : bool :=
  match s with
  | EmptyString => false
  | String c s' => Ascii.eqb c "/"%char || has_slash s'
  end.

(** ** Picking the entries of a fan-out *)

Definition is_status_call (i : method * kwargs) : bool :=
  match fst i with
  | StoragePool_getSpmStatus => true
  | _ => false
  end.

Definition is_status_file (nf : string * string) : bool :=
  PyStr.startswith (fst nf) "StoragePool.getSpmStatus ".

Definition is_dump_command (c : string) : bool :=
  PyStr.startswith c "vdsm-tool dump-volume-chains ".

(** An event that is not a per-domain command. *)
Definition not_dump (ev : event) : Prop :=
  match ev with
  | collectExtOutput c => is_dump_command c = false
  | _ => True
  end.

Definition is_log_copy (ev : event) : bool :=
  match ev with
  | addCopySpec p | addCopySpecLimit p _ => (p =? "/var/log/vdsm/*")%string
  | _ => false
  end.

(** What the remote phase may do. *)
Definition remote_event (ev : event) : Prop :=
  match ev with
  | invoke _ _ | addStringAsFile _ _ => True
  | collectExtOutput c =>
      exists sd_uuid, c = "vdsm-tool dump-volume-chains " ++ sd_uuid
  | _ => False
  end.

(** ** Options the user has not set *)


(** ** Sample hosts *)

Module Sample.

(** A client on which [Host.getStats] and the status of pool [p2] fail. *)
Definition cli : client :=
  {| answer := fun m kw =>
       match m with
       | Host_getStats => inl (Exception "Not enough resources")
       | StoragePool_getSpmStatus =>
           match kw with
           | [(_, PyStr "p2")] => inl (Exception "Unknown pool id")
           | _ => inr (PyDict [("spmStatus", PyStr "SPM"); ("spmId", PyInt 1)])
           end
       | _ => inr (PyDict [("status", PyInt 0)])
       end;
     getConnectedStoragePools := inr ["p1"; "p2"; "p3"];
     getStorageDomains := fun _ => inr ["sd1"; "sd2"] |}.


(** The same client with a failing pool discovery. *)
Definition cli_no_pools : client :=
  {| answer := answer cli;
     getConnectedStoragePools := inl (Exception "Storage is busy");
     getStorageDomains := getStorageDomains cli |}.

(** Regular files are [0o100644], sockets [0o140755]; [stale] is a
    dangling link. *)
Definition modes (f : string) : exn + Z :=
  if PyStr.endswith f ".sock" then inr 49645%Z
  else if PyStr.endswith f "/stale"
  then inl (Exception "[Errno 2] No such file or directory")
  else inr 33188%Z.

Definition options (logsize dump : pyval) (n : string) : pyval :=
  if (n =? "logsize")%string then logsize
  else if (n =? "dump-volume-chains")%string then dump
  else PyInt 0.

Definition host (logsize dump : pyval) (c : exn + client) : world :=
  {| getOption := options logsize dump;
     run_dir := ["a.vfd"; "isoUploader"; "storage"; "svdsm.sock";
                 "payload"; ".lock"];
     st_mode := modes;
     pgrep := inr (String.concat (PyStr.chr PyStr.LF) ["12"; " 34 "; ""]);
     client_connect := c;
     interpreter := PyStr.Python2 |}.

(** Connected, with a size cap and the volume chains asked for. *)
Definition w_ok : world := host (PyInt 5) (PyBool true) (inr cli).

(** No VDSM to talk to, the volume chains asked for. *)
Definition w_refused : world :=
  host PyNone (PyBool true) (inl (Exception "Connection refused")).

(** Connected, but the pool discovery fails. *)
Definition w_no_pools : world :=
  host PyNone (PyBool true) (inr cli_no_pools).


End Sample.

(** ** Importing the VDSM library modules *)

Module Importer.

(** [s.split(".")]; [part] is the component read so far. *)
Fixpoint split_from (part s : string) : list string :=
  match s with
  | EmptyString => [part]
  | String c s' =>
      if Ascii.eqb c "."%char then part :: split_from EmptyString s'
      else split_from (part ++ PyStr.chr c) s'
  end.

Definition split_dots (s : string) : list string :=
  split_from EmptyString s.

(** [os.path.join(a, b)] of [posixpath]. *)
Definition os_path_join (a b : string) : string :=
  if PyStr.startswith b "/" then b
  else if (a =? "")%string || PyStr.endswith a "/" then a ++ b
  else a ++ "/" ++ b.

(** A module object. *)
Inductive pymodule : Type := PyModule (id : nat).

(** What [imp.find_module] returns: the open file (none for a package),
    the path name and the description. *)
Record found : Type := {
  fd_file : option nat;
  fd_pathname : string;
  fd_description : string
}.

(** The import machinery of the host. *)
Record machinery : Type := {
  (** [distutils.sysconfig.get_python_lib(False)] *)
  get_python_lib : string;
  (** [imp.find_module(name, [dir])], or the [ImportError] *)
  imp_find_module : string -> string -> exn + found;
  (** [imp.load_module(name, f, path, desc)], or what the module raises *)
  imp_load_module : string -> found -> exn + pymodule
}.

Inductive call : Type :=
| find_module (name : string) (path : list string)
| load_module (name : string) (fd : found)
| file_close (handle : nat).

(** [if f: f.close()] *)
Definition close_if_open (fd : found) : list call :=
  match fd_file fd with
  | Some handle => [file_close handle]
  | None => []
  end.

(** The loop of [_importVdsmPylibModule] over the components still to
    import, with the variables [fullName], [search] and [module] as they
    stand. *)
Fixpoint import_parts (host : machinery) (parts : list string)
    (fullName search : string) (module : option pymodule)
  : list call * outcome pymodule :=
  match parts with
  | [] =>
      ([], match module with
           | Some m => Returned m
           | None =>
               Raised (Exception
                 "local variable 'module' referenced before assignment")
           end)
  | name :: parts' =>
      let fullName :=
        (if (fullName =? "")%string then fullName else fullName ++ ".")
          ++ name in
      match imp_find_module host name search with
      | inl e => ([find_module name [search]], Raised e)
      | inr fd =>
          match imp_load_module host fullName fd with
          | inl e =>
              ((find_module name [search] :: load_module fullName fd
                  :: close_if_open fd)%list, Raised e)
          | inr m =>
              let '(t, o) :=
                import_parts host parts' fullName (os_path_join search name)
                             (Some m) in
              ((find_module name [search] :: load_module fullName fd
                  :: close_if_open fd ++ t)%list, o)
          end
      end
  end.

Definition _importVdsmPylibModule (host : machinery) (fullName : string)
  : list call * outcome pymodule :=
  import_parts host (split_dots fullName) EmptyString (get_python_lib host)
               None.

(** The names handed to [imp.load_module] and the lookups of
    [imp.find_module], in the order of the calls. *)
Fixpoint loaded_names (t : list call) : list string :=
  match t with
  | [] => []
  | load_module name _ :: t' => name :: loaded_names t'
  | _ :: t' => loaded_names t'
  end.

Fixpoint searches (t : list call) : list (string * list string) :=
  match t with
  | [] => []
  | find_module name path :: t' => (name, path) :: searches t'
  | _ :: t' => searches t'
  end.

Definition found_eqb (a b : found) : bool :=
  match fd_file a, fd_file b with
  | Some x, Some y => Nat.eqb x y
  | None, None => true
  | _, _ => false
  end
  && (fd_pathname a =? fd_pathname b)%string
  && (fd_description a =? fd_description b)%string.

(** The files the lookups of a trace opened, and the files the trace
    closed, in the order of the calls. *)
Fixpoint opened_files (host : machinery) (t : list call) : list nat :=
  match t with
  | [] => []
  | find_module name [dir] :: rest =>
      match imp_find_module host name dir with
      | inr fd =>
          match fd_file fd with
          | Some handle => handle :: opened_files host rest
          | None => opened_files host rest
          end
      | inl _ => opened_files host rest
      end
  | _ :: rest => opened_files host rest
  end.

Fixpoint closed_files (t : list call) : list nat :=
  match t with
  | [] => []
  | file_close handle :: rest => handle :: closed_files rest
  | _ :: rest => closed_files rest
  end.

(** The trace is made of rounds, one per lookup in a single directory:
    a lookup that fails ends the trace; a lookup that finds something is
    followed by the load of what it found, and, when it opened a file, by
    the closing of that file right after the load.  Nothing else is
    called. *)
Fixpoint in_rounds (host : machinery) (t : list call) : bool :=
  match t with
  | [] => true
  | find_module name [dir] :: after_find =>
      match imp_find_module host name dir with
      | inl _ => match after_find with [] => true | _ => false end
      | inr fd =>
          match after_find with
          | load_module _ loaded :: after_load =>
              found_eqb fd loaded
              && match fd_file fd with
                 | None => in_rounds host after_load
                 | Some handle =>
                     match after_load with
                     | file_close closed :: after_close =>
                         Nat.eqb handle closed && in_rounds host after_close
                     | _ => false
                     end
                 end
          | _ => false
          end
      end
  | _ => false
  end.

(** The dotted names [a], [a.b], [a.b.c] of the components [a; b; c],
    after the components [seen]. *)
Fixpoint dotted_from (seen : string) (parts : list string) : list string :=
  match parts with
  | [] => []
  | name :: parts' =>
      let seen' := (if (seen =? "")%string then name
                    else seen ++ "." ++ name) in
      seen' :: dotted_from seen' parts'
  end.

(** The directories the components are looked up in, starting at [dir]. *)
Fixpoint search_dirs (dir : string) (parts : list string)
  : list (string * list string) :=
  match parts with
  | [] => []
  | name :: parts' =>
      (name, [dir]) :: search_dirs (os_path_join dir name) parts'
  end.

(** A host with the package [vdsm] and its module [client]; [vdsm.utils]
    fails while it loads, [jsonrpc] is not there. *)
Definition sample_host : machinery :=
  {| get_python_lib := "/usr/lib/python2.7/site-packages";
     imp_find_module := fun name dir =>
       if (name =? "vdsm")%string
       then inr {| fd_file := None; fd_pathname := dir ++ "/vdsm";
                   fd_description := "package" |}
       else if (name =? "client")%string
       then inr {| fd_file := Some 3; fd_pathname := dir ++ "/client.py";
                   fd_description := "source" |}
       else if (name =? "utils")%string
       then inr {| fd_file := Some 4; fd_pathname := dir ++ "/utils.py";
                   fd_description := "source" |}
       else inl (Exception ("No module named " ++ name));
     imp_load_module := fun name fd =>
       if (name =? "vdsm")%string then inr (PyModule 1)
       else if (name =? "vdsm.client")%string then inr (PyModule 2)
       else inl (Exception "cannot import name six") |}.

(** A host on which every name is a package that loads; the module of a
    name is numbered by the length of the name. *)
Definition lenient_host : machinery :=
  {| get_python_lib := "/usr/lib/python2.7/site-packages";
     imp_find_module := fun name dir =>
       inr {| fd_file := None; fd_pathname := os_path_join dir name;
              fd_description := "package" |};
     imp_load_module := fun name _ => inr (PyModule (String.length name)) |}.

End Importer.

(** ** The names the class binds for both generations of sos *)

Module Shim.

(** [getattr(Plugin, name)] on a class that has the attributes [plugin]. *)
Definition getattr (plugin : list string) (name : string) : exn + string :=
  if existsb (String.eqb name) plugin then inr name
  else inl (Exception
              ("type object 'Plugin' has no attribute '" ++ name ++ "'")).

Definition hasattr (plugin : list string) (name : string) : bool :=
  existsb (String.eqb name) plugin.

(** One assignment [alias = Plugin.target] of the class body, added to the
    namespace [ns] built so far. *)
Definition assign (plugin : list string) (alias target : string)
    (ns : exn + list (string * string)) : exn + list (string * string) :=
  match ns with
  | inl e => inl e
  | inr bound =>
      match getattr plugin target with
      | inl e => inl e
      | inr method => inr (bound ++ [(alias, method)])%list
      end
  end.

(** The assignments in the body of [class vdsm], in their order: the
    namespace of the class, or the [AttributeError] that stops its
    creation. *)
Definition class_body (plugin : list string)
  : exn + list (string * string) :=
  if negb (hasattr plugin "addCopySpec") then
    let ns := assign plugin "addCopySpec" "add_copy_spec" (inr []) in
    let ns :=
      if hasattr plugin "add_copy_spec_limit"
      then assign plugin "addCopySpecLimit" "add_copy_spec_limit" ns
      else assign plugin "addCopySpecLimit" "add_copy_spec" ns in
    let ns := assign plugin "collectExtOutput" "add_cmd_output" ns in
    let ns := assign plugin "getOption" "get_option" ns in
    let ns := assign plugin "addForbiddenPath" "add_forbidden_path" ns in
    assign plugin "addStringAsFile" "add_string_as_file" ns
  else inr [].

Fixpoint lookup (ns : list (string * string)) (name : string)
  : option string :=
  match ns with
  | [] => None
  | (alias, method) :: ns' =>
      if (alias =? name)%string then Some method else lookup ns' name
  end.

(** [self.name]: the class namespace first, then the base class. *)
Definition resolve (plugin : list string) (ns : list (string * string))
    (name : string) : exn + string :=
  match lookup ns name with
  | Some method => inr method
  | None => getattr plugin name
  end.

(** The methods [setup], [collectVdsmCommand] and [_addVdsmRunDir] call on
    [self]. *)
Definition used_names : list string :=
  ["addForbiddenPath"; "collectExtOutput"; "addCopySpec"; "getOption";
   "addCopySpecLimit"; "addStringAsFile"].

(** The method of sos 3 behind each of them. *)
Definition counterpart (plugin : list string) (name : string) : string :=
  if (name =? "addCopySpec")%string then "add_copy_spec"
  else if (name =? "addCopySpecLimit")%string then
    (if hasattr plugin "add_copy_spec_limit" then "add_copy_spec_limit"
     else "add_copy_spec")
  else if (name =? "collectExtOutput")%string then "add_cmd_output"
  else if (name =? "getOption")%string then "get_option"
  else if (name =? "addForbiddenPath")%string then "add_forbidden_path"
  else if (name =? "addStringAsFile")%string then "add_string_as_file"
  else name.

(** The methods of sos 3 that the class body reads whatever the class
    has. *)
Definition required : list string :=
  ["add_copy_spec"; "add_cmd_output"; "get_option"; "add_forbidden_path";
   "add_string_as_file"].

(** [Plugin] of sos 3.4, which has no [add_copy_spec_limit]. *)
Definition sos_3_4 : list string :=
  ["add_copy_spec"; "add_cmd_output"; "get_option"; "add_forbidden_path";
   "add_string_as_file"; "add_journal"].

End Shim.

(** ** The terraform test *)

Module Terraform.

(** What the test sees: whether the star imports bind the name [os], the
    environment, the [suite_dir] fixture and the answers of the
    [ansible_engine] module mapper. *)
Record fixtures : Type := {
  os_bound : bool;
  environ : string -> option string;
  suite_dir : string;
  ansible_copy : string -> string -> string -> exn + unit;
  ansible_shell : string -> exn + unit
}.

Inductive call : Type :=
| copy (src dest mode : string)
| shell (cmd : string).

(** [pr = os.environ.get('STD_CI_REFSPEC')], then ["master"] in its place
    when it is [None] or empty. *)
Definition refspec (fx : fixtures) : string :=
  match environ fx "STD_CI_REFSPEC" with
  | None => "master"
  | Some pr => if (pr =? "")%string then "master" else pr
  end.

(** One call on the module mapper, then the rest of the test. *)
Definition then_ (c : call) (answer : exn + unit)
    (rest : list call * outcome unit) : list call * outcome unit :=
  match answer with
  | inl e => ([c], Raised e)
  | inr _ => let '(t, o) := rest in (c :: t, o)
  end.

Definition test_init_terraform (fx : fixtures) : list call * outcome unit :=
  let working_dir := "/tmp" in
  let func := "func.sh" in
  let script := "test-init-terraform.sh" in
  if negb (os_bound fx)
  then ([], Raised (Exception "name 'os' is not defined"))
  else
    let pr := refspec fx in
    let src_script_file := Importer.os_path_join (suite_dir fx) func in
    let dst_script_file := Importer.os_path_join working_dir func in
    then_ (copy src_script_file dst_script_file "0755")
          (ansible_copy fx src_script_file dst_script_file "0755")
      (let src_script_file := Importer.os_path_join (suite_dir fx) script in
       let dst_script_file := Importer.os_path_join working_dir script in
       then_ (copy src_script_file dst_script_file "0755")
             (ansible_copy fx src_script_file dst_script_file "0755")
         (let cmd := dst_script_file ++ " " ++ "-w /tmp " ++ "-t " ++ pr in
          then_ (shell cmd) (ansible_shell fx cmd) ([], Returned tt))).

Fixpoint shells (t : list call) : list string :=
  match t with
  | [] => []
  | shell cmd :: t' => cmd :: shells t'
  | _ :: t' => shells t'
  end.

(** A run on a pull request, in a suite checked out under [/ost]. *)
Definition sample (pr : option string) : fixtures :=
  {| os_bound := true;
     environ := fun n => if (n =? "STD_CI_REFSPEC")%string then pr else None;
     suite_dir := "/ost/tr-suite-master";
     ansible_copy := fun _ _ _ => inr tt;
     ansible_shell := fun _ => inr tt |}.

End Terraform.

(** ** Reading strings and traces, for the rest of the plugin *)

Module Text.

Fixpoint forall_chars (p : ascii -> bool) (s : string) : bool :=
  match s with
  | EmptyString => true
  | String c s' => p c && forall_chars p s'
  end.

(** The string does not start with a blank. *)
Definition head_not_blank (s : string) : bool :=
  match s with
  | EmptyString => true
  | String c _ => negb (PyStr.isspace c)
  end.

(** No blank at either end. *)
Definition trimmed (s : string) : bool :=
  head_not_blank s && head_not_blank (PyStr.rev s).

(** Two spaces in a row somewhere. *)
Fixpoint double_space (s : string) : bool :=
  match s with
  | EmptyString => false
  | String a s' =>
      match s' with
      | EmptyString => false
      | String b _ =>
          (Ascii.eqb a " "%char && Ascii.eqb b " "%char) || double_space s'
      end
  end.

(** The string without its blanks. *)
Fixpoint squeeze (s : string) : string :=
  match s with
  | EmptyString => EmptyString
  | String c s' => if PyStr.isspace c then squeeze s' else String c (squeeze s')
  end.

(** A space, or a character that is no blank at all. *)
Definition space_or_ink (c : ascii) : bool :=
  Ascii.eqb c " "%char || negb (PyStr.isspace c).

(** A character both generations of Python put in the same class: an
    ASCII character other than the four separators [0x1c] to [0x1f],
    which are blanks for the [str] of Python 3 only.  (Outside ASCII,
    [0x85] and [0xa0] are blanks for Python 3 too.) *)
Definition agreed (c : ascii) : bool :=
  let n := nat_of_ascii c in
  (n <? 128)%nat && negb ((28 <=? n)%nat && (n <=? 31)%nat).

Definition is_break (c : ascii) : bool :=
  Ascii.eqb c PyStr.LF || Ascii.eqb c PyStr.CR.

Definition no_break (s : string) : bool :=
  forall_chars (fun c => negb (is_break c)) s.

End Text.

(** The path passes the three tests on its name, so that [os.stat] is
    called on it. *)
Definition stat_asked (f : string) : bool :=
  negb (PyStr.endswith f ".vfd")
  && negb (PyStr.endswith f "/isoUploader")
  && negb (PyStr.endswith f "/storage").

Definition is_proc_copy (ev : event) : bool :=
  match ev with
  | addCopySpec p | addCopySpecLimit p _ => PyStr.startswith p "/proc/"
  | _ => false
  end.

(** The three requests for the process [pid]. *)
Definition proc_requests (pid : string) : trace :=
  [addCopySpec ("/proc/" ++ pid ++ "/cmdline");
   addCopySpec ("/proc/" ++ pid ++ "/status");
   addCopySpec ("/proc/" ++ pid ++ "/mountstats")].



(** The names of the artifacts a connected run files for [pools]. *)
Definition artifact_names (pools : list string) : list string :=
  app (map (fun c => fst (fst c)) fixed_calls)
      (map (fun pool => "StoragePool.getSpmStatus " ++ pool) pools).

Module Sample2.

(** The client of [Sample] with a failing domain discovery. *)
Definition cli_no_domains : client :=
  {| answer := answer Sample.cli;
     getConnectedStoragePools := inr ["p1"; "p1"];
     getStorageDomains := fun _ => inl (Exception "Storage is busy") |}.

Definition w_no_domains : world :=
  Sample.host PyNone (PyBool true) (inr cli_no_domains).

(** No [pgrep] on the host. *)
Definition w_no_pgrep : world :=
  {| getOption := Sample.options PyNone (PyBool false);
     run_dir := ["payload"; "a.vfd"];
     st_mode := Sample.modes;
     pgrep := inl (Exception "[Errno 2] No such file or directory");
     client_connect := inr Sample.cli;
     interpreter := PyStr.Python2 |}.

(** A dangling link between two regular files. *)
Definition w_stale : world :=
  {| getOption := Sample.options PyNone (PyBool false);
     run_dir := ["payload"; "stale"; "nets"];
     st_mode := Sample.modes;
     pgrep := inr "";
     client_connect := inr Sample.cli;
     interpreter := PyStr.Python2 |}.

(** A client that answers with a set. *)
Definition cli_set : client :=
  {| answer := fun _ _ => inr (PyList [PyInt 1; PyObject "set([2])"]);
     getConnectedStoragePools := inr [];
     getStorageDomains := fun _ => inr [] |}.

(** [Sample.w_ok] on Python 3. *)
Definition w_py3 : world :=
  {| getOption := getOption Sample.w_ok;
     run_dir := run_dir Sample.w_ok;
     st_mode := st_mode Sample.w_ok;
     pgrep := pgrep Sample.w_ok;
     client_connect := client_connect Sample.w_ok;
     interpreter := PyStr.Python3 |}.

End Sample2.

(** * Proofs *)

(** ** Laws of the control flow *)

Section RunLaws.

Context {A B : Type}.

Lemma bind_unfold (m : run A) (k : A -> run B) :
  Run.bind m k =
  ((events m ++ match result m with
                | Returned a => events (k a)
                | Raised _ => []
                end)%list,
   match result m with
   | Returned a => result (k a)
   | Raised e => Raised e
   end).
Proof.
  destruct m as [t [a | e]]; cbn.
  - destruct (k a); reflexivity.
  - now rewrite app_nil_r.
Qed.

Lemma bind_returned (m : run A) (k : A -> run B) a :
  result m = Returned a ->
  Run.bind m k = ((events m ++ events (k a))%list, result (k a)).
Proof. intros H. rewrite bind_unfold, H. reflexivity. Qed.

Lemma bind_raised (m : run A) (k : A -> run B) e :
  result m = Raised e -> Run.bind m k = (events m, Raised e).
Proof. intros H. rewrite bind_unfold, H. now rewrite app_nil_r. Qed.

Lemma bind_ret (a : A) (k : A -> run B) : Run.bind (Run.ret a) k = k a.
Proof. unfold Run.bind, Run.ret. destruct (k a); reflexivity. Qed.

Lemma events_bind_prefix (m : run A) (k : A -> run B) :
  exists rest, events (Run.bind m k) = (events m ++ rest)%list.
Proof. rewrite bind_unfold. eexists. reflexivity. Qed.

End RunLaws.

Lemma bind_request {B} (ev : event) (k : unit -> run B) :
  Run.bind (Run.request ev) k = (ev :: events (k tt), result (k tt)).
Proof. unfold Run.bind, Run.request. destruct (k tt); reflexivity. Qed.

Lemma bind_assoc {A B C} (m : run A) (k : A -> run B) (h : B -> run C) :
  Run.bind (Run.bind m k) h = Run.bind m (fun a => Run.bind (k a) h).
Proof.
  destruct m as [t [a | e]]; cbn; [| reflexivity].
  destruct (k a) as [t1 [b | e1]]; cbn; [| reflexivity].
  destruct (h b) as [t2 o2]. now rewrite app_assoc.
Qed.

(** A loop whose body only files requests. *)
Lemma for_each_requests {A} (l : list A) (f : A -> list event) body :
  (forall x, body x = (f x, Returned tt)) ->
  Run.for_each l body = (flat_map f l, Returned tt).
Proof.
  intros Hbody. induction l as [| x l IH]; cbn; [reflexivity |].
  rewrite Hbody, IH. cbn. reflexivity.
Qed.

(** Every event of a sequence satisfies what the events of its parts do. *)
Lemma Forall_events_bind {A B} (P : event -> Prop) (m : run A)
    (k : A -> run B) :
  Forall P (events m) -> (forall a, Forall P (events (k a))) ->
  Forall P (events (Run.bind m k)).
Proof.
  intros Hm Hk. rewrite bind_unfold. cbn.
  apply Forall_app. split; [exact Hm |].
  destruct (result m); [apply Hk | constructor].
Qed.

Lemma Forall_events_for_each {A} (P : event -> Prop) (l : list A) body :
  (forall x, Forall P (events (body x))) ->
  Forall P (events (Run.for_each l body)).
Proof.
  intros Hbody. induction l as [| x l IH]; cbn; [constructor |].
  apply Forall_events_bind; auto.
Qed.

Lemma Forall_events_try {A} (P : event -> Prop) (m : run A) h :
  Forall P (events m) -> (forall e, Forall P (events (h e))) ->
  Forall P (events (Run.try_except m h)).
Proof.
  intros Hm Hh. destruct m as [t [a | e]]; cbn in *; [exact Hm |].
  specialize (Hh e). destruct (h e) as [t' o]. cbn in *.
  apply Forall_app. now split.
Qed.

Lemma Forall_events_finally {A} (P : event -> Prop) (m : run A) c :
  Forall P (events m) -> Forall P (events c) ->
  Forall P (events (Run.finally m c)).
Proof.
  intros Hm Hc. destruct m as [t o], c as [t' [[] | e]]; cbn in *;
    apply Forall_app; now split.
Qed.

(** ** The capture-or-error-string rule *)

Lemma bind_pair {A B} (t : trace) (a : A) (k : A -> run B) :
  Run.bind (t, Returned a) k = ((t ++ events (k a))%list, result (k a)).
Proof. cbn. destruct (k a); reflexivity. Qed.

Lemma collectVdsmCommand_run name call kw :
  vdsm.collectVdsmCommand name call kw =
  ((events (call kw) ++ [addStringAsFile (artifact (result (call kw))) name])
     %list, Returned tt).
Proof.
  unfold vdsm.collectVdsmCommand, artifact.
  destruct (call kw) as [t [v | e]]; cbn; [| reflexivity].
  destruct (Json.dumps v) as [e | text]; cbn;
    rewrite ?app_nil_r, <- ?app_assoc; reflexivity.
Qed.

Lemma collect_bound_run name cli m kw :
  vdsm.collectVdsmCommand name (vdsm.bound cli m) kw =
  (collected cli name m kw, Returned tt).
Proof.
  rewrite collectVdsmCommand_run. unfold collected, answered, vdsm.bound.
  cbn. destruct (answer cli m kw); reflexivity.
Qed.

(** C2. A remote call run through [collectVdsmCommand] under the name
    [name]: when the call returns [v] and [text] is the serialization of
    [v], the one artifact filed is [text] under [name]; when the call raises
    [e], the one artifact filed is [str(e)] under [name]; in every case
    exactly one artifact is filed, under [name], after whatever the call
    itself did, and [collectVdsmCommand] returns normally. *)
Theorem collectVdsmCommand_capture_or_error_string
    (name : string) (call : kwargs -> run pyval) (kw : kwargs) :
  (forall v text,
      result (call kw) = Returned v -> Json.dumps v = inr text ->
      vdsm.collectVdsmCommand name call kw =
      ((events (call kw) ++ [addStringAsFile text name])%list, Returned tt))
  /\ (forall e,
         result (call kw) = Raised e ->
         vdsm.collectVdsmCommand name call kw =
         ((events (call kw) ++ [addStringAsFile (str_exn e) name])%list,
          Returned tt))
  /\ (exists content,
         vdsm.collectVdsmCommand name call kw =
         ((events (call kw) ++ [addStringAsFile content name])%list,
          Returned tt)).
Proof.
  rewrite collectVdsmCommand_run. repeat split.
  - intros v text Hv Hd. rewrite Hv. cbn. now rewrite Hd.
  - intros e He. now rewrite He.
  - eexists. reflexivity.
Qed.

Lemma collectVdsmCommand_capture_witness :
  vdsm.collectVdsmCommand "Host.getStats"
    (vdsm.bound Sample.cli Host_getStats) [] =
  ([invoke Host_getStats [];
    addStringAsFile "Not enough resources" "Host.getStats"], Returned tt).
Proof.
  exact (proj1 (proj2
    (collectVdsmCommand_capture_or_error_string "Host.getStats"
       (vdsm.bound Sample.cli Host_getStats) []))
    (Exception "Not enough resources") eq_refl).
Defined.

(** ** The shape of a run *)

Ltac run_step :=
  first [ rewrite collect_bound_run
        | rewrite bind_request
        | rewrite bind_pair ];
  cbv beta; cbn [events result fst snd].

Ltac run_steps := repeat run_step.

Ltac norm_app :=
  repeat first [ rewrite <- app_assoc
               | rewrite <- app_comm_cons
               | rewrite app_nil_r ].

Lemma pools_loop_run cli pools :
  Run.for_each pools (fun pool =>
    vdsm.collectVdsmCommand ("StoragePool.getSpmStatus " ++ pool)
      (vdsm.bound cli StoragePool_getSpmStatus)
      [("storagepoolID", PyStr pool)])
  = (pools_trace cli pools, Returned tt).
Proof.
  apply for_each_requests. intros pool. apply collect_bound_run.
Qed.

Lemma domains_loop_run sd_uuids :
  Run.for_each sd_uuids (fun sd_uuid =>
    Run.request
      (collectExtOutput ("vdsm-tool dump-volume-chains " ++ sd_uuid)))
  = (domains_trace sd_uuids, Returned tt).
Proof.
  unfold domains_trace.
  induction sd_uuids as [| x l IH]; cbn [Run.for_each map].
  - reflexivity.
  - rewrite bind_request, IH. reflexivity.
Qed.

Lemma domains_branch_run w cli :
  (if truthy (getOption w "dump-volume-chains") then
     let kw := [("domainClass", PyInt vdsm.DATA_DOMAIN)] in
     Run.bind (Run.call (invoke Host_getStorageDomains kw)
                        (getStorageDomains cli kw))
       (fun sd_uuids =>
          Run.for_each sd_uuids (fun sd_uuid =>
            Run.request
              (collectExtOutput
                 ("vdsm-tool dump-volume-chains " ++ sd_uuid))))
   else Run.ret tt) = domains_branch w cli.
Proof.
  unfold domains_branch, domains_kwargs, Run.call. cbv zeta.
  destruct (truthy (getOption w "dump-volume-chains")); [| reflexivity].
  destruct (getStorageDomains cli _) as [e | sd_uuids]; [reflexivity |].
  run_steps. now rewrite domains_loop_run.
Qed.

Lemma remote_phase_run w cli :
  vdsm.remote_phase w cli =
  match getConnectedStoragePools cli with
  | inl e =>
      ((fixed_trace cli ++ [invoke Host_getConnectedStoragePools []])%list,
       Raised e)
  | inr pools =>
      ((fixed_trace cli ++ invoke Host_getConnectedStoragePools []
          :: pools_trace cli pools ++ events (domains_branch w cli))%list,
       result (domains_branch w cli))
  end.
Proof.
  unfold vdsm.remote_phase. rewrite domains_branch_run.
  unfold Run.call, fixed_trace, fixed_calls. cbn [flat_map fst snd].
  rewrite app_nil_r, <- !app_assoc.
  destruct (getConnectedStoragePools cli) as [e | pools].
  - run_steps. reflexivity.
  - run_steps. rewrite pools_loop_run. run_steps. reflexivity.
Qed.

Lemma log_request_run w :
  (let logsize := getOption w "logsize" in
   if is_not_None logsize
   then Run.request (addCopySpecLimit "/var/log/vdsm/*" logsize)
   else Run.request (addCopySpec "/var/log/vdsm/*"))
  = Run.request (log_request w).
Proof.
  unfold log_request. cbv zeta.
  now destruct (is_not_None (getOption w "logsize")).
Qed.

Lemma proc_loop_run py out :
  Run.for_each (PyStr.splitlines out) (fun line =>
    let pid := PyStr.strip line in
    Run.bind (Run.request (addCopySpec
                ("/proc/" ++ PyStr.percent_s py pid ++ "/cmdline")))
      (fun _ =>
         Run.bind (Run.request (addCopySpec
                     ("/proc/" ++ PyStr.percent_s py pid ++ "/status")))
           (fun _ =>
              Run.request (addCopySpec
                ("/proc/" ++ PyStr.percent_s py pid ++ "/mountstats")))))
  = (proc_trace py out, Returned tt).
Proof. unfold proc_trace. now apply for_each_requests. Qed.

Lemma local_phase_run w :
  vdsm.local_phase w =
  ((header_trace ++ log_request w :: events (vdsm._addVdsmRunDir w)
      ++ match result (vdsm._addVdsmRunDir w) with
         | Returned _ => events (after_run_dir w)
         | Raised _ => []
         end)%list,
   match result (vdsm._addVdsmRunDir w) with
   | Returned _ => result (after_run_dir w)
   | Raised e => Raised e
   end).
Proof.
  unfold vdsm.local_phase. rewrite log_request_run.
  unfold header_trace, after_run_dir, static_copies, tail_commands.
  cbn [map app].
  set (LVM := vdsm.LVM_CONFIG).
  destruct (vdsm._addVdsmRunDir w) as [t [[] | e]].
  - unfold Run.ask. destruct (pgrep w) as [e | out].
    + run_steps. reflexivity.
    + run_steps. rewrite proc_loop_run. run_steps. reflexivity.
  - run_steps. now rewrite app_nil_r.
Qed.

Lemma connect_run w :
  Run.try_except
    (Run.bind (Run.call (connect "localhost") (client_connect w))
              (fun cli => Run.ret (Some cli)))
    (fun e =>
       Run.bind (Run.request (addStringAsFile
                   ("Cannot connect to vdsm: " ++ str_exn e)
                   "client.connect"))
                (fun _ => Run.ret None))
  = match client_connect w with
    | inl e => ([connect "localhost"; connect_error e], Returned None)
    | inr cli => ([connect "localhost"], Returned (Some cli))
    end.
Proof.
  unfold Run.call. destruct (client_connect w) as [e | cli]; reflexivity.
Qed.

Lemma setup_run w :
  vdsm.setup w =
  match result (vdsm.local_phase w) with
  | Raised e => (events (vdsm.local_phase w), Raised e)
  | Returned _ =>
      match client_connect w with
      | inl e =>
          ((events (vdsm.local_phase w)
              ++ [connect "localhost"; connect_error e])%list, Returned tt)
      | inr cli =>
          ((events (vdsm.local_phase w)
              ++ connect "localhost"
              :: events (vdsm.remote_phase w cli) ++ [close])%list,
           result (vdsm.remote_phase w cli))
      end
  end.
Proof.
  unfold vdsm.setup. rewrite connect_run.
  destruct (vdsm.local_phase w) as [t [[] | e]]; cbn [events result fst snd].
  - destruct (client_connect w) as [e | cli].
    + run_steps. reflexivity.
    + run_steps. unfold Run.finally, Run.request.
      destruct (vdsm.remote_phase w cli) as [t' o]. reflexivity.
  - reflexivity.
Qed.

(** ** The run directory *)

Lemma run_dir_body w f :
  (if negb (PyStr.endswith f ".vfd")
      && negb (PyStr.endswith f "/isoUploader")
      && negb (PyStr.endswith f "/storage")
   then
     Run.bind (Run.ask (st_mode w f)) (fun mode =>
       if negb (S_ISSOCK mode) then Run.request (addCopySpec f)
       else Run.ret tt)
   else Run.ret tt)
  = ((if wanted w f then [addCopySpec f] else []),
     if negb (PyStr.endswith f ".vfd")
        && negb (PyStr.endswith f "/isoUploader")
        && negb (PyStr.endswith f "/storage")
     then match st_mode w f with
          | inl e => Raised e
          | inr _ => Returned tt
          end
     else Returned tt).
Proof.
  unfold wanted, Run.ask.
  destruct (negb (PyStr.endswith f ".vfd")
            && negb (PyStr.endswith f "/isoUploader")
            && negb (PyStr.endswith f "/storage")); [| reflexivity].
  destruct (st_mode w f) as [e | mode]; [reflexivity |].
  cbn. now destruct (S_ISSOCK mode).
Qed.

(** Whatever happens, the run directory only yields copy requests for
    wanted paths of the listing. *)
Lemma run_dir_events w :
  Forall (fun ev => exists f,
            ev = addCopySpec f
            /\ In f (glob_star "/var/run/vdsm" (run_dir w))
            /\ wanted w f = true)
         (events (vdsm._addVdsmRunDir w)).
Proof.
  unfold vdsm._addVdsmRunDir.
  generalize (glob_star "/var/run/vdsm" (run_dir w)) as L. intros L.
  enough (H : forall l, incl l L ->
            Forall (fun ev => exists f,
                      ev = addCopySpec f /\ In f L /\ wanted w f = true)
              (events (Run.for_each l (fun f =>
                 if negb (PyStr.endswith f ".vfd")
                    && negb (PyStr.endswith f "/isoUploader")
                    && negb (PyStr.endswith f "/storage")
                 then
                   Run.bind (Run.ask (st_mode w f)) (fun mode =>
                     if negb (S_ISSOCK mode)
                     then Run.request (addCopySpec f)
                     else Run.ret tt)
                 else Run.ret tt))))
    by (apply H, incl_refl).
  induction l as [| f l IH]; intros Hin; cbn [Run.for_each].
  - constructor.
  - apply Forall_events_bind.
    + rewrite run_dir_body. cbn [events fst].
      destruct (wanted w f) eqn:Hw; constructor; [| constructor].
      exists f. repeat split; auto. apply Hin. now left.
    + intros _. apply IH. intros g Hg. apply Hin. now right.
Qed.

(** When [os.stat] answers, the run directory yields exactly the wanted
    paths, in the order of the listing, and returns. *)
Lemma run_dir_run w :
  stat_answers w (glob_star "/var/run/vdsm" (run_dir w)) ->
  vdsm._addVdsmRunDir w =
  (map addCopySpec
       (filter (wanted w) (glob_star "/var/run/vdsm" (run_dir w))),
   Returned tt).
Proof.
  unfold vdsm._addVdsmRunDir.
  generalize (glob_star "/var/run/vdsm" (run_dir w)) as l.
  induction l as [| f l IH]; intros Hstat; cbn [Run.for_each filter].
  - reflexivity.
  - rewrite run_dir_body, IH.
    2:{ intros g Hg. apply Hstat. now right. }
    assert (Hf := Hstat f (or_introl eq_refl)).
    destruct (PyStr.endswith f ".vfd") eqn:E1;
      [unfold wanted; rewrite E1; reflexivity |].
    destruct (PyStr.endswith f "/isoUploader") eqn:E2;
      [unfold wanted; rewrite E1, E2; reflexivity |].
    destruct (PyStr.endswith f "/storage") eqn:E3;
      [unfold wanted; rewrite E1, E2, E3; reflexivity |].
    destruct Hf as [mode Hmode]; auto.
    unfold wanted. rewrite E1, E2, E3, Hmode. cbn [negb andb].
    destruct (negb (S_ISSOCK mode)); reflexivity.
Qed.

(** ** The local phase needs no connection *)

Lemma local_phase_is_local w :
  Forall (fun ev => is_local ev = true) (events (vdsm.local_phase w)).
Proof.
  rewrite local_phase_run. cbn [events fst].
  apply Forall_app. split; [repeat constructor |].
  constructor; [unfold log_request; now destruct (is_not_None _) |].
  apply Forall_app. split.
  - eapply Forall_impl; [| apply run_dir_events].
    intros ev (f & -> & _). reflexivity.
  - destruct (result (vdsm._addVdsmRunDir w)); [| constructor].
    unfold after_run_dir. destruct (pgrep w) as [e | out]; cbn [events fst].
    + repeat constructor.
    + apply Forall_app. split; [repeat constructor |].
      apply Forall_app. split; [| repeat constructor].
      unfold proc_trace. apply Forall_flat_map, Forall_forall.
      intros line _. repeat constructor.
Qed.

(** ** Reading the trace of a sequence *)

Lemma string_files_app (t1 t2 : trace) :
  string_files (t1 ++ t2)%list = (string_files t1 ++ string_files t2)%list.
Proof.
  induction t1 as [| ev t1 IH]; [reflexivity |].
  destruct ev; cbn; now rewrite ?IH.
Qed.

Lemma invocations_app (t1 t2 : trace) :
  invocations (t1 ++ t2)%list = (invocations t1 ++ invocations t2)%list.
Proof.
  induction t1 as [| ev t1 IH]; [reflexivity |].
  destruct ev; cbn; now rewrite ?IH.
Qed.

Lemma commands_app (t1 t2 : trace) :
  commands (t1 ++ t2)%list = (commands t1 ++ commands t2)%list.
Proof.
  induction t1 as [| ev t1 IH]; [reflexivity |].
  destruct ev; cbn; now rewrite ?IH.
Qed.

Lemma copy_requests_app (t1 t2 : trace) :
  copy_requests (t1 ++ t2)%list = (copy_requests t1 ++ copy_requests t2)%list.
Proof.
  induction t1 as [| ev t1 IH]; [reflexivity |].
  destruct ev; cbn; now rewrite ?IH.
Qed.

Lemma local_trace_facts t :
  Forall (fun ev => is_local ev = true) t ->
  string_files t = [] /\ invocations t = []
  /\ filter is_local t = t
  /\ Forall (fun ev => is_connect ev = false /\ is_close ev = false) t.
Proof.
  induction 1 as [| ev t Hev _ (IH1 & IH2 & IH3 & IH4)].
  - repeat split; constructor.
  - destruct ev; try discriminate Hev; cbn; rewrite ?IH3;
      repeat split; auto.
Qed.

Lemma filter_local_remote t :
  Forall (fun ev => is_local ev = false) t -> filter is_local t = [].
Proof.
  induction 1 as [| ev t Hev _ IH]; [reflexivity |].
  cbn. now rewrite Hev.
Qed.

(** The connection is reached only when the local phase returns. *)
Lemma connect_reached w :
  In (connect "localhost") (events (vdsm.setup w)) ->
  result (vdsm.local_phase w) = Returned tt.
Proof.
  rewrite setup_run. destruct (result (vdsm.local_phase w)) as [[] | e].
  - reflexivity.
  - cbn [events fst]. intros Hin.
    destruct (local_trace_facts _ (local_phase_is_local w))
      as (_ & _ & _ & Hno).
    rewrite Forall_forall in Hno. now destruct (Hno _ Hin).
Qed.

(** ** The connection *)

Lemma remote_phase_events w cli :
  Forall remote_event (events (vdsm.remote_phase w cli)).
Proof.
  rewrite remote_phase_run.
  assert (Hfixed : Forall remote_event (fixed_trace cli))
    by (repeat constructor).
  destruct (getConnectedStoragePools cli) as [e | pools]; cbn [events fst].
  - apply Forall_app. split; [exact Hfixed | repeat constructor].
  - apply Forall_app. split; [exact Hfixed |].
    constructor; [exact I |].
    apply Forall_app. split.
    + unfold pools_trace. apply Forall_flat_map, Forall_forall.
      intros pool _. repeat constructor.
    + unfold domains_branch.
      destruct (truthy _); [| constructor].
      destruct (getStorageDomains cli domains_kwargs) as [e | sd_uuids];
        cbn [events fst]; [repeat constructor |].
      constructor; [exact I |].
      unfold domains_trace. apply Forall_map, Forall_forall.
      intros sd_uuid _. now exists sd_uuid.
Qed.

Lemma remote_event_facts ev :
  remote_event ev ->
  is_connect ev = false /\ is_close ev = false
  /\ is_copy ev = false /\ is_forbidden ev = false
  /\ is_log_copy ev = false.
Proof. destruct ev; cbn; intros H; now try contradiction. Qed.

Lemma remote_phase_keeps_connection w cli :
  Forall (fun ev => is_connect ev = false /\ is_close ev = false)
         (events (vdsm.remote_phase w cli)).
Proof.
  eapply Forall_impl; [| apply remote_phase_events].
  intros ev Hev. split; now apply remote_event_facts.
Qed.

(** C5. A run in which the connection is established: the trace is some
    events, the one [connect], some events, then [close] as the last
    event, and there is no other [connect] or [close] in it; this holds
    whatever the remote phase does, also when a discovery call raises and
    [setup] passes the exception on. *)
Theorem connection_acquired_once_and_released (w : world) (cli : client) :
  client_connect w = inr cli ->
  In (connect "localhost") (events (vdsm.setup w)) ->
  exists before during,
    events (vdsm.setup w) =
    (before ++ connect "localhost" :: during ++ [close])%list
    /\ Forall (fun ev => is_connect ev = false /\ is_close ev = false)
              (before ++ during)%list.
Proof.
  intros Hcli Hreach. apply connect_reached in Hreach.
  exists (events (vdsm.local_phase w)), (events (vdsm.remote_phase w cli)).
  split.
  - now rewrite setup_run, Hreach, Hcli.
  - apply Forall_app. split.
    + apply (local_trace_facts _ (local_phase_is_local w)).
    + apply remote_phase_keeps_connection.
Qed.

Lemma connection_released_witness :
  result (vdsm.setup Sample.w_no_pools)
  = Raised (Exception "Storage is busy")
  /\ exists before during,
       events (vdsm.setup Sample.w_no_pools) =
       (before ++ connect "localhost" :: during ++ [close])%list
       /\ Forall (fun ev => is_connect ev = false /\ is_close ev = false)
                 (before ++ during)%list.
Proof.
  split; [reflexivity |].
  apply (connection_acquired_once_and_released
           Sample.w_no_pools Sample.cli_no_pools eq_refl).
  vm_compute. tauto.
Defined.

(** ** A failing discovery call *)

Lemma discovery_failure_propagates w cli e :
  result (vdsm.local_phase w) = Returned tt ->
  client_connect w = inr cli ->
  getConnectedStoragePools cli = inl e ->
  result (vdsm.setup w) = Raised e.
Proof.
  intros Hlocal Hcli Hpools.
  now rewrite setup_run, Hlocal, Hcli, remote_phase_run, Hpools.
Qed.

(** C1, at a host where the pool discovery fails: [setup] does not
    complete, it passes the exception of [getConnectedStoragePools] on to
    its caller; nothing is filed for the failed call and the per-domain
    branch, which the option asks for, is not run. *)
Theorem setup_passes_discovery_failure_on :
  result (vdsm.setup Sample.w_no_pools)
  = Raised (Exception "Storage is busy")
  /\ map fst (string_files (events (vdsm.setup Sample.w_no_pools)))
     = map (fun c => fst (fst c)) fixed_calls
  /\ truthy (getOption Sample.w_no_pools "dump-volume-chains") = true
  /\ ~ In (Host_getStorageDomains, domains_kwargs)
          (invocations (events (vdsm.setup Sample.w_no_pools))).
Proof.
  repeat split.
  vm_compute. intuition discriminate.
Qed.

(** ** The fan-outs *)

Lemma setup_connected w cli pools :
  client_connect w = inr cli ->
  In (connect "localhost") (events (vdsm.setup w)) ->
  getConnectedStoragePools cli = inr pools ->
  vdsm.setup w =
  ((events (vdsm.local_phase w)
      ++ connect "localhost"
      :: (fixed_trace cli
            ++ invoke Host_getConnectedStoragePools []
            :: pools_trace cli pools ++ events (domains_branch w cli))
      ++ [close])%list,
   result (domains_branch w cli)).
Proof.
  intros Hcli Hreach Hpools. apply connect_reached in Hreach.
  now rewrite setup_run, Hreach, Hcli, remote_phase_run, Hpools.
Qed.

Lemma pools_trace_files cli pools :
  string_files (pools_trace cli pools) =
  map (fun pool =>
         ("StoragePool.getSpmStatus " ++ pool,
          artifact (answered cli StoragePool_getSpmStatus
                             [("storagepoolID", PyStr pool)]))) pools.
Proof.
  induction pools as [| pool pools IH]; [reflexivity |].
  cbn [pools_trace flat_map map]. rewrite string_files_app.
  fold (pools_trace cli pools). rewrite IH. reflexivity.
Qed.

Lemma pools_trace_invocations cli pools :
  invocations (pools_trace cli pools) =
  map (fun pool => (StoragePool_getSpmStatus,
                    [("storagepoolID", PyStr pool)])) pools.
Proof.
  induction pools as [| pool pools IH]; [reflexivity |].
  cbn [pools_trace flat_map map]. rewrite invocations_app.
  fold (pools_trace cli pools). rewrite IH. reflexivity.
Qed.

Lemma filter_map_all {A B} (p : B -> bool) (f : A -> B) (l : list A) :
  (forall x, p (f x) = true) -> filter p (map f l) = map f l.
Proof.
  intros Hp. induction l as [| x l IH]; [reflexivity |].
  cbn. now rewrite Hp, IH.
Qed.

Lemma domains_branch_files w cli :
  string_files (events (domains_branch w cli)) = [].
Proof.
  unfold domains_branch. destruct (truthy _); [| reflexivity].
  destruct (getStorageDomains cli domains_kwargs) as [e | sd_uuids];
    [reflexivity |].
  cbn. unfold domains_trace. now induction sd_uuids.
Qed.

Lemma domains_branch_status_calls w cli :
  filter is_status_call (invocations (events (domains_branch w cli))) = [].
Proof.
  unfold domains_branch. destruct (truthy _); [| reflexivity].
  destruct (getStorageDomains cli domains_kwargs) as [e | sd_uuids];
    [reflexivity |].
  cbn. unfold domains_trace. now induction sd_uuids.
Qed.

(** C6. A run in which the connection is established and the pool
    discovery returns [pools]: the status calls made are, in order, one
    per element of [pools], with that pool as [storagepoolID]; the
    artifacts whose name starts with ["StoragePool.getSpmStatus "] are, in
    order, one per element of [pools], named by that text followed by the
    pool; the artifact of a pool whose call raised [e] is [str(e)], and it
    takes nothing away from the other pools. *)
Theorem one_status_artifact_per_pool
    (w : world) (cli : client) (pools : list string) :
  client_connect w = inr cli ->
  In (connect "localhost") (events (vdsm.setup w)) ->
  getConnectedStoragePools cli = inr pools ->
  filter is_status_call (invocations (events (vdsm.setup w))) =
  map (fun pool => (StoragePool_getSpmStatus,
                    [("storagepoolID", PyStr pool)])) pools
  /\ filter is_status_file (string_files (events (vdsm.setup w))) =
     map (fun pool =>
            ("StoragePool.getSpmStatus " ++ pool,
             artifact (answered cli StoragePool_getSpmStatus
                                [("storagepoolID", PyStr pool)]))) pools
  /\ (forall pool e,
         In pool pools ->
         answer cli StoragePool_getSpmStatus [("storagepoolID", PyStr pool)]
         = inl e ->
         In ("StoragePool.getSpmStatus " ++ pool, str_exn e)
            (string_files (events (vdsm.setup w)))).
Proof.
  intros Hcli Hreach Hpools.
  rewrite (setup_connected w cli pools Hcli Hreach Hpools).
  cbn [events fst].
  destruct (local_trace_facts _ (local_phase_is_local w))
    as (Hfiles & Hinv & _ & _).
  assert (Hfilter :
    filter is_status_file
      (string_files
         (events (vdsm.local_phase w)
            ++ connect "localhost"
            :: (fixed_trace cli
                  ++ invoke Host_getConnectedStoragePools []
                  :: pools_trace cli pools ++ events (domains_branch w cli))
            ++ [close])%list) =
    map (fun pool =>
           ("StoragePool.getSpmStatus " ++ pool,
            artifact (answered cli StoragePool_getSpmStatus
                               [("storagepoolID", PyStr pool)]))) pools).
  { rewrite string_files_app, Hfiles. cbn [app string_files].
    rewrite !string_files_app. cbn [string_files].
    rewrite string_files_app, domains_branch_files, pools_trace_files.
    rewrite !app_nil_r, filter_app.
    replace (filter is_status_file (string_files (fixed_trace cli)))
      with (@nil (string * string)) by reflexivity.
    cbn [app]. apply filter_map_all. reflexivity. }
  repeat split.
  - rewrite invocations_app, Hinv. cbn [app invocations].
    rewrite !invocations_app. cbn [invocations].
    rewrite invocations_app, pools_trace_invocations.
    rewrite !filter_app. cbn [invocations filter app].
    replace (filter is_status_call (invocations (fixed_trace cli)))
      with (@nil (method * kwargs)) by reflexivity.
    change (is_status_call (Host_getConnectedStoragePools, []))
      with false. cbv iota.
    rewrite filter_app, domains_branch_status_calls, !app_nil_r.
    cbn [app]. apply filter_map_all. reflexivity.
  - exact Hfilter.
  - intros pool e Hin Hans.
    assert (Hmem : In ("StoragePool.getSpmStatus " ++ pool, str_exn e)
                      (filter is_status_file
                         (string_files
                            (events (vdsm.local_phase w)
                               ++ connect "localhost"
                               :: (fixed_trace cli
                                     ++ invoke Host_getConnectedStoragePools []
                                     :: pools_trace cli pools
                                     ++ events (domains_branch w cli))
                               ++ [close])%list))).
    { rewrite Hfilter. apply in_map_iff. exists pool. split; [| exact Hin].
      unfold answered. now rewrite Hans. }
    apply filter_In in Hmem. tauto.
Qed.

Lemma one_status_artifact_per_pool_witness :
  filter is_status_file (string_files (events (vdsm.setup Sample.w_ok))) =
  [("StoragePool.getSpmStatus p1",
    artifact (answered Sample.cli StoragePool_getSpmStatus
                       [("storagepoolID", PyStr "p1")]));
   ("StoragePool.getSpmStatus p2", "Unknown pool id");
   ("StoragePool.getSpmStatus p3",
    artifact (answered Sample.cli StoragePool_getSpmStatus
                       [("storagepoolID", PyStr "p3")]))].
Proof.
  refine (proj1 (proj2
    (one_status_artifact_per_pool Sample.w_ok Sample.cli ["p1"; "p2"; "p3"]
       eq_refl _ eq_refl))).
  vm_compute. tauto.
Defined.

(** ** Properties of every event of a run *)

Section EveryEvent.

Variable P : event -> Prop.
Variable w : world.

Hypothesis P_run_dir :
  forall f, In f (glob_star "/var/run/vdsm" (run_dir w)) ->
            wanted w f = true -> P (addCopySpec f).
Hypothesis P_static : Forall P static_copies.
Hypothesis P_proc : forall py out, Forall P (proc_trace py out).
Hypothesis P_tail : Forall P tail_commands.

Lemma run_dir_Forall : Forall P (events (vdsm._addVdsmRunDir w)).
Proof.
  eapply Forall_impl; [| apply run_dir_events].
  intros ev (f & -> & Hin & Hw). now apply P_run_dir.
Qed.

Lemma after_run_dir_Forall : Forall P (events (after_run_dir w)).
Proof.
  unfold after_run_dir. destruct (pgrep w) as [e | out]; cbn [events fst].
  - exact P_static.
  - apply Forall_app. split; [exact P_static |].
    apply Forall_app. split; [apply P_proc | exact P_tail].
Qed.

Hypothesis P_header : Forall P header_trace.
Hypothesis P_log : P (log_request w).

Lemma local_phase_Forall : Forall P (events (vdsm.local_phase w)).
Proof.
  rewrite local_phase_run. cbn [events fst].
  apply Forall_app. split; [exact P_header |].
  constructor; [exact P_log |].
  apply Forall_app. split; [apply run_dir_Forall |].
  destruct (result (vdsm._addVdsmRunDir w)); [| constructor].
  apply after_run_dir_Forall.
Qed.

Hypothesis P_connect : P (connect "localhost").
Hypothesis P_close : P close.
Hypothesis P_connect_error : forall e, P (connect_error e).
Hypothesis P_remote : forall ev, remote_event ev -> P ev.

Lemma connection_phase_Forall : Forall P (events (connection_phase w)).
Proof.
  unfold connection_phase.
  destruct (client_connect w) as [e | cli]; cbn [events fst].
  - repeat constructor; auto.
  - constructor; [exact P_connect |].
    apply Forall_app. split; [| repeat constructor; auto].
    eapply Forall_impl; [| apply remote_phase_events]. exact P_remote.
Qed.

Lemma after_log_request_Forall : Forall P (events (after_log_request w)).
Proof.
  unfold after_log_request.
  apply Forall_events_bind; [apply run_dir_Forall |]. intros _.
  apply Forall_events_bind; [apply after_run_dir_Forall |]. intros _.
  apply connection_phase_Forall.
Qed.

End EveryEvent.

Lemma setup_connection_phase w :
  vdsm.setup w = Run.bind (vdsm.local_phase w) (fun _ => connection_phase w).
Proof.
  rewrite setup_run, bind_unfold. unfold connection_phase.
  destruct (result (vdsm.local_phase w)) as [[] | e].
  - destruct (client_connect w); reflexivity.
  - now rewrite app_nil_r.
Qed.

Lemma setup_after_log_request w :
  vdsm.setup w =
  ((header_trace ++ log_request w :: events (after_log_request w))%list,
   result (after_log_request w)).
Proof.
  rewrite setup_connection_phase, local_phase_run.
  unfold after_log_request.
  destruct (vdsm._addVdsmRunDir w) as [t [[] | e]];
    cbn [events result fst snd].
  - run_steps. destruct (after_run_dir w) as [t' [[] | e]];
      cbn [events result fst snd]; run_steps.
    + now norm_app.
    + now norm_app.
  - run_steps. now norm_app.
Qed.

Lemma after_log_request_ignores_logsize w v :
  after_log_request (with_option w "logsize" v) = after_log_request w.
Proof. reflexivity. Qed.

(** ** The options *)

Lemma is_not_None_iff v : is_not_None v = true <-> v <> PyNone.
Proof. destruct v; cbn; split; congruence. Qed.

Lemma after_log_request_no_log_copy w :
  Forall (fun ev => is_log_copy ev = false) (events (after_log_request w)).
Proof.
  apply after_log_request_Forall.
  - intros f Hin _. unfold glob_star in Hin.
    apply in_map_iff in Hin. destruct Hin as (n & <- & _). reflexivity.
  - repeat constructor.
  - intros py out. unfold proc_trace. apply Forall_flat_map, Forall_forall.
    intros line _. repeat constructor.
  - repeat constructor.
  - reflexivity.
  - reflexivity.
  - reflexivity.
  - intros ev. apply remote_event_facts.
Qed.

Lemma filter_none {A} (p : A -> bool) (l : list A) :
  Forall (fun x => p x = false) l -> filter p l = [].
Proof.
  induction 1 as [| x l Hx _ IH]; [reflexivity |]. cbn. now rewrite Hx.
Qed.

Lemma log_copies w :
  filter is_log_copy (events (vdsm.setup w)) = [log_request w].
Proof.
  rewrite setup_after_log_request. cbn [events fst].
  rewrite filter_app. cbn [header_trace filter is_log_copy String.eqb].
  cbn [app filter].
  rewrite (filter_none _ _ (after_log_request_no_log_copy w)).
  unfold log_request. destruct (is_not_None _); reflexivity.
Qed.

(** The copy requests for [/var/log/vdsm/*] in a run: when [getOption]
    gives a value for [logsize] (anything but [None]), there is exactly one
    and it carries that value as its size limit; when it gives [None],
    there is exactly one and it has no size limit.  Giving the option
    another value changes nothing else: the two traces agree before and
    after their eighth event, which is that request, and the runs end the
    same way. *)
Theorem logsize_caps_the_log_directory_only (w : world) :
  (getOption w "logsize" <> PyNone ->
   filter is_log_copy (events (vdsm.setup w)) =
   [addCopySpecLimit "/var/log/vdsm/*" (getOption w "logsize")])
  /\ (getOption w "logsize" = PyNone ->
      filter is_log_copy (events (vdsm.setup w)) =
      [addCopySpec "/var/log/vdsm/*"])
  /\ (forall v,
        firstn 7 (events (vdsm.setup (with_option w "logsize" v)))
        = firstn 7 (events (vdsm.setup w))
        /\ skipn 8 (events (vdsm.setup (with_option w "logsize" v)))
           = skipn 8 (events (vdsm.setup w))
        /\ result (vdsm.setup (with_option w "logsize" v))
           = result (vdsm.setup w)
        /\ exists ev, nth_error (events (vdsm.setup w)) 7 = Some ev
                      /\ is_log_copy ev = true).
Proof.
  rewrite log_copies. repeat split.
  - intros Hv. apply is_not_None_iff in Hv. unfold log_request.
    now rewrite Hv.
  - intros Hv. unfold log_request. now rewrite Hv.
  - rewrite !setup_after_log_request. reflexivity.
  - rewrite !setup_after_log_request. reflexivity.
  - rewrite !setup_after_log_request. reflexivity.
  - rewrite setup_after_log_request. exists (log_request w).
    split; [reflexivity |].
    unfold log_request. now destruct (is_not_None _).
Qed.

Lemma logsize_caps_the_log_directory_witness :
  filter is_log_copy (events (vdsm.setup Sample.w_ok)) =
  [addCopySpecLimit "/var/log/vdsm/*" (PyInt 5)]
  /\ filter is_log_copy (events (vdsm.setup Sample.w_refused)) =
     [addCopySpec "/var/log/vdsm/*"].
Proof.
  split.
  - apply (proj1 (logsize_caps_the_log_directory_only Sample.w_ok)).
    discriminate.
  - apply (proj1 (proj2
             (logsize_caps_the_log_directory_only Sample.w_refused))).
    reflexivity.
Defined.


Lemma not_dump_commands t :
  Forall not_dump t -> filter is_dump_command (commands t) = [].
Proof.
  induction 1 as [| ev t Hev _ IH]; [reflexivity |].
  destruct ev; cbn in *; rewrite ?Hev; exact IH.
Qed.

Lemma local_phase_not_dump w :
  Forall not_dump (events (vdsm.local_phase w)).
Proof.
  apply local_phase_Forall.
  - intros; exact I.
  - repeat constructor.
  - intros py out. unfold proc_trace. apply Forall_flat_map, Forall_forall.
    intros line _. repeat constructor.
  - repeat constructor.
  - repeat constructor.
  - unfold log_request. now destruct (is_not_None _).
Qed.

Lemma pools_trace_commands cli pools : commands (pools_trace cli pools) = [].
Proof.
  induction pools as [| pool pools IH]; [reflexivity |]. exact IH.
Qed.

Lemma domains_trace_commands sd_uuids :
  commands (domains_trace sd_uuids) =
  map (fun sd_uuid => "vdsm-tool dump-volume-chains " ++ sd_uuid) sd_uuids.
Proof.
  induction sd_uuids as [| x l IH]; [reflexivity |].
  cbn [domains_trace map commands]. f_equal. exact IH.
Qed.

Lemma domains_trace_invocations sd_uuids :
  invocations (domains_trace sd_uuids) = [].
Proof. now induction sd_uuids. Qed.

Lemma connected_commands w cli pools :
  client_connect w = inr cli ->
  In (connect "localhost") (events (vdsm.setup w)) ->
  getConnectedStoragePools cli = inr pools ->
  filter is_dump_command (commands (events (vdsm.setup w))) =
  filter is_dump_command (commands (events (domains_branch w cli))).
Proof.
  intros Hcli Hreach Hpools.
  rewrite (setup_connected w cli pools Hcli Hreach Hpools).
  cbn [events fst].
  rewrite commands_app, filter_app.
  rewrite (not_dump_commands _ (local_phase_not_dump w)).
  cbn [app commands]. rewrite !commands_app. cbn [commands].
  rewrite commands_app, pools_trace_commands.
  replace (commands (fixed_trace cli)) with (@nil string) by reflexivity.
  now rewrite !app_nil_r.
Qed.

Lemma connected_domain_calls w cli pools :
  client_connect w = inr cli ->
  In (connect "localhost") (events (vdsm.setup w)) ->
  getConnectedStoragePools cli = inr pools ->
  In (Host_getStorageDomains, domains_kwargs)
     (invocations (events (vdsm.setup w)))
  <-> truthy (getOption w "dump-volume-chains") = true.
Proof.
  intros Hcli Hreach Hpools.
  rewrite (setup_connected w cli pools Hcli Hreach Hpools).
  cbn [events fst].
  destruct (local_trace_facts _ (local_phase_is_local w))
    as (_ & Hinv & _ & _).
  rewrite invocations_app, Hinv. cbn [app invocations].
  rewrite !invocations_app. cbn [invocations].
  rewrite invocations_app, pools_trace_invocations.
  rewrite !in_app_iff. cbn [In]. rewrite in_app_iff, in_map_iff.
  unfold domains_branch.
  destruct (truthy (getOption w "dump-volume-chains")).
  - split; [reflexivity | intros _].
    left. right. right. right.
    destruct (getStorageDomains cli domains_kwargs); now left.
  - split; [| discriminate].
    intros [[H | [H | [(pool & H & _) | H]]] | []];
      try discriminate; try contradiction.
    revert H. cbn. intuition discriminate.
Qed.

(** C8, as the code has it.  A run in which the connection is established
    and the pool discovery returns: the domain discovery is called, with
    the data domain class, if and only if the [dump-volume-chains] option
    is true; when it is not, no per-domain command is issued; when it is
    and the discovery returns [sd_uuids], the per-domain commands are, in
    order, one per element of [sd_uuids]. *)
Theorem per_domain_commands_when_connected
    (w : world) (cli : client) (pools : list string) :
  client_connect w = inr cli ->
  In (connect "localhost") (events (vdsm.setup w)) ->
  getConnectedStoragePools cli = inr pools ->
  (In (Host_getStorageDomains, [("domainClass", PyInt 1)])
      (invocations (events (vdsm.setup w)))
   <-> truthy (getOption w "dump-volume-chains") = true)
  /\ (truthy (getOption w "dump-volume-chains") = false ->
      filter is_dump_command (commands (events (vdsm.setup w))) = [])
  /\ (forall sd_uuids,
         truthy (getOption w "dump-volume-chains") = true ->
         getStorageDomains cli [("domainClass", PyInt 1)] = inr sd_uuids ->
         filter is_dump_command (commands (events (vdsm.setup w))) =
         map (fun sd_uuid => "vdsm-tool dump-volume-chains " ++ sd_uuid)
             sd_uuids).
Proof.
  intros Hcli Hreach Hpools. split; [| split].
  - exact (connected_domain_calls w cli pools Hcli Hreach Hpools).
  - intros Hoff.
    rewrite (connected_commands w cli pools Hcli Hreach Hpools).
    unfold domains_branch. now rewrite Hoff.
  - intros sd_uuids Hon Hsd.
    rewrite (connected_commands w cli pools Hcli Hreach Hpools).
    unfold domains_branch, domains_kwargs, vdsm.DATA_DOMAIN.
    rewrite Hon, Hsd. cbn [events fst commands].
    rewrite domains_trace_commands. apply filter_map_all. reflexivity.
Qed.

Lemma per_domain_commands_witness :
  filter is_dump_command (commands (events (vdsm.setup Sample.w_ok))) =
  ["vdsm-tool dump-volume-chains sd1"; "vdsm-tool dump-volume-chains sd2"].
Proof.
  refine (proj2 (proj2
    (per_domain_commands_when_connected Sample.w_ok Sample.cli
       ["p1"; "p2"; "p3"] eq_refl _ eq_refl)) ["sd1"; "sd2"] eq_refl eq_refl).
  vm_compute. tauto.
Defined.

(** C8, as stated, fails where the connection is refused: the option is
    true, yet the domain discovery is not called and no per-domain command
    is issued. *)
Lemma per_domain_commands_skipped_when_refused :
  truthy (getOption Sample.w_refused "dump-volume-chains") = true
  /\ ~ In (Host_getStorageDomains, [("domainClass", PyInt 1)])
          (invocations (events (vdsm.setup Sample.w_refused)))
  /\ filter is_dump_command (commands (events (vdsm.setup Sample.w_refused)))
     = [].
Proof.
  split; [reflexivity |]. split; [| reflexivity].
  vm_compute. tauto.
Qed.

(** ** Forbidden paths *)

Lemma startswith_cons s c p :
  PyStr.startswith s (String c p) = true ->
  exists s', s = String c s' /\ PyStr.startswith s' p = true.
Proof.
  destruct s as [| d s']; cbn; [discriminate |].
  intros H. apply andb_true_iff in H. destruct H as [Hc Hp].
  apply Ascii.eqb_eq in Hc. subst d. now exists s'.
Qed.

Lemma fnmatch_literal c pat s :
  Ascii.eqb c "*"%char = false -> Ascii.eqb c "?"%char = false ->
  fnmatch (String c pat) s = true ->
  exists s', s = String c s' /\ fnmatch pat s' = true.
Proof.
  intros Hstar Hany. cbn [fnmatch]. rewrite Hstar, Hany.
  destruct s as [| d s']; [discriminate |].
  intros H. apply andb_true_iff in H. destruct H as [Hc Hp].
  apply Ascii.eqb_eq in Hc. subst d. now exists s'.
Qed.

Ltac fnmatch_head H :=
  let s' := fresh "s" in
  let E := fresh "E" in
  apply fnmatch_literal in H; [| reflexivity | reflexivity];
  destruct H as (s' & E & H); subst.

(** A path that matches a forbidden pattern lies under [/etc/pki/]. *)
Lemma forbidden_under_pki pat path :
  In pat forbidden_paths -> fnmatch pat path = true ->
  PyStr.startswith path "/etc/pki/" = true.
Proof.
  intros [<- | [<- | [<- | []]]] H; do 9 fnmatch_head H; reflexivity.
Qed.

Ltac startswith_head H :=
  let s' := fresh "s" in
  let E := fresh "E" in
  apply startswith_cons in H; destruct H as (s' & E & H); subst.

(** What a request under a collected root covers is not under
    [/etc/pki/]. *)
Lemma collected_root_not_pki spec path :
  under_collected_root spec = true -> covers spec path ->
  PyStr.startswith path "/etc/pki/" = false.
Proof.
  unfold under_collected_root. intros Hroot (q & Hq & Hpath).
  repeat (apply orb_true_iff in Hroot; destruct Hroot as [Hroot | Hroot]).
  - do 5 startswith_head Hroot. do 5 fnmatch_head Hq.
    destruct Hpath as [-> | (below & ->)]; reflexivity.
  - do 10 startswith_head Hroot. do 10 fnmatch_head Hq.
    destruct Hpath as [-> | (below & ->)]; reflexivity.
  - do 5 startswith_head Hroot. do 5 fnmatch_head Hq.
    destruct Hpath as [-> | (below & ->)]; reflexivity.
  - do 5 startswith_head Hroot. do 5 fnmatch_head Hq.
    destruct Hpath as [-> | (below & ->)]; reflexivity.
  - do 6 startswith_head Hroot. do 6 fnmatch_head Hq.
    destruct Hpath as [-> | (below & ->)]; reflexivity.
Qed.

Lemma after_log_request_under_root w :
  Forall copies_under_root (events (after_log_request w)).
Proof.
  apply after_log_request_Forall.
  - intros f Hin _. unfold glob_star in Hin.
    apply in_map_iff in Hin. destruct Hin as (n & <- & _). reflexivity.
  - repeat constructor.
  - intros py out. unfold proc_trace. apply Forall_flat_map, Forall_forall.
    intros line _. repeat constructor.
  - repeat constructor.
  - exact I.
  - exact I.
  - intros e. exact I.
  - intros ev. destruct ev; cbn; intros H; now try contradiction.
Qed.

Lemma after_log_request_declares_nothing w :
  Forall (fun ev => is_forbidden ev = false) (events (after_log_request w)).
Proof.
  apply after_log_request_Forall.
  - reflexivity.
  - repeat constructor.
  - intros py out. unfold proc_trace. apply Forall_flat_map, Forall_forall.
    intros line _. repeat constructor.
  - repeat constructor.
  - reflexivity.
  - reflexivity.
  - reflexivity.
  - intros ev. apply remote_event_facts.
Qed.

Lemma copy_requests_under_root t spec limit :
  Forall copies_under_root t -> In (spec, limit) (copy_requests t) ->
  under_collected_root spec = true.
Proof.
  induction 1 as [| ev t Hev _ IH]; [intros [] |].
  destruct ev; cbn in *; try exact IH;
    (intros [H | H]; [injection H as <- _; exact Hev | now apply IH]).
Qed.

(** C9. In every run the three private-key patterns are declared
    forbidden by the first three requests, before any copy request, and
    nothing is declared later; and no copy request of the run covers a
    path that matches one of them: not the requested path or pattern
    itself, and not a path one of the requested patterns matches or holds
    below it. *)
Theorem forbidden_paths_declared_first_and_never_requested (w : world) :
  exists rest,
    events (vdsm.setup w) = (map addForbiddenPath forbidden_paths ++ rest)%list
    /\ Forall (fun ev => is_forbidden ev = false) rest
    /\ forall spec limit path pat,
         In (spec, limit) (copy_requests rest) ->
         covers spec path ->
         In pat forbidden_paths ->
         fnmatch pat path = false.
Proof.
  exists (skipn 3 (events (vdsm.setup w))).
  rewrite setup_after_log_request. cbn [events fst].
  split; [reflexivity |].
  assert (Hroot : Forall copies_under_root
                    (skipn 3 (header_trace ++ log_request w
                                :: events (after_log_request w))%list)).
  { cbn [header_trace skipn app]. repeat constructor.
    - unfold log_request. now destruct (is_not_None _).
    - apply after_log_request_under_root. }
  split.
  - cbn [header_trace skipn app]. repeat constructor.
    + unfold log_request. now destruct (is_not_None _).
    + apply after_log_request_declares_nothing.
  - intros spec limit path pat Hin Hcovers Hpat.
    destruct (fnmatch pat path) eqn:Hmatch; [| reflexivity].
    apply (forbidden_under_pki _ _ Hpat) in Hmatch.
    apply (copy_requests_under_root _ _ _ Hroot) in Hin.
    now rewrite (collected_root_not_pki _ _ Hin Hcovers) in Hmatch.
Qed.

Lemma forbidden_paths_witness :
  fnmatch "/etc/pki/vdsm/keys/*" "/etc/vdsm/vdsm.conf" = false.
Proof.
  destruct (forbidden_paths_declared_first_and_never_requested Sample.w_ok)
    as (rest & Hrest & _ & Hnever).
  apply (Hnever "/etc/vdsm/*" None).
  - vm_compute in Hrest. injection Hrest as <-. vm_compute. tauto.
  - exists "/etc/vdsm/vdsm.conf". split; [reflexivity | now left].
  - now left.
Defined.

(** ** Names in the run directory *)

Lemma append_empty_r s : s ++ "" = s.
Proof. induction s as [| c s IH]; cbn; [reflexivity | now rewrite IH]. Qed.

Lemma append_assoc (a b c : string) : (a ++ b) ++ c = a ++ (b ++ c).
Proof. induction a as [| x a IH]; cbn; [reflexivity | now rewrite IH]. Qed.

Lemma rev_onto_append s acc : PyStr.rev_onto s acc = PyStr.rev s ++ acc.
Proof.
  unfold PyStr.rev. revert acc.
  induction s as [| c s IH]; intros acc; cbn; [reflexivity |].
  rewrite IH, (IH (String c "")), append_assoc. reflexivity.
Qed.

Lemma rev_append a b : PyStr.rev (a ++ b) = PyStr.rev b ++ PyStr.rev a.
Proof.
  induction a as [| c a IH]; cbn.
  - now rewrite append_empty_r.
  - unfold PyStr.rev in *. cbn.
    rewrite !(rev_onto_append _ (String c "")).
    unfold PyStr.rev. now rewrite IH, append_assoc.
Qed.

Lemma rev_involutive s : PyStr.rev (PyStr.rev s) = s.
Proof.
  induction s as [| c s IH]; [reflexivity |].
  change (String c s) with (String c "" ++ s) at 1.
  rewrite rev_append, rev_append, IH. reflexivity.
Qed.

Lemma rev_injective a b : PyStr.rev a = PyStr.rev b -> a = b.
Proof.
  intros H. now rewrite <- (rev_involutive a), H, rev_involutive.
Qed.

Lemma has_slash_append a b :
  has_slash (a ++ b) = has_slash a || has_slash b.
Proof.
  induction a as [| c a IH]; cbn; [reflexivity |].
  now rewrite IH, orb_assoc.
Qed.

Lemma has_slash_rev s : has_slash (PyStr.rev s) = has_slash s.
Proof.
  induction s as [| c s IH]; [reflexivity |].
  change (String c s) with (String c "" ++ s) at 1.
  rewrite rev_append, has_slash_append, IH. cbn.
  now rewrite orb_false_r, orb_comm.
Qed.

(** A name without a slash, followed by a slash, starts with [q] and a
    slash exactly when it is [q]. *)
Lemma startswith_up_to_slash r q rest :
  has_slash r = false -> has_slash q = false ->
  PyStr.startswith (r ++ String "/" rest) (q ++ "/") = (r =? q)%string.
Proof.
  revert r. induction q as [| c q IH]; intros r Hr Hq.
  - destruct r as [| d r]; [reflexivity |].
    cbn [has_slash] in Hr. apply orb_false_iff in Hr. destruct Hr as [Hd _].
    cbn [append PyStr.startswith String.eqb].
    rewrite Ascii.eqb_sym in Hd. now rewrite Hd.
  - cbn [has_slash] in Hq. apply orb_false_iff in Hq. destruct Hq as [Hc Hq].
    destruct r as [| d r].
    + cbn [append PyStr.startswith String.eqb]. now rewrite Hc.
    + cbn [has_slash] in Hr. apply orb_false_iff in Hr.
      destruct Hr as [_ Hr].
      cbn [append PyStr.startswith String.eqb].
      rewrite (IH r Hr Hq), Ascii.eqb_sym. reflexivity.
Qed.

Lemma endswith_entry n name :
  has_slash n = false -> has_slash name = false ->
  PyStr.endswith ("/var/run/vdsm" ++ "/" ++ n) ("/" ++ name)
  = (n =? name)%string.
Proof.
  intros Hn Hname. unfold PyStr.endswith.
  change ("/var/run/vdsm" ++ "/" ++ n) with ("/var/run/vdsm/" ++ n).
  change ("/" ++ name) with (String "/" "" ++ name).
  rewrite !rev_append.
  change (PyStr.rev "/var/run/vdsm/") with (String "/" "msdv/nur/rav/").
  change (PyStr.rev (String "/" "")) with "/".
  rewrite startswith_up_to_slash by now rewrite has_slash_rev.
  destruct (String.eqb_spec n name) as [-> | Hne].
  - apply String.eqb_refl.
  - apply String.eqb_neq. intros H. now apply rev_injective in H.
Qed.

Lemma endswith_vfd n :
  PyStr.endswith ("/var/run/vdsm" ++ "/" ++ n) ".vfd"
  = PyStr.endswith n ".vfd".
Proof.
  unfold PyStr.endswith.
  change ("/var/run/vdsm" ++ "/" ++ n) with ("/var/run/vdsm/" ++ n).
  rewrite rev_append.
  change (PyStr.rev "/var/run/vdsm/") with (String "/" "msdv/nur/rav/").
  change (PyStr.rev ".vfd") with "dfv.".
  destruct (PyStr.rev n) as [| a [| b [| c [| d r]]]]; cbn;
    rewrite ?andb_false_r; reflexivity.
Qed.

Lemma in_glob_star n names :
  In ("/var/run/vdsm/" ++ n) (glob_star "/var/run/vdsm" names)
  <-> In n names /\ PyStr.startswith n "." = false.
Proof.
  unfold glob_star. rewrite in_map_iff. split.
  - intros (m & Heq & Hin). apply filter_In in Hin.
    cbn in Heq. injection Heq as ->.
    destruct Hin as [Hin Hdot]. split; [exact Hin |].
    now apply negb_true_iff.
  - intros [Hin Hdot]. exists n. split; [reflexivity |].
    apply filter_In. split; [exact Hin |]. now apply negb_true_iff.
Qed.

Lemma wanted_entry w n :
  has_slash n = false ->
  wanted w ("/var/run/vdsm/" ++ n) = true
  <-> PyStr.endswith n ".vfd" = false
      /\ n <> "isoUploader" /\ n <> "storage"
      /\ exists mode, st_mode w ("/var/run/vdsm/" ++ n) = inr mode
                      /\ S_ISSOCK mode = false.
Proof.
  intros Hn. unfold wanted.
  change ("/var/run/vdsm/" ++ n) with ("/var/run/vdsm" ++ "/" ++ n).
  rewrite endswith_vfd.
  change "/isoUploader" with ("/" ++ "isoUploader").
  change "/storage" with ("/" ++ "storage").
  rewrite !endswith_entry by (exact Hn || reflexivity).
  rewrite !andb_true_iff, !negb_true_iff, !String.eqb_neq.
  split.
  - intros [[[Hvfd Hiso] Hsto] Hstat]. repeat split; auto.
    destruct (st_mode w _) as [e | mode]; [discriminate |].
    exists mode. split; [reflexivity |]. now apply negb_true_iff.
  - intros (Hvfd & Hiso & Hsto & mode & Hstat & Hsock).
    repeat split; auto. rewrite Hstat. now apply negb_true_iff.
Qed.

(** The entries the loop requests.  In a run directory whose names have no
    slash and whose entries [os.stat] can be asked about: an entry [n] is
    requested for copy if and only if its name does not start with a dot
    (the glob [/var/run/vdsm/*] skips those), does not end in [.vfd], is
    neither [isoUploader] nor [storage], and the entry is not a socket. *)
Theorem run_dir_entries_requested (w : world) :
  Forall (fun n => has_slash n = false) (run_dir w) ->
  stat_answers w (glob_star "/var/run/vdsm" (run_dir w)) ->
  forall n, In n (run_dir w) ->
    In (addCopySpec ("/var/run/vdsm/" ++ n))
       (events (vdsm._addVdsmRunDir w))
    <-> PyStr.startswith n "." = false
        /\ PyStr.endswith n ".vfd" = false
        /\ n <> "isoUploader" /\ n <> "storage"
        /\ exists mode, st_mode w ("/var/run/vdsm/" ++ n) = inr mode
                        /\ S_ISSOCK mode = false.
Proof.
  intros Hnames Hstat n Hin.
  rewrite Forall_forall in Hnames. specialize (Hnames n Hin).
  rewrite (run_dir_run w Hstat). cbn [events fst].
  rewrite in_map_iff. split.
  - intros (f & Heq & Hf). injection Heq as ->.
    apply filter_In in Hf. destruct Hf as [Hglob Hwanted].
    apply in_glob_star in Hglob. apply wanted_entry in Hwanted; tauto.
  - intros (Hdot & Hrest).
    exists ("/var/run/vdsm/" ++ n). split; [reflexivity |].
    apply filter_In. split.
    + apply in_glob_star. now split.
    + now apply wanted_entry.
Qed.

Lemma run_dir_entries_requested_witness :
  In (addCopySpec "/var/run/vdsm/payload")
     (events (vdsm._addVdsmRunDir Sample.w_ok))
  /\ ~ In (addCopySpec "/var/run/vdsm/svdsm.sock")
          (events (vdsm._addVdsmRunDir Sample.w_ok)).
Proof.
  assert (Hnames : Forall (fun n => has_slash n = false)
                          (run_dir Sample.w_ok))
    by (repeat constructor).
  assert (Hstat : stat_answers Sample.w_ok
                    (glob_star "/var/run/vdsm" (run_dir Sample.w_ok))).
  { intros f Hf _ _ _. vm_compute in Hf.
    decompose [or] Hf; subst; try contradiction; eexists; reflexivity. }
  split.
  - apply (run_dir_entries_requested Sample.w_ok Hnames Hstat "payload").
    + vm_compute. tauto.
    + repeat split; try discriminate.
      exists 33188%Z. split; reflexivity.
  - intros Hin.
    apply (run_dir_entries_requested Sample.w_ok Hnames Hstat "svdsm.sock")
      in Hin; [| vm_compute; tauto].
    destruct Hin as (_ & _ & _ & _ & mode & Hmode & Hsock).
    vm_compute in Hmode. injection Hmode as <-. discriminate Hsock.
Defined.

(** C10. The docstring of [_addVdsmRunDir] announces everything under
    [/var/run/vdsm] except sysprep vfds and sockets.  [.lock] is an entry
    of the directory, a regular file that does not end in [.vfd] and is
    neither [isoUploader] nor [storage], yet the run has no copy request
    for it: the glob [/var/run/vdsm/*] never yields a name that starts
    with a dot. *)
Lemma hidden_entry_not_requested :
  In ".lock" (run_dir Sample.w_ok)
  /\ PyStr.endswith "/var/run/vdsm/.lock" ".vfd" = false
  /\ ".lock" <> "isoUploader" /\ ".lock" <> "storage"
  /\ (exists mode, st_mode Sample.w_ok "/var/run/vdsm/.lock" = inr mode
                   /\ S_ISSOCK mode = false)
  /\ ~ In (addCopySpec "/var/run/vdsm/.lock")
          (events (vdsm.setup Sample.w_ok)).
Proof.
  repeat split; try discriminate.
  - vm_compute. tauto.
  - exists 33188%Z. split; reflexivity.
  - vm_compute. intuition discriminate.
Qed.

(** ** [json.loads] undoes [json.dumps] *)































Lemma Forall_and {A} (P Q : A -> Prop) l :
  Forall P l -> Forall Q l -> Forall (fun x => P x /\ Q x) l.
Proof. induction 1; inversion_clear 1; constructor; auto. Qed.


Lemma length_append (a b : string) :
  String.length (a ++ b) = String.length a + String.length b.
Proof. induction a as [| c a IH]; cbn; [reflexivity | now rewrite IH]. Qed.








(** ** The options surface *)

(** A run reads the options of [option_list] and no other. *)
Lemma setup_reads_declared_options w1 w2 :
  (forall n, In n vdsm.option_list -> getOption w1 n = getOption w2 n) ->
  run_dir w1 = run_dir w2 -> st_mode w1 = st_mode w2 ->
  pgrep w1 = pgrep w2 -> client_connect w1 = client_connect w2 ->
  interpreter w1 = interpreter w2 ->
  vdsm.setup w1 = vdsm.setup w2.
Proof.
  intros Hopt Hdir Hstat Hpgrep Hcli Hpy.
  assert (Hlog : getOption w1 "logsize" = getOption w2 "logsize")
    by (apply Hopt; cbn; tauto).
  assert (Hdump : getOption w1 "dump-volume-chains"
                  = getOption w2 "dump-volume-chains")
    by (apply Hopt; cbn; tauto).
  rewrite !setup_after_log_request.
  unfold log_request, after_log_request, after_run_dir, connection_phase,
    vdsm._addVdsmRunDir.
  rewrite Hlog, Hdir, Hstat, Hpgrep, Hcli, Hpy.
  destruct (client_connect w2) as [e | cli]; [reflexivity |].
  rewrite !remote_phase_run. unfold domains_branch. rewrite Hdump.
  reflexivity.
Qed.

(** ** When a run completes *)

(** A run returns normally when nothing outside a guard raises: the local
    phase returns, and the connection is refused or both discovery calls,
    where they are made, answer. *)
Lemma setup_returns w :
  result (vdsm.local_phase w) = Returned tt ->
  match client_connect w with
  | inl _ => True
  | inr cli =>
      (exists pools, getConnectedStoragePools cli = inr pools)
      /\ (truthy (getOption w "dump-volume-chains") = true ->
          exists sd_uuids, getStorageDomains cli domains_kwargs = inr sd_uuids)
  end ->
  result (vdsm.setup w) = Returned tt.
Proof.
  intros Hlocal Hremote. rewrite setup_run, Hlocal.
  destruct (client_connect w) as [e | cli]; [reflexivity |].
  destruct Hremote as [[pools Hpools] Hdomains].
  rewrite remote_phase_run, Hpools. cbn [result snd].
  unfold domains_branch.
  destruct (truthy (getOption w "dump-volume-chains")); [| reflexivity].
  destruct (Hdomains eq_refl) as [sd_uuids ->]. reflexivity.
Qed.

(** * The module loader, the class body and the edges of a run *)

(** ** [_importVdsmPylibModule] *)

Lemma split_from_cons part s :
  exists p ps, Importer.split_from part s = p :: ps.
Proof.
  revert part. induction s as [| c s IH]; intros part; cbn.
  - now exists part, [].
  - destruct (Ascii.eqb c "."); [now eexists _, _ | apply IH].
Qed.

Lemma concat_cons sep (x : string) l :
  l <> [] -> String.concat sep (x :: l) = x ++ sep ++ String.concat sep l.
Proof. destruct l; [contradiction | reflexivity]. Qed.

(** [".".join(s.split("."))] is [s]. *)
Lemma join_split_from part s :
  String.concat "." (Importer.split_from part s) = part ++ s.
Proof.
  revert part. induction s as [| c s IH]; intros part; cbn.
  - now rewrite append_empty_r.
  - destruct (Ascii.eqb_spec c ".") as [-> | Hc].
    + destruct (split_from_cons "" s) as (p & ps & Hs).
      rewrite concat_cons by (rewrite Hs; discriminate).
      now rewrite IH.
    + rewrite IH, append_assoc. reflexivity.
Qed.

(** The first component is empty only for the empty name and for a name
    that starts with a dot. *)
Lemma split_dots_head s :
  PyStr.startswith s "." = false ->
  Importer.split_dots s = [s]
  \/ exists p ps, Importer.split_dots s = p :: ps /\ p <> "" /\ ps <> [].
Proof.
  unfold Importer.split_dots. intros Hdot.
  enough (H : forall part,
             (part = "" -> PyStr.startswith s "." = false) ->
             Importer.split_from part s = [part ++ s]
             \/ exists p ps, Importer.split_from part s = p :: ps
                             /\ (part <> "" \/ s <> "" -> p <> "")
                             /\ ps <> []).
  { destruct (H "" (fun _ => Hdot)) as [Hone | (p & ps & Hs & Hp & Hps)].
    - now left.
    - right. exists p, ps. repeat split; auto. apply Hp. right.
      intros ->. cbn in Hs. injection Hs as _ <-. now apply Hps. }
  clear Hdot. induction s as [| c s IH]; intros part Hpart.
  - left. cbn [Importer.split_from]. now rewrite append_empty_r.
  - cbn [Importer.split_from].
    destruct (Ascii.eqb_spec c ".") as [-> | Hc].
    + right. destruct (split_from_cons "" s) as (p & ps & Hs).
      exists part, (p :: ps). rewrite Hs. repeat split; [| discriminate].
      intros _ ->. specialize (Hpart eq_refl). discriminate Hpart.
    + destruct (IH (part ++ PyStr.chr c)) as [Hone | (p & ps & Hs & Hp & Hps)].
      * intros Hempty. destruct part; discriminate Hempty.
      * left. rewrite Hone, append_assoc. reflexivity.
      * right. exists p, ps. repeat split; auto.
        intros _. apply Hp. left. destruct part; discriminate.
Qed.

Lemma append_nonempty (a b : string) : a <> "" -> a ++ b <> "".
Proof. destruct a; [contradiction | discriminate]. Qed.

Lemma eqb_nonempty (a : string) : a <> "" -> (a =? "")%string = false.
Proof. intros H. now apply String.eqb_neq. Qed.

(** Past the first component, every name built is the whole dotted name or
    what stands before one of its dots. *)
Lemma dotted_from_prefixes ps seen :
  seen <> "" ->
  forall n, In n (Importer.dotted_from seen ps) ->
    n = seen ++ "." ++ String.concat "." ps
    \/ exists rest, seen ++ "." ++ String.concat "." ps = n ++ "." ++ rest.
Proof.
  revert seen. induction ps as [| p ps IH]; intros seen Hseen n Hin;
    [contradiction |].
  cbn [Importer.dotted_from] in Hin. rewrite (eqb_nonempty _ Hseen) in Hin.
  destruct ps as [| q ps].
  - destruct Hin as [<- | []]. now left.
  - rewrite concat_cons by discriminate.
    assert (Hwhole : seen ++ "." ++ p ++ "." ++ String.concat "." (q :: ps)
                     = (seen ++ "." ++ p) ++ "."
                         ++ String.concat "." (q :: ps))
      by now rewrite !append_assoc.
    destruct Hin as [<- | Hin].
    + right. now exists (String.concat "." (q :: ps)).
    + rewrite Hwhole. apply IH; [| exact Hin].
      now apply append_nonempty.
Qed.

Lemma dotted_from_last ps seen :
  seen <> "" -> ps <> [] ->
  last (Importer.dotted_from seen ps) "" = seen ++ "." ++ String.concat "." ps.
Proof.
  revert seen. induction ps as [| p ps IH]; intros seen Hseen Hps;
    [contradiction |].
  cbn [Importer.dotted_from]. rewrite (eqb_nonempty _ Hseen).
  destruct ps as [| q ps]; [reflexivity |].
  rewrite concat_cons by discriminate.
  change (last (?x :: Importer.dotted_from ?a (q :: ps)) "")
    with (last (Importer.dotted_from a (q :: ps)) "").
  rewrite IH by (discriminate || now apply append_nonempty).
  now rewrite !append_assoc.
Qed.

(** The dotted names of a name that does not start with a dot. *)
Lemma dotted_names_of s :
  PyStr.startswith s "." = false ->
  (forall n, In n (Importer.dotted_from "" (Importer.split_dots s)) ->
     n = s \/ exists rest, s = n ++ "." ++ rest)
  /\ last (Importer.dotted_from "" (Importer.split_dots s)) "" = s.
Proof.
  intros Hdot.
  pose proof (join_split_from "" s) as Hjoin. cbn [append] in Hjoin.
  fold (Importer.split_dots s) in Hjoin.
  destruct (split_dots_head s Hdot) as [Hone | (p & ps & Hs & Hp & Hps)].
  - rewrite Hone. cbn. split; [| reflexivity].
    intros n [<- | []]. now left.
  - rewrite Hs in *. rewrite concat_cons in Hjoin by exact Hps.
    cbn [Importer.dotted_from String.eqb]. split.
    + intros n [<- | Hin].
      * right. now exists (String.concat "." ps).
      * rewrite <- Hjoin. now apply dotted_from_prefixes.
    + destruct ps as [| q ps]; [contradiction |].
      change (last (p :: Importer.dotted_from p (q :: ps)) "")
        with (last (Importer.dotted_from p (q :: ps)) "").
      now rewrite dotted_from_last, <- Hjoin by (assumption || discriminate).
Qed.

(** The names loaded are the first dotted names; all of them when the
    import returns, which it does with the answer to the last one. *)
Lemma import_parts_names host ps seen dir mo :
  let r := Importer.import_parts host ps seen dir mo in
  (exists rest,
      Importer.dotted_from seen ps = (Importer.loaded_names (fst r) ++ rest)%list
      /\ (forall m, snd r = Returned m -> rest = []))
  /\ (forall m, snd r = Returned m -> ps <> [] ->
        exists fd,
          In (Importer.load_module (last (Importer.dotted_from seen ps) "") fd)
             (fst r)
          /\ Importer.imp_load_module host (last (Importer.dotted_from seen ps) "") fd
             = inr m).
Proof.
  revert seen dir mo. induction ps as [| p ps IH]; intros seen dir mo r.
  - subst r. cbn. split; [| now intros m _ H].
    exists []. split; auto.
  - subst r. cbn [Importer.import_parts Importer.dotted_from].
    set (name := ((if (seen =? "")%string then seen else seen ++ ".") ++ p)).
    assert (Hname : (if (seen =? "")%string then p else seen ++ "." ++ p)
                    = name).
    { subst name. destruct (String.eqb_spec seen "") as [-> | _];
        [reflexivity | now rewrite append_assoc]. }
    rewrite Hname.
    destruct (Importer.imp_find_module host p dir) as [e | fd].
    { cbn. split; [| discriminate]. eexists. split; [reflexivity |].
      discriminate. }
    destruct (Importer.imp_load_module host name fd) as [e | m0] eqn:Hload.
    { cbn [fst snd Importer.loaded_names]. split; [| discriminate].
      exists (Importer.dotted_from name ps). split; [| discriminate].
      assert (Hclose : Importer.loaded_names (Importer.close_if_open fd) = [])
        by (unfold Importer.close_if_open; now destruct (Importer.fd_file fd)).
      now rewrite Hclose. }
    specialize (IH name (Importer.os_path_join dir p) (Some m0)).
    destruct (Importer.import_parts host ps name
                (Importer.os_path_join dir p) (Some m0)) as [t o] eqn:Hrest.
    cbn [fst snd] in *. destruct IH as [(rest & Hnames & Hall) Hlast].
    assert (Hskip : forall t',
               Importer.loaded_names (Importer.close_if_open fd ++ t')%list
               = Importer.loaded_names t')
      by (intros t'; unfold Importer.close_if_open; now destruct (Importer.fd_file fd)).
    split.
    + exists rest. cbn [Importer.loaded_names]. rewrite Hskip, Hnames.
      split; [reflexivity | exact Hall].
    + intros m Hm _. destruct ps as [| q ps].
      * cbn in Hrest. injection Hrest as <- <-. injection Hm as <-.
        exists fd. split; [| exact Hload]. cbn. right. now left.
      * destruct (Hlast m Hm) as (fd' & Hin & Hans); [discriminate |].
        exists fd'.
        change (last (name :: Importer.dotted_from name (q :: ps)) "")
          with (last (Importer.dotted_from name (q :: ps)) "").
        split; [| exact Hans]. right. right.
        apply in_or_app. now right.
Qed.

(** X1. [_importVdsmPylibModule] of a name [s] that does not start with a
    dot: every name handed to [imp.load_module] is [s] or what stands
    before one of the dots of [s]; and when the function returns [m], one
    module was loaded per component, and [m] is what [imp.load_module]
    answered for the name [s] itself. *)
Theorem import_loads_the_dotted_names
    (host : Importer.machinery) (s : string) :
  PyStr.startswith s "." = false ->
  (forall n,
      In n (Importer.loaded_names
              (fst (Importer._importVdsmPylibModule host s))) ->
      n = s \/ exists rest, s = n ++ "." ++ rest)
  /\ (forall m,
         snd (Importer._importVdsmPylibModule host s) = Returned m ->
         List.length (Importer.loaded_names
                        (fst (Importer._importVdsmPylibModule host s)))
         = List.length (Importer.split_dots s)
         /\ exists fd,
              In (Importer.load_module s fd)
                 (fst (Importer._importVdsmPylibModule host s))
              /\ Importer.imp_load_module host s fd = inr m).
Proof.
  intros Hdot. unfold Importer._importVdsmPylibModule.
  destruct (dotted_names_of s Hdot) as [Hprefix Hlast].
  destruct (import_parts_names host (Importer.split_dots s) ""
              (Importer.get_python_lib host) None) as [(rest & Hnames & Hall) Hret].
  split.
  - intros n Hin. apply Hprefix. rewrite Hnames.
    apply in_or_app. now left.
  - intros m Hm. split.
    + rewrite (Hall m Hm), app_nil_r in Hnames. rewrite <- Hnames.
      clear. generalize "" at 1.
      induction (Importer.split_dots s) as [| p ps IH]; intros seen;
        [reflexivity |]. cbn. now rewrite IH.
    + destruct (Hret m Hm) as (fd & Hin & Hans).
      { destruct (split_from_cons "" s) as (p & ps & Hs).
        unfold Importer.split_dots. rewrite Hs. discriminate. }
      rewrite Hlast in Hin, Hans. now exists fd.
Qed.

Lemma import_loads_the_dotted_names_witness :
  Importer.loaded_names
    (fst (Importer._importVdsmPylibModule Importer.sample_host "vdsm.client"))
  = ["vdsm"; "vdsm.client"]
  /\ exists fd,
       In (Importer.load_module "vdsm.client" fd)
          (fst (Importer._importVdsmPylibModule Importer.sample_host
                  "vdsm.client"))
       /\ Importer.imp_load_module Importer.sample_host "vdsm.client" fd
          = inr (Importer.PyModule 2).
Proof.
  split; [reflexivity |].
  exact (proj2 (proj2 (import_loads_the_dotted_names Importer.sample_host
                         "vdsm.client" eq_refl)
                  (Importer.PyModule 2) eq_refl)).
Defined.

Lemma found_eqb_refl fd : Importer.found_eqb fd fd = true.
Proof.
  unfold Importer.found_eqb.
  rewrite !String.eqb_refl. destruct (Importer.fd_file fd);
    now rewrite ?Nat.eqb_refl.
Qed.

Lemma in_rounds_found host name dir fd full t :
  Importer.imp_find_module host name dir = inr fd ->
  Importer.in_rounds host
    (Importer.find_module name [dir] :: Importer.load_module full fd
       :: Importer.close_if_open fd ++ t)%list
  = Importer.in_rounds host t.
Proof.
  intros Hfind. cbn [Importer.in_rounds]. rewrite Hfind, found_eqb_refl.
  unfold Importer.close_if_open.
  destruct (Importer.fd_file fd); cbn [app andb]; [| reflexivity].
  now rewrite Nat.eqb_refl.
Qed.

Lemma opened_files_found host name dir fd full t :
  Importer.imp_find_module host name dir = inr fd ->
  Importer.opened_files host
    (Importer.find_module name [dir] :: Importer.load_module full fd
       :: Importer.close_if_open fd ++ t)%list
  = (Importer.closed_files (Importer.close_if_open fd)
       ++ Importer.opened_files host t)%list.
Proof.
  intros Hfind. cbn [Importer.opened_files]. rewrite Hfind.
  unfold Importer.close_if_open. now destruct (Importer.fd_file fd).
Qed.

Lemma closed_files_found name dir fd full t :
  Importer.closed_files
    (Importer.find_module name [dir] :: Importer.load_module full fd
       :: Importer.close_if_open fd ++ t)%list
  = (Importer.closed_files (Importer.close_if_open fd)
       ++ Importer.closed_files t)%list.
Proof.
  cbn [Importer.closed_files]. unfold Importer.close_if_open.
  now destruct (Importer.fd_file fd).
Qed.

Lemma import_parts_rounds host parts :
  forall fullName search module,
    Importer.in_rounds host
      (fst (Importer.import_parts host parts fullName search module)) = true
    /\ Importer.closed_files
         (fst (Importer.import_parts host parts fullName search module))
       = Importer.opened_files host
           (fst (Importer.import_parts host parts fullName search module)).
Proof.
  induction parts as [| name parts IH]; intros fullName search module;
    [now split |].
  cbn [Importer.import_parts].
  destruct (Importer.imp_find_module host name search) as [e | fd] eqn:Hfind.
  { cbn [fst Importer.in_rounds Importer.opened_files Importer.closed_files].
    now rewrite Hfind. }
  destruct (Importer.imp_load_module host _ fd) as [e | m].
  - cbn [fst].
    rewrite <- (app_nil_r (Importer.close_if_open fd)).
    rewrite (in_rounds_found _ _ _ _ _ _ Hfind),
      (opened_files_found _ _ _ _ _ _ Hfind), closed_files_found.
    now split.
  - specialize (IH ((if (fullName =? "")%string then fullName
                     else fullName ++ ".") ++ name)
                   (Importer.os_path_join search name) (Some m)).
    destruct (Importer.import_parts host parts _ _ (Some m)) as [t o].
    cbn [fst] in IH |- *. destruct IH as [Hrounds Hfiles].
    rewrite (in_rounds_found _ _ _ _ _ _ Hfind),
      (opened_files_found _ _ _ _ _ _ Hfind), closed_files_found, Hfiles.
    now split.
Qed.

(** X2. Every file [imp.find_module] opened is closed, also when loading
    raises: what a lookup found is handed to [imp.load_module] in the next
    call, and the file it opened, if any, is closed in the call after
    that; the files closed are the files the lookups opened, one for one
    and in the same order, and nothing else is called. *)
Theorem import_closes_what_it_opens
    (host : Importer.machinery) (s : string) :
  Importer.in_rounds host (fst (Importer._importVdsmPylibModule host s))
  = true
  /\ Importer.closed_files (fst (Importer._importVdsmPylibModule host s))
     = Importer.opened_files host
         (fst (Importer._importVdsmPylibModule host s)).
Proof.
  unfold Importer._importVdsmPylibModule.
  destruct (import_parts_rounds host (Importer.split_dots s) ""
              (Importer.get_python_lib host) None) as [Hrounds Hfiles].
  split; [exact Hrounds | exact Hfiles].
Qed.

Lemma import_parts_failure host ps seen dir mo e :
  ps <> [] \/ mo <> None ->
  snd (Importer.import_parts host ps seen dir mo) = Raised e ->
  exists before,
    (exists name d,
        fst (Importer.import_parts host ps seen dir mo)
        = (before ++ [Importer.find_module name [d]])%list
        /\ Importer.imp_find_module host name d = inl e)
    \/ (exists name fd,
           fst (Importer.import_parts host ps seen dir mo)
           = (before ++ Importer.load_module name fd
                :: Importer.close_if_open fd)%list
           /\ Importer.imp_load_module host name fd = inl e).
Proof.
  revert seen dir mo. induction ps as [| p ps IH]; intros seen dir mo Hne.
  - destruct mo as [m |]; [discriminate |]. now destruct Hne.
  - cbn [Importer.import_parts].
    destruct (Importer.imp_find_module host p dir) as [e' | fd] eqn:Hfind.
    { intros [= <-]. exists []. left. now exists p, dir. }
    destruct (Importer.imp_load_module host _ fd) as [e' | m] eqn:Hload.
    { intros [= <-]. exists [Importer.find_module p [dir]]. right.
      now eexists _, fd. }
    specialize (IH ((if (seen =? "")%string then seen else seen ++ ".") ++ p)
                   (Importer.os_path_join dir p) (Some m)).
    destruct (Importer.import_parts host ps _ _ _) as [t o].
    cbn [fst snd] in *. intros Ho.
    assert (Hsome : ps <> [] \/ Some m <> None) by (right; discriminate).
    destruct (IH Hsome Ho)
      as (before & [(n & d & Ht & Hn) | (n & fd' & Ht & Hn)]).
    + eexists (_ :: _ :: Importer.close_if_open fd ++ before)%list.
      left. exists n, d. split; [| exact Hn].
      rewrite Ht. cbn [app]. now rewrite <- app_assoc.
    + eexists (_ :: _ :: Importer.close_if_open fd ++ before)%list.
      right. exists n, fd'. split; [| exact Hn].
      rewrite Ht. cbn [app]. now rewrite <- app_assoc.
Qed.

(** X3. When [_importVdsmPylibModule] raises [e], [e] is what the last
    [imp.find_module] or the last [imp.load_module] raised, and nothing is
    called after that call but the closing of its file. *)
Theorem import_stops_at_the_first_failure
    (host : Importer.machinery) (s : string) (e : exn) :
  snd (Importer._importVdsmPylibModule host s) = Raised e ->
  exists before,
    (exists name dir,
        fst (Importer._importVdsmPylibModule host s)
        = (before ++ [Importer.find_module name [dir]])%list
        /\ Importer.imp_find_module host name dir = inl e)
    \/ (exists name fd,
           fst (Importer._importVdsmPylibModule host s)
           = (before ++ Importer.load_module name fd
                :: Importer.close_if_open fd)%list
           /\ Importer.imp_load_module host name fd = inl e).
Proof.
  unfold Importer._importVdsmPylibModule. apply import_parts_failure.
  left. destruct (split_from_cons "" s) as (p & ps & Hs).
  unfold Importer.split_dots. rewrite Hs. discriminate.
Qed.

Lemma import_stops_at_the_first_failure_witness :
  exists before,
    (exists name dir,
        fst (Importer._importVdsmPylibModule Importer.sample_host "vdsm.utils")
        = (before ++ [Importer.find_module name [dir]])%list
        /\ Importer.imp_find_module Importer.sample_host name dir
           = inl (Exception "cannot import name six"))
    \/ (exists name fd,
           fst (Importer._importVdsmPylibModule Importer.sample_host
                  "vdsm.utils")
           = (before ++ Importer.load_module name fd
                :: Importer.close_if_open fd)%list
           /\ Importer.imp_load_module Importer.sample_host name fd
              = inl (Exception "cannot import name six")).
Proof.
  exact (import_stops_at_the_first_failure Importer.sample_host "vdsm.utils"
           (Exception "cannot import name six") eq_refl).
Defined.

Lemma length_neq_prefix (a b : string) : a <> "" -> b <> a ++ b.
Proof.
  intros Ha Heq. apply (f_equal String.length) in Heq.
  rewrite length_append in Heq. destruct a; [contradiction |].
  cbn in Heq. lia.
Qed.

(** X4. A name with a dot in front, [.r]: the loop first loads a module
    under the empty name, and the dot is never written, so no module is
    loaded under [.r]; what the function returns is what
    [imp.load_module] answered for [r]. *)
Theorem import_drops_a_leading_dot
    (host : Importer.machinery) (r : string) :
  r <> "" -> PyStr.startswith r "." = false ->
  (forall n,
      In n (Importer.loaded_names
              (fst (Importer._importVdsmPylibModule host ("." ++ r)))) ->
      n <> "." ++ r)
  /\ (forall m,
         snd (Importer._importVdsmPylibModule host ("." ++ r)) = Returned m ->
         exists fd,
           In (Importer.load_module r fd)
              (fst (Importer._importVdsmPylibModule host ("." ++ r)))
           /\ Importer.imp_load_module host r fd = inr m).
Proof.
  intros Hr Hdot. unfold Importer._importVdsmPylibModule.
  change (Importer.split_dots ("." ++ r)) with ("" :: Importer.split_dots r).
  destruct (dotted_names_of r Hdot) as [Hprefix Hlast].
  assert (Hother : forall n,
             n = r \/ (exists rest, r = n ++ "." ++ rest) -> n <> "." ++ r).
  { intros n [-> | (rest & Hrest)] Heq.
    - now apply (length_neq_prefix "." r).
    - subst n. apply (f_equal String.length) in Hrest.
      rewrite !length_append in Hrest. cbn in Hrest. lia. }
  cbn [Importer.import_parts String.eqb append].
  destruct (Importer.imp_find_module host "" _) as [e | fd];
    [split; [intros n [] | discriminate] |].
  destruct (Importer.imp_load_module host "" fd) as [e | m0].
  { split; [| discriminate]. cbn [fst Importer.loaded_names].
    assert (Hclose : Importer.loaded_names (Importer.close_if_open fd) = [])
      by (unfold Importer.close_if_open; now destruct (Importer.fd_file fd)).
    rewrite Hclose. intros n [<- | []]. discriminate. }
  destruct (import_parts_names host (Importer.split_dots r) ""
              (Importer.os_path_join (Importer.get_python_lib host) "")
              (Some m0)) as [(rest & Hnames & Hall) Hret].
  destruct (Importer.import_parts host (Importer.split_dots r) "" _ _)
    as [t o].
  cbn [fst snd] in *.
  assert (Hskip : Importer.loaded_names (Importer.close_if_open fd ++ t)%list
                  = Importer.loaded_names t)
    by (unfold Importer.close_if_open; now destruct (Importer.fd_file fd)).
  split.
  - cbn [Importer.loaded_names]. rewrite Hskip. intros n [<- | Hin].
    + discriminate.
    + apply Hother, Hprefix. rewrite Hnames. apply in_or_app. now left.
  - intros m Hm. destruct (Hret m Hm) as (fd' & Hin & Hans).
    { destruct (split_from_cons "" r) as (p & ps & Hs).
      unfold Importer.split_dots. rewrite Hs. discriminate. }
    rewrite Hlast in Hin, Hans. exists fd'. split; [| exact Hans].
    right. right. apply in_or_app. now right.
Qed.

Lemma import_drops_a_leading_dot_witness :
  snd (Importer._importVdsmPylibModule Importer.lenient_host ".client")
  = Returned (Importer.PyModule 6)
  /\ exists fd,
       In (Importer.load_module "client" fd)
          (fst (Importer._importVdsmPylibModule Importer.lenient_host
                  ".client"))
       /\ Importer.imp_load_module Importer.lenient_host "client" fd
          = inr (Importer.PyModule 6).
Proof.
  split; [reflexivity |].
  refine (proj2 (import_drops_a_leading_dot Importer.lenient_host "client"
                   _ eq_refl) (Importer.PyModule 6) eq_refl).
  discriminate.
Defined.

(** ** Where the components are looked up *)

Lemma searches_app t1 t2 :
  Importer.searches (t1 ++ t2)%list
  = (Importer.searches t1 ++ Importer.searches t2)%list.
Proof.
  induction t1 as [| c t1 IH]; [reflexivity |].
  destruct c; cbn; now rewrite ?IH.
Qed.

Lemma searches_close fd : Importer.searches (Importer.close_if_open fd) = [].
Proof. unfold Importer.close_if_open. now destruct (Importer.fd_file fd). Qed.

Lemma import_parts_searches host parts :
  forall fullName search module,
    (exists rest,
        Importer.search_dirs search parts
        = (Importer.searches
             (fst (Importer.import_parts host parts fullName search module))
             ++ rest)%list)
    /\ (forall m,
           snd (Importer.import_parts host parts fullName search module)
           = Returned m ->
           Importer.searches
             (fst (Importer.import_parts host parts fullName search module))
           = Importer.search_dirs search parts).
Proof.
  induction parts as [| name parts IH]; intros fullName search module.
  - split; [now exists [] | reflexivity].
  - cbn [Importer.import_parts Importer.search_dirs].
    destruct (Importer.imp_find_module host name search) as [e | fd].
    { split; [eexists; reflexivity | discriminate]. }
    destruct (Importer.imp_load_module host _ fd) as [e | m'].
    { cbn [fst snd Importer.searches].
      rewrite searches_close.
      split; [eexists; reflexivity | discriminate]. }
    specialize (IH ((if (fullName =? "")%string then fullName
                     else fullName ++ ".") ++ name)
                   (Importer.os_path_join search name) (Some m')).
    destruct (Importer.import_parts host parts _ _ (Some m')) as [t o].
    cbn [fst snd] in IH |- *. cbn [Importer.searches].
    rewrite searches_app, searches_close. cbn [app].
    destruct IH as [[rest Hrest] Hret]. split.
    + exists rest. now rewrite Hrest.
    + intros m Hm. now rewrite (Hret m Hm).
Qed.

(** X19. [_importVdsmPylibModule] looks every component up in one
    directory only: the first in the library directory of the
    interpreter, each following one in the directory of the component
    before it.  The lookups made are the first of this list, and the
    whole list when the function returns. *)
Theorem import_searches_nested_directories
    (host : Importer.machinery) (s : string) :
  (exists rest,
      Importer.search_dirs (Importer.get_python_lib host)
                           (Importer.split_dots s)
      = (Importer.searches (fst (Importer._importVdsmPylibModule host s))
           ++ rest)%list)
  /\ (forall m,
         snd (Importer._importVdsmPylibModule host s) = Returned m ->
         Importer.searches (fst (Importer._importVdsmPylibModule host s))
         = Importer.search_dirs (Importer.get_python_lib host)
                                (Importer.split_dots s)).
Proof.
  unfold Importer._importVdsmPylibModule.
  destruct (import_parts_searches host (Importer.split_dots s) ""
              (Importer.get_python_lib host) None) as [[rest Hrest] Hret].
  split; [now exists rest | exact Hret].
Qed.

Lemma import_searches_nested_directories_witness :
  Importer.searches
    (fst (Importer._importVdsmPylibModule Importer.sample_host "vdsm.client"))
  = [("vdsm", ["/usr/lib/python2.7/site-packages"]);
     ("client", ["/usr/lib/python2.7/site-packages/vdsm"])].
Proof.
  exact (proj2 (import_searches_nested_directories
                  Importer.sample_host "vdsm.client")
               (Importer.PyModule 2) eq_refl).
Defined.

(** ** The class body *)

Ltac split_on_attributes plugin :=
  unfold Shim.class_body, Shim.assign, Shim.getattr, Shim.resolve,
    Shim.counterpart, Shim.hasattr in *;
  destruct (existsb (String.eqb "add_copy_spec") plugin) eqn:?;
  destruct (existsb (String.eqb "add_copy_spec_limit") plugin) eqn:?;
  destruct (existsb (String.eqb "add_cmd_output") plugin) eqn:?;
  destruct (existsb (String.eqb "get_option") plugin) eqn:?;
  destruct (existsb (String.eqb "add_forbidden_path") plugin) eqn:?;
  destruct (existsb (String.eqb "add_string_as_file") plugin) eqn:?.

(** X5. On a [Plugin] without [addCopySpec] (sos 3), once the class is
    created every method the plugin calls on [self] is bound to a method
    [Plugin] has: the sos 3 method of the same purpose, and for
    [addCopySpecLimit] it is [add_copy_spec_limit] where [Plugin] has one
    and [add_copy_spec] where it has not. *)
Theorem class_body_binds_every_used_name
    (plugin : list string) (ns : list (string * string)) :
  Shim.hasattr plugin "addCopySpec" = false ->
  Shim.class_body plugin = inr ns ->
  forall name, In name Shim.used_names ->
    Shim.resolve plugin ns name = inr (Shim.counterpart plugin name)
    /\ Shim.hasattr plugin (Shim.counterpart plugin name) = true.
Proof.
  intros Hold Hbody name Hname.
  unfold Shim.class_body in Hbody. rewrite Hold in Hbody. cbn [negb] in Hbody.
  cbn in Hname.
  split_on_attributes plugin; cbn in Hbody; try discriminate Hbody;
    injection Hbody as <-;
    decompose [or] Hname; subst; try contradiction; cbn; auto.
Qed.

Lemma class_body_binds_witness :
  Shim.resolve Shim.sos_3_4
    [("addCopySpec", "add_copy_spec"); ("addCopySpecLimit", "add_copy_spec");
     ("collectExtOutput", "add_cmd_output"); ("getOption", "get_option");
     ("addForbiddenPath", "add_forbidden_path");
     ("addStringAsFile", "add_string_as_file")] "addCopySpecLimit"
  = inr "add_copy_spec".
Proof.
  refine (proj1 (class_body_binds_every_used_name Shim.sos_3_4 _
                   eq_refl eq_refl "addCopySpecLimit" _)).
  cbn. tauto.
Defined.

(** X6. The class body raises, and the plugin cannot be loaded, exactly
    when [Plugin] has no [addCopySpec] and lacks one of [add_copy_spec],
    [add_cmd_output], [get_option], [add_forbidden_path] and
    [add_string_as_file]; a missing [add_copy_spec_limit] never stops
    it. *)
Theorem class_body_raises_iff (plugin : list string) :
  (exists e, Shim.class_body plugin = inl e)
  <-> Shim.hasattr plugin "addCopySpec" = false
      /\ exists name, In name Shim.required
                      /\ Shim.hasattr plugin name = false.
Proof.
  unfold Shim.required. split.
  - intros [e Hbody].
    destruct (Shim.hasattr plugin "addCopySpec") eqn:Hold;
      [unfold Shim.class_body in Hbody; now rewrite Hold in Hbody |].
    split; [reflexivity |].
    destruct (Shim.hasattr plugin "add_copy_spec") eqn:H1;
      [| exists "add_copy_spec"; split; [cbn; tauto | exact H1]].
    destruct (Shim.hasattr plugin "add_cmd_output") eqn:H2;
      [| exists "add_cmd_output"; split; [cbn; tauto | exact H2]].
    destruct (Shim.hasattr plugin "get_option") eqn:H3;
      [| exists "get_option"; split; [cbn; tauto | exact H3]].
    destruct (Shim.hasattr plugin "add_forbidden_path") eqn:H4;
      [| exists "add_forbidden_path"; split; [cbn; tauto | exact H4]].
    destruct (Shim.hasattr plugin "add_string_as_file") eqn:H5;
      [| exists "add_string_as_file"; split; [cbn; tauto | exact H5]].
    exfalso. unfold Shim.class_body, Shim.assign, Shim.getattr in Hbody.
    unfold Shim.hasattr in *. rewrite Hold, H1, H2, H3, H4, H5 in Hbody.
    destruct (existsb (String.eqb "add_copy_spec_limit") plugin);
      cbn in Hbody; discriminate Hbody.
  - intros [Hold (name & Hname & Hmissing)].
    unfold Shim.class_body. rewrite Hold. cbn [negb].
    cbn in Hname. unfold Shim.hasattr in Hmissing.
    decompose [or] Hname; subst; try contradiction;
      split_on_attributes plugin; try discriminate Hmissing;
      cbn; eexists; reflexivity.
Qed.

(** ** [test_init_terraform] *)

Lemma refspec_nonempty fx : Terraform.refspec fx <> "".
Proof.
  unfold Terraform.refspec.
  destruct (Terraform.environ fx "STD_CI_REFSPEC") as [pr |];
    [| discriminate].
  destruct (String.eqb_spec pr ""); [discriminate | assumption].
Qed.

(** X7. Whenever [test_init_terraform] runs a shell command, it is
    [/tmp/test-init-terraform.sh -w /tmp -t pr], where [pr] is not empty:
    it is the value of [STD_CI_REFSPEC], or [master] when the variable is
    unset or empty. *)
Theorem terraform_command_names_a_refspec
    (fx : Terraform.fixtures) (cmd : string) :
  In (Terraform.shell cmd) (fst (Terraform.test_init_terraform fx)) ->
  exists pr,
    cmd = "/tmp/test-init-terraform.sh -w /tmp -t " ++ pr
    /\ pr <> ""
    /\ (Terraform.environ fx "STD_CI_REFSPEC" = Some pr
        \/ pr = "master"
           /\ (Terraform.environ fx "STD_CI_REFSPEC" = None
               \/ Terraform.environ fx "STD_CI_REFSPEC" = Some "")).
Proof.
  intros Hin. exists (Terraform.refspec fx).
  split; [| split; [apply refspec_nonempty |]].
  - unfold Terraform.test_init_terraform, Terraform.then_ in Hin.
    destruct (Terraform.os_bound fx); [| destruct Hin].
    cbn [negb] in Hin. cbv zeta in Hin.
    destruct (Terraform.ansible_copy fx _ _ _);
      [destruct Hin as [H | []]; discriminate H |].
    destruct (Terraform.ansible_copy fx _ _ _);
      [destruct Hin as [H | [H | []]]; discriminate H |].
    destruct (Terraform.ansible_shell fx _);
      destruct Hin as [H | [H | [H | []]]]; try discriminate H;
      now injection H as <-.
  - unfold Terraform.refspec.
    destruct (Terraform.environ fx "STD_CI_REFSPEC") as [pr |]; [| auto].
    destruct (String.eqb_spec pr "") as [-> | _]; auto.
Qed.

Lemma terraform_command_witness :
  exists pr,
    "/tmp/test-init-terraform.sh -w /tmp -t master"
    = "/tmp/test-init-terraform.sh -w /tmp -t " ++ pr
    /\ pr <> ""
    /\ (Terraform.environ (Terraform.sample (Some "")) "STD_CI_REFSPEC"
        = Some pr
        \/ pr = "master"
           /\ (Terraform.environ (Terraform.sample (Some "")) "STD_CI_REFSPEC"
               = None
               \/ Terraform.environ (Terraform.sample (Some ""))
                    "STD_CI_REFSPEC" = Some "")).
Proof.
  apply (terraform_command_names_a_refspec (Terraform.sample (Some ""))).
  cbn. tauto.
Defined.

(** X8. [test_init_terraform] runs the script only when both files are in
    place: a shell command is run exactly when the name [os] is bound and
    both copies return, and then the calls are the copy of [func.sh] to
    [/tmp/func.sh], the copy of the script to [/tmp], both with mode
    [0755], and the command, in this order; the test passes exactly when
    the command returns too. *)
Theorem terraform_runs_the_script_after_both_copies
    (fx : Terraform.fixtures) :
  let src1 := Importer.os_path_join (Terraform.suite_dir fx) "func.sh" in
  let src2 := Importer.os_path_join (Terraform.suite_dir fx)
                                    "test-init-terraform.sh" in
  let cmd := "/tmp/test-init-terraform.sh -w /tmp -t "
               ++ Terraform.refspec fx in
  let ready :=
    Terraform.os_bound fx = true
    /\ Terraform.ansible_copy fx src1 "/tmp/func.sh" "0755" = inr tt
    /\ Terraform.ansible_copy fx src2 "/tmp/test-init-terraform.sh" "0755"
       = inr tt in
  (Terraform.shells (fst (Terraform.test_init_terraform fx)) <> [] <-> ready)
  /\ (ready ->
      fst (Terraform.test_init_terraform fx) =
      [Terraform.copy src1 "/tmp/func.sh" "0755";
       Terraform.copy src2 "/tmp/test-init-terraform.sh" "0755";
       Terraform.shell cmd])
  /\ (snd (Terraform.test_init_terraform fx) = Returned tt
      <-> ready /\ Terraform.ansible_shell fx cmd = inr tt).
Proof.
  cbv zeta. unfold Terraform.test_init_terraform, Terraform.then_.
  destruct (Terraform.os_bound fx); cbn [negb]; cbv zeta.
  2:{ cbn. intuition discriminate. }
  change (Importer.os_path_join "/tmp" "func.sh") with "/tmp/func.sh".
  change (Importer.os_path_join "/tmp" "test-init-terraform.sh")
    with "/tmp/test-init-terraform.sh".
  change ("/tmp/test-init-terraform.sh" ++ " " ++ "-w /tmp " ++ "-t "
            ++ Terraform.refspec fx)
    with ("/tmp/test-init-terraform.sh -w /tmp -t " ++ Terraform.refspec fx).
  destruct (Terraform.ansible_copy fx _ "/tmp/func.sh" "0755") as [e1 | []].
  { cbn. intuition discriminate. }
  destruct (Terraform.ansible_copy fx _ "/tmp/test-init-terraform.sh" "0755")
    as [e2 | []].
  { cbn. intuition discriminate. }
  destruct (Terraform.ansible_shell fx _) as [e3 | []]; cbn;
    intuition discriminate.
Qed.

Lemma terraform_runs_the_script_witness :
  fst (Terraform.test_init_terraform (Terraform.sample (Some "refs/pull/7")))
  = [Terraform.copy "/ost/tr-suite-master/func.sh" "/tmp/func.sh" "0755";
     Terraform.copy "/ost/tr-suite-master/test-init-terraform.sh"
                    "/tmp/test-init-terraform.sh" "0755";
     Terraform.shell "/tmp/test-init-terraform.sh -w /tmp -t refs/pull/7"].
Proof.
  refine (proj1 (proj2 (terraform_runs_the_script_after_both_copies
                          (Terraform.sample (Some "refs/pull/7")))) _).
  repeat split.
Defined.

(** ** What makes [setup] raise *)

Lemma for_each_app {A} (l1 l2 : list A) body :
  Run.for_each (l1 ++ l2)%list body
  = Run.bind (Run.for_each l1 body) (fun _ => Run.for_each l2 body).
Proof.
  induction l1 as [| x l1 IH]; cbn [app Run.for_each].
  - now rewrite bind_ret.
  - now rewrite IH, bind_assoc.
Qed.

Lemma outcome_unit (o : outcome unit) :
  o = Returned tt \/ exists e, o = Raised e.
Proof. destruct o as [[] | e]; [now left | right; now exists e]. Qed.

Lemma run_dir_returns_iff w :
  result (vdsm._addVdsmRunDir w) = Returned tt
  <-> stat_answers w (glob_star "/var/run/vdsm" (run_dir w)).
Proof.
  split; [| intros H; now rewrite (run_dir_run w H)].
  unfold vdsm._addVdsmRunDir, stat_answers.
  generalize (glob_star "/var/run/vdsm" (run_dir w)) as l.
  induction l as [| f l IH]; [intros _ g [] |].
  cbn [Run.for_each]. rewrite run_dir_body, bind_unfold.
  cbn [events result fst snd]. intros Hret g [<- | Hin] H1 H2 H3.
  - rewrite H1, H2, H3 in Hret. cbn [negb andb] in Hret.
    destruct (st_mode w f) as [e | mode]; [discriminate | now exists mode].
  - apply IH; auto.
    destruct (negb (PyStr.endswith f ".vfd")
              && negb (PyStr.endswith f "/isoUploader")
              && negb (PyStr.endswith f "/storage")); [| exact Hret].
    destruct (st_mode w f); [discriminate | exact Hret].
Qed.

Lemma local_phase_returns_iff w :
  result (vdsm.local_phase w) = Returned tt
  <-> stat_answers w (glob_star "/var/run/vdsm" (run_dir w))
      /\ exists out, pgrep w = inr out.
Proof.
  rewrite <- run_dir_returns_iff, local_phase_run. cbn [result snd].
  unfold after_run_dir.
  destruct (outcome_unit (result (vdsm._addVdsmRunDir w)))
    as [-> | [e ->]].
  - destruct (pgrep w) as [e | out]; cbn [result snd].
    + split; [discriminate | intros [_ [out H]]; discriminate H].
    + split; [intros _; split; [reflexivity | now exists out] | reflexivity].
  - split; [discriminate | intros [H _]; discriminate H].
Qed.

(** ** A refused connection *)

Lemma local_phase_trace w out :
  stat_answers w (glob_star "/var/run/vdsm" (run_dir w)) ->
  pgrep w = inr out ->
  events (vdsm.local_phase w) =
  (header_trace
     ++ log_request w
     :: map addCopySpec
          (filter (wanted w) (glob_star "/var/run/vdsm" (run_dir w)))
     ++ static_copies ++ proc_trace (interpreter w) out ++ tail_commands)%list.
Proof.
  intros Hstat Hout. rewrite local_phase_run, (run_dir_run w Hstat).
  unfold after_run_dir. rewrite Hout. reflexivity.
Qed.

Lemma local_phase_commands w out :
  stat_answers w (glob_star "/var/run/vdsm" (run_dir w)) ->
  pgrep w = inr out ->
  commands (events (vdsm.local_phase w)) =
  "service vdsmd status" :: commands tail_commands.
Proof.
  intros Hstat Hout. rewrite (local_phase_trace w out Hstat Hout).
  assert (Hlog : forall t, commands (log_request w :: t) = commands t)
    by (intros t; unfold log_request; now destruct (is_not_None _)).
  assert (Hnone : forall l, commands (map addCopySpec l) = [])
    by (intros l; now induction l).
  assert (Hproc : commands (proc_trace (interpreter w) out) = []).
  { unfold proc_trace. induction (PyStr.splitlines out) as [| l ls IH];
      [reflexivity |].
    cbn [flat_map]. now rewrite commands_app, IH. }
  rewrite commands_app, Hlog, !commands_app, Hnone, Hproc. reflexivity.
Qed.

(** C4. A run in which the connection is attempted and refused with [e]:
    the run returns, and its trace is, in full, the requests of the local
    phase (the fixed ones, the log directory, the wanted entries of the
    run directory, three per process of [pgrep], and the thirteen external
    commands), then the attempt and one artifact,
    ["Cannot connect to vdsm: " + str(e)] under the name [client.connect];
    that artifact is the only named artifact and no remote call is made.
    The refusal is the only thing that makes a run return with remote
    work left out: a run that has its connection and returns has made the
    eight fixed calls, the pool discovery, the status call of every pool
    and, where the [dump-volume-chains] option is true, the domain
    discovery and the command of every domain, before closing. *)
Theorem refused_connection_skips_remote_calls (w : world) :
  In (connect "localhost") (events (vdsm.setup w)) ->
  (forall e, client_connect w = inl e ->
     exists out,
       pgrep w = inr out
       /\ vdsm.setup w =
          ((header_trace
              ++ log_request w
              :: map addCopySpec
                   (filter (wanted w)
                           (glob_star "/var/run/vdsm" (run_dir w)))
              ++ static_copies
              ++ proc_trace (interpreter w) out
              ++ tail_commands
              ++ [connect "localhost";
                  addStringAsFile ("Cannot connect to vdsm: " ++ str_exn e)
                                  "client.connect"])%list,
           Returned tt)
       /\ string_files (events (vdsm.setup w)) =
          [("client.connect", "Cannot connect to vdsm: " ++ str_exn e)]
       /\ invocations (events (vdsm.setup w)) = []
       /\ commands (events (vdsm.setup w)) =
          ["service vdsmd status";
           "/bin/ls -ldZ /etc/vdsm";
           "/bin/su vdsm -s /bin/sh -c '/usr/bin/tree -l /rhev/data-center'";
           "/bin/su vdsm -s /bin/sh -c '/bin/ls -lR /rhev/data-center'";
           "/sbin/lvm vgs -v -o +tags --config '" ++ vdsm.LVM_CONFIG ++ "'";
           "/sbin/lvm lvs -v -o +tags --config '" ++ vdsm.LVM_CONFIG ++ "'";
           "/sbin/lvm pvs -v -o +all --config '" ++ vdsm.LVM_CONFIG ++ "'";
           "/sbin/fdisk -l";
           "/usr/bin/iostat";
           "/sbin/iscsiadm -m node";
           "/sbin/iscsiadm -m session";
           "/usr/sbin/nodectl info";
           "/usr/bin/abrt-cli list"])
  /\ (forall cli, client_connect w = inr cli ->
        result (vdsm.setup w) = Returned tt ->
        exists out pools,
          pgrep w = inr out
          /\ getConnectedStoragePools cli = inr pools
          /\ events (vdsm.setup w) =
             (header_trace
                ++ log_request w
                :: map addCopySpec
                     (filter (wanted w)
                             (glob_star "/var/run/vdsm" (run_dir w)))
                ++ static_copies
                ++ proc_trace (interpreter w) out
                ++ tail_commands
                ++ connect "localhost"
                :: fixed_trace cli
                ++ invoke Host_getConnectedStoragePools []
                :: pools_trace cli pools
                ++ events (domains_branch w cli)
                ++ [close])%list
          /\ (truthy (getOption w "dump-volume-chains") = true ->
              exists sd_uuids,
                getStorageDomains cli [("domainClass", PyInt 1)]
                = inr sd_uuids
                /\ events (domains_branch w cli) =
                   invoke Host_getStorageDomains [("domainClass", PyInt 1)]
                   :: map (fun sd_uuid =>
                             collectExtOutput
                               ("vdsm-tool dump-volume-chains " ++ sd_uuid))
                          sd_uuids)
          /\ (truthy (getOption w "dump-volume-chains") = false ->
              events (domains_branch w cli) = [])).
Proof.
  intros Hreach. pose proof (connect_reached w Hreach) as Hlocal.
  destruct (proj1 (local_phase_returns_iff w) Hlocal) as [Hstat [out Hout]].
  pose proof (local_phase_trace w out Hstat Hout) as Htrace.
  split.
  - intros e He. exists out. split; [exact Hout |].
    assert (Hrun : vdsm.setup w =
                   ((events (vdsm.local_phase w)
                       ++ [connect "localhost"; connect_error e])%list,
                    Returned tt))
      by (now rewrite setup_run, Hlocal, He).
    destruct (local_trace_facts _ (local_phase_is_local w))
      as (Hfiles & Hinv & _ & _).
    split; [| split; [| split]].
    + rewrite Hrun, Htrace. unfold connect_error. norm_app. reflexivity.
    + rewrite Hrun. cbn [events fst].
      now rewrite string_files_app, Hfiles.
    + rewrite Hrun. cbn [events fst]. now rewrite invocations_app, Hinv.
    + rewrite Hrun. cbn [events fst].
      rewrite commands_app, (local_phase_commands w out Hstat Hout).
      reflexivity.
  - intros cli Hcli Hret. exists out.
    assert (Hremote : result (vdsm.remote_phase w cli) = Returned tt)
      by (now rewrite setup_run, Hlocal, Hcli in Hret).
    rewrite remote_phase_run in Hremote.
    destruct (getConnectedStoragePools cli) as [e | pools] eqn:Hpools;
      [discriminate Hremote |].
    cbn [result snd] in Hremote.
    exists pools. split; [exact Hout |]. split; [reflexivity |].
    split; [| split].
    + rewrite (setup_connected w cli pools Hcli Hreach Hpools).
      cbn [events fst]. rewrite Htrace. norm_app. reflexivity.
    + intros Hon. revert Hremote.
      unfold domains_branch, domains_kwargs, vdsm.DATA_DOMAIN. rewrite Hon.
      destruct (getStorageDomains cli _) as [e | sd_uuids];
        [discriminate |].
      intros _. exists sd_uuids. split; reflexivity.
    + intros Hoff. unfold domains_branch. now rewrite Hoff.
Qed.

Lemma refused_connection_skips_witness :
  vdsm.setup Sample.w_refused =
  ([addForbiddenPath "/etc/pki/vdsm/keys/*";
    addForbiddenPath "/etc/pki/vdsm/libvirt-spice/*-key.*";
    addForbiddenPath "/etc/pki/libvirt/private/*";
    collectExtOutput "service vdsmd status";
    addCopySpec "/tmp/vds_installer*";
    addCopySpec "/tmp/vds_bootstrap*";
    addCopySpec "/etc/vdsm/*";
    addCopySpec "/var/log/vdsm/*";
    addCopySpec "/var/run/vdsm/payload";
    addCopySpec "/usr/libexec/vdsm/hooks";
    addCopySpec "/var/lib/vdsm";
    addCopySpec "/var/log/ovirt.log";
    addCopySpec "/var/log/sanlock.log";
    addCopySpec "/proc/12/cmdline";
    addCopySpec "/proc/12/status";
    addCopySpec "/proc/12/mountstats";
    addCopySpec "/proc/34/cmdline";
    addCopySpec "/proc/34/status";
    addCopySpec "/proc/34/mountstats";
    collectExtOutput "/bin/ls -ldZ /etc/vdsm";
    collectExtOutput
      "/bin/su vdsm -s /bin/sh -c '/usr/bin/tree -l /rhev/data-center'";
    collectExtOutput
      "/bin/su vdsm -s /bin/sh -c '/bin/ls -lR /rhev/data-center'";
    collectExtOutput
      ("/sbin/lvm vgs -v -o +tags --config '" ++ vdsm.LVM_CONFIG ++ "'");
    collectExtOutput
      ("/sbin/lvm lvs -v -o +tags --config '" ++ vdsm.LVM_CONFIG ++ "'");
    collectExtOutput
      ("/sbin/lvm pvs -v -o +all --config '" ++ vdsm.LVM_CONFIG ++ "'");
    collectExtOutput "/sbin/fdisk -l";
    collectExtOutput "/usr/bin/iostat";
    collectExtOutput "/sbin/iscsiadm -m node";
    collectExtOutput "/sbin/iscsiadm -m session";
    collectExtOutput "/usr/sbin/nodectl info";
    collectExtOutput "/usr/bin/abrt-cli list";
    connect "localhost";
    addStringAsFile "Cannot connect to vdsm: Connection refused"
                    "client.connect"],
   Returned tt).
Proof.
  assert (Hin : In (connect "localhost")
                   (events (vdsm.setup Sample.w_refused)))
    by (vm_compute; tauto).
  destruct (proj1 (refused_connection_skips_remote_calls Sample.w_refused Hin)
              (Exception "Connection refused") eq_refl)
    as (out & Hout & Hrun & _).
  injection Hout as <-. rewrite Hrun. reflexivity.
Defined.

(** X9. [setup] returns normally exactly when [os.stat] answers for every
    entry of the run directory it is asked about, [pgrep] can be started,
    and either the connection is refused or the pool discovery answers
    and, where the [dump-volume-chains] option is true, the domain
    discovery answers too.  No failure of a collected remote call, and no
    refusal of the connection, makes it raise. *)
Theorem setup_returns_iff (w : world) :
  result (vdsm.setup w) = Returned tt
  <-> stat_answers w (glob_star "/var/run/vdsm" (run_dir w))
      /\ (exists out, pgrep w = inr out)
      /\ match client_connect w with
         | inl _ => True
         | inr cli =>
             (exists pools, getConnectedStoragePools cli = inr pools)
             /\ (truthy (getOption w "dump-volume-chains") = true ->
                 exists sd_uuids,
                   getStorageDomains cli [("domainClass", PyInt 1)]
                   = inr sd_uuids)
         end.
Proof.
  rewrite <- and_assoc, <- local_phase_returns_iff, setup_run.
  destruct (outcome_unit (result (vdsm.local_phase w))) as [-> | [e ->]].
  2:{ split; [discriminate | intros [H _]; discriminate H]. }
  destruct (client_connect w) as [e | cli]; cbn [result snd].
  { tauto. }
  rewrite remote_phase_run.
  destruct (getConnectedStoragePools cli) as [e | pools]; cbn [result snd].
  { split; [discriminate | intros [_ [[pools H] _]]; discriminate H]. }
  unfold domains_branch, domains_kwargs, vdsm.DATA_DOMAIN.
  destruct (truthy (getOption w "dump-volume-chains")).
  - destruct (getStorageDomains cli _) as [e | sd_uuids]; cbn [result snd].
    + split; [discriminate |].
      intros [_ [_ H]]. destruct (H eq_refl) as [sd_uuids Hsd].
      discriminate Hsd.
    + split; [| reflexivity]. intros _. split; [reflexivity |].
      split; [now exists pools | intros _; now exists sd_uuids].
  - split; [| reflexivity]. intros _. split; [reflexivity |].
    split; [now exists pools | discriminate].
Qed.

(** X10. When [pgrep] cannot be started, with an answering [os.stat]:
    [setup] raises the [OSError] right after the four fixed copy requests
    that follow the run directory.  No external command but
    [service vdsmd status] has been requested, and no connection is
    attempted. *)
Theorem setup_stops_when_pgrep_is_missing (w : world) (e : exn) :
  stat_answers w (glob_star "/var/run/vdsm" (run_dir w)) ->
  pgrep w = inl e ->
  vdsm.setup w =
  ((header_trace
      ++ log_request w
      :: map addCopySpec
           (filter (wanted w) (glob_star "/var/run/vdsm" (run_dir w)))
      ++ static_copies)%list, Raised e)
  /\ commands (events (vdsm.setup w)) = ["service vdsmd status"]
  /\ ~ In (connect "localhost") (events (vdsm.setup w)).
Proof.
  intros Hstat Hpgrep.
  assert (Hrun : vdsm.setup w =
                 ((header_trace
                     ++ log_request w
                     :: map addCopySpec
                          (filter (wanted w)
                                  (glob_star "/var/run/vdsm" (run_dir w)))
                     ++ static_copies)%list, Raised e)).
  { rewrite setup_run, local_phase_run, (run_dir_run w Hstat).
    unfold after_run_dir. rewrite Hpgrep. reflexivity. }
  split; [exact Hrun |].
  assert (Hlocal : Forall (fun ev => is_local ev = true)
                          (events (vdsm.setup w)) /\
                   commands (events (vdsm.setup w))
                   = ["service vdsmd status"]).
  { rewrite Hrun. cbn [events fst]. split.
    - apply Forall_app. split; [repeat constructor |].
      constructor; [unfold log_request; now destruct (is_not_None _) |].
      apply Forall_app. split; [| repeat constructor].
      apply Forall_map, Forall_forall. reflexivity.
    - assert (Hlog : forall t, commands (log_request w :: t) = commands t)
        by (intros t; unfold log_request; now destruct (is_not_None _)).
      assert (Hnone : forall l, commands (map addCopySpec l) = [])
        by (intros l; now induction l).
      now rewrite commands_app, Hlog, commands_app, Hnone. }
  destruct Hlocal as [Hlocal Hcommands]. split; [exact Hcommands |].
  intros Hin. destruct (local_trace_facts _ Hlocal) as (_ & _ & _ & Hno).
  rewrite Forall_forall in Hno. now destruct (Hno _ Hin).
Qed.

Lemma setup_stops_when_pgrep_is_missing_witness :
  commands (events (vdsm.setup Sample2.w_no_pgrep))
  = ["service vdsmd status"]
  /\ ~ In (connect "localhost") (events (vdsm.setup Sample2.w_no_pgrep)).
Proof.
  refine (proj2 (setup_stops_when_pgrep_is_missing Sample2.w_no_pgrep
                   (Exception "[Errno 2] No such file or directory")
                   _ eq_refl)).
  intros f Hf _ _ _. vm_compute in Hf.
  decompose [or] Hf; subst; try contradiction; eexists; reflexivity.
Defined.

Lemma run_dir_loop w l :
  stat_answers w l ->
  Run.for_each l (fun f =>
    if negb (PyStr.endswith f ".vfd")
       && negb (PyStr.endswith f "/isoUploader")
       && negb (PyStr.endswith f "/storage")
    then
      Run.bind (Run.ask (st_mode w f)) (fun mode =>
        if negb (S_ISSOCK mode) then Run.request (addCopySpec f)
        else Run.ret tt)
    else Run.ret tt)
  = (map addCopySpec (filter (wanted w) l), Returned tt).
Proof.
  induction l as [| f l IH]; intros Hstat; cbn [Run.for_each filter].
  - reflexivity.
  - rewrite run_dir_body, IH by (intros g Hg; apply Hstat; now right).
    assert (Hf := Hstat f (or_introl eq_refl)). unfold wanted.
    destruct (PyStr.endswith f ".vfd") eqn:E1; [reflexivity |].
    destruct (PyStr.endswith f "/isoUploader") eqn:E2; [reflexivity |].
    destruct (PyStr.endswith f "/storage") eqn:E3; [reflexivity |].
    destruct Hf as [mode Hmode]; auto. rewrite Hmode. cbn [negb andb].
    destruct (negb (S_ISSOCK mode)); reflexivity.
Qed.

Lemma glob_star_app dir l1 l2 :
  glob_star dir (l1 ++ l2)
  = (glob_star dir l1 ++ glob_star dir l2)%list.
Proof. unfold glob_star. now rewrite filter_app, map_app. Qed.

Lemma glob_star_shown dir n l :
  PyStr.startswith n "." = false ->
  glob_star dir (n :: l) = (dir ++ "/" ++ n) :: glob_star dir l.
Proof. intros Hdot. unfold glob_star. cbn [filter]. now rewrite Hdot. Qed.

(** X11. When [os.stat] raises on an entry [n] of the run directory that
    is not hidden and passes the tests on its name, after answering for
    the entries listed before it: [_addVdsmRunDir] has requested the
    wanted entries before [n] and nothing after, and [setup] raises the
    [OSError] there, before any of its later requests, commands and
    calls. *)
Theorem setup_stops_at_a_failing_stat
    (w : world) (before after : list string) (n : string) (e : exn) :
  run_dir w = (before ++ n :: after)%list ->
  stat_answers w (glob_star "/var/run/vdsm" before) ->
  PyStr.startswith n "." = false ->
  stat_asked ("/var/run/vdsm/" ++ n) = true ->
  st_mode w ("/var/run/vdsm/" ++ n) = inl e ->
  vdsm._addVdsmRunDir w =
  (map addCopySpec (filter (wanted w) (glob_star "/var/run/vdsm" before)),
   Raised e)
  /\ vdsm.setup w =
     ((header_trace
         ++ log_request w
         :: map addCopySpec
              (filter (wanted w) (glob_star "/var/run/vdsm" before)))%list,
      Raised e).
Proof.
  intros Hdir Hstat Hdot Hasked Hmode.
  assert (Hrun : vdsm._addVdsmRunDir w =
                 (map addCopySpec
                      (filter (wanted w) (glob_star "/var/run/vdsm" before)),
                  Raised e)).
  { unfold vdsm._addVdsmRunDir. rewrite Hdir, glob_star_app, for_each_app.
    rewrite (run_dir_loop w _ Hstat), bind_pair.
    rewrite (glob_star_shown _ _ _ Hdot). cbn [Run.for_each].
    change ("/var/run/vdsm" ++ "/" ++ n) with ("/var/run/vdsm/" ++ n).
    rewrite run_dir_body. unfold stat_asked in Hasked. unfold wanted.
    rewrite Hasked, Hmode. cbn [andb].
    rewrite (bind_raised _ _ e) by reflexivity.
    cbn [events result fst snd]. now rewrite app_nil_r. }
  split; [exact Hrun |].
  rewrite setup_run, local_phase_run, Hrun. cbn [events result fst snd].
  now rewrite app_nil_r.
Qed.

Lemma setup_stops_at_a_failing_stat_witness :
  vdsm.setup Sample2.w_stale =
  ((header_trace
      ++ [addCopySpec "/var/log/vdsm/*"; addCopySpec "/var/run/vdsm/payload"])
     %list,
   Raised (Exception "[Errno 2] No such file or directory")).
Proof.
  refine (proj2 (setup_stops_at_a_failing_stat Sample2.w_stale
                   ["payload"] ["nets"] "stale"
                   (Exception "[Errno 2] No such file or directory")
                   eq_refl _ eq_refl eq_refl eq_refl)).
  intros f Hf _ _ _. vm_compute in Hf.
  decompose [or] Hf; subst; try contradiction; eexists; reflexivity.
Defined.

(** ** The artifacts of a connected run *)

Lemma connected_artifact_names w cli pools :
  client_connect w = inr cli ->
  In (connect "localhost") (events (vdsm.setup w)) ->
  getConnectedStoragePools cli = inr pools ->
  map fst (string_files (events (vdsm.setup w))) = artifact_names pools.
Proof.
  intros Hcli Hreach Hpools.
  rewrite (setup_connected w cli pools Hcli Hreach Hpools).
  cbn [events fst].
  destruct (local_trace_facts _ (local_phase_is_local w)) as (Hfiles & _).
  rewrite string_files_app, Hfiles. cbn [app string_files].
  rewrite !string_files_app. cbn [string_files].
  rewrite string_files_app, domains_branch_files, pools_trace_files.
  rewrite !app_nil_r, map_app, map_map. reflexivity.
Qed.

Lemma NoDup_map_injective {A B} (f : A -> B) (l : list A) :
  (forall x y, f x = f y -> x = y) -> NoDup l -> NoDup (map f l).
Proof.
  intros Hinj. induction 1 as [| x l Hx _ IH]; cbn; constructor; auto.
  intros Hin. apply in_map_iff in Hin. destruct Hin as (y & Heq & Hy).
  apply Hinj in Heq. now subst y.
Qed.

(** X12. A run in which the connection is established and the pool
    discovery returns [pools] files its artifacts under the eight fixed
    names followed by one name per pool; these names are pairwise
    different exactly when the pools are: a pool listed twice gives two
    artifacts of the same name. *)
Theorem artifact_names_distinct_iff_pools_distinct
    (w : world) (cli : client) (pools : list string) :
  client_connect w = inr cli ->
  In (connect "localhost") (events (vdsm.setup w)) ->
  getConnectedStoragePools cli = inr pools ->
  map fst (string_files (events (vdsm.setup w))) =
  app (map (fun c => fst (fst c)) fixed_calls)
      (map (fun pool => "StoragePool.getSpmStatus " ++ pool) pools)
  /\ (NoDup (map fst (string_files (events (vdsm.setup w))))
      <-> NoDup pools).
Proof.
  intros Hcli Hreach Hpools.
  rewrite (connected_artifact_names w cli pools Hcli Hreach Hpools).
  split; [reflexivity |]. unfold artifact_names. split.
  - intros Hnd. apply NoDup_app_remove_l in Hnd.
    now apply NoDup_map_inv in Hnd.
  - intros Hnd. apply NoDup_app.
    + cbn. repeat constructor; cbn; intuition discriminate.
    + apply NoDup_map_injective; [| exact Hnd].
      intros x y Heq. now injection Heq.
    + intros name Hfixed Hpool. apply in_map_iff in Hpool.
      destruct Hpool as (pool & <- & _).
      cbn in Hfixed. intuition discriminate.
Qed.

Lemma artifact_names_distinct_witness :
  ~ NoDup (map fst (string_files (events (vdsm.setup Sample2.w_no_domains)))).
Proof.
  intros Hnd.
  assert (Hreach : In (connect "localhost")
                      (events (vdsm.setup Sample2.w_no_domains)))
    by (vm_compute; tauto).
  apply (proj2 (artifact_names_distinct_iff_pools_distinct
                  Sample2.w_no_domains Sample2.cli_no_domains ["p1"; "p1"]
                  eq_refl Hreach eq_refl)) in Hnd.
  inversion_clear Hnd as [| ? ? Hin _]. apply Hin. now left.
Defined.

(** X13. A run in which the connection is established, the pool discovery
    returns and the [dump-volume-chains] option is true, but the domain
    discovery raises [e]: [setup] raises [e]; the artifacts of the eight
    fixed calls and of every pool are already filed, no per-domain command
    is issued, and the failed call and the closing of the connection are
    the last two events. *)
Theorem setup_passes_domain_discovery_failure_on
    (w : world) (cli : client) (pools : list string) (e : exn) :
  client_connect w = inr cli ->
  In (connect "localhost") (events (vdsm.setup w)) ->
  getConnectedStoragePools cli = inr pools ->
  truthy (getOption w "dump-volume-chains") = true ->
  getStorageDomains cli [("domainClass", PyInt 1)] = inl e ->
  result (vdsm.setup w) = Raised e
  /\ map fst (string_files (events (vdsm.setup w))) =
     app (map (fun c => fst (fst c)) fixed_calls)
         (map (fun pool => "StoragePool.getSpmStatus " ++ pool) pools)
  /\ filter is_dump_command (commands (events (vdsm.setup w))) = []
  /\ exists earlier,
       events (vdsm.setup w) =
       (earlier ++ [invoke Host_getStorageDomains [("domainClass", PyInt 1)];
                    close])%list.
Proof.
  intros Hcli Hreach Hpools Hon Hsd.
  assert (Hbranch : domains_branch w cli =
                    ([invoke Host_getStorageDomains
                        [("domainClass", PyInt 1)]], Raised e)).
  { unfold domains_branch, domains_kwargs, vdsm.DATA_DOMAIN.
    now rewrite Hon, Hsd. }
  split; [| split; [| split]].
  - now rewrite (setup_connected w cli pools Hcli Hreach Hpools), Hbranch.
  - exact (connected_artifact_names w cli pools Hcli Hreach Hpools).
  - rewrite (connected_commands w cli pools Hcli Hreach Hpools), Hbranch.
    reflexivity.
  - rewrite (setup_connected w cli pools Hcli Hreach Hpools), Hbranch.
    cbn [events fst].
    exists (events (vdsm.local_phase w)
              ++ connect "localhost"
              :: fixed_trace cli
              ++ invoke Host_getConnectedStoragePools []
              :: pools_trace cli pools)%list.
    now norm_app.
Qed.

Lemma setup_passes_domain_discovery_failure_witness :
  result (vdsm.setup Sample2.w_no_domains)
  = Raised (Exception "Storage is busy")
  /\ filter is_dump_command
       (commands (events (vdsm.setup Sample2.w_no_domains))) = [].
Proof.
  assert (Hreach : In (connect "localhost")
                      (events (vdsm.setup Sample2.w_no_domains)))
    by (vm_compute; tauto).
  destruct (setup_passes_domain_discovery_failure_on
              Sample2.w_no_domains Sample2.cli_no_domains ["p1"; "p1"]
              (Exception "Storage is busy") eq_refl Hreach eq_refl
              eq_refl eq_refl) as (Hres & _ & Hcmd & _).
  now split.
Defined.

(** ** The scope of the connection *)




(** ** A result that cannot be serialized *)

(** X15. When the remote call returns a value that [json.dumps] rejects
    with [e], the [TypeError] is caught by the same handler as a failure
    of the call: [collectVdsmCommand] files [str(e)] under [name] and
    returns normally. *)
Theorem collectVdsmCommand_files_the_serialization_error
    (name : string) (call : kwargs -> run pyval) (kw : kwargs)
    (v : pyval) (e : exn) :
  result (call kw) = Returned v ->
  Json.dumps v = inl e ->
  vdsm.collectVdsmCommand name call kw =
  ((events (call kw) ++ [addStringAsFile (str_exn e) name])%list, Returned tt).
Proof.
  intros Hv Hd. rewrite collectVdsmCommand_run, Hv. cbn [artifact].
  now rewrite Hd.
Qed.

Lemma collectVdsmCommand_files_the_serialization_error_witness :
  vdsm.collectVdsmCommand "Host.getStats"
    (vdsm.bound Sample2.cli_set Host_getStats) [] =
  ([invoke Host_getStats [];
    addStringAsFile "set([2]) is not JSON serializable" "Host.getStats"],
   Returned tt).
Proof.
  exact (collectVdsmCommand_files_the_serialization_error
           "Host.getStats" (vdsm.bound Sample2.cli_set Host_getStats) []
           (PyList [PyInt 1; PyObject "set([2])"])
           (Exception "set([2]) is not JSON serializable")
           eq_refl eq_refl).
Defined.

(** ** Options that are not declared *)

(** X16. Giving any value to an option that is not in [option_list]
    changes nothing of a run: [setup] reads the two declared options and
    no other. *)
Theorem undeclared_option_changes_nothing
    (w : world) (name : string) (v : pyval) :
  ~ In name vdsm.option_list ->
  vdsm.setup (with_option w name v) = vdsm.setup w.
Proof.
  intros Hname. apply setup_reads_declared_options; try reflexivity.
  intros n Hn. cbn [with_option getOption].
  destruct (String.eqb_spec n name) as [-> | _]; [contradiction | reflexivity].
Qed.

Lemma undeclared_option_changes_nothing_witness :
  vdsm.setup (with_option Sample.w_ok "all_logs" (PyBool true))
  = vdsm.setup Sample.w_ok.
Proof.
  apply (undeclared_option_changes_nothing Sample.w_ok "all_logs"
           (PyBool true)).
  cbn. intros [H | [H | []]]; discriminate H.
Defined.

(** ** Blanks: [re.sub], [strip] and [splitlines] *)

Lemma forall_chars_app p a b :
  Text.forall_chars p (a ++ b)
  = Text.forall_chars p a && Text.forall_chars p b.
Proof.
  induction a as [| c a IH]; cbn; [reflexivity |].
  now rewrite IH, andb_assoc.
Qed.

Lemma rev_cons c s : PyStr.rev (String c s) = PyStr.rev s ++ PyStr.chr c.
Proof.
  change (String c s) with (String c "" ++ s). now rewrite rev_append.
Qed.

Lemma forall_chars_rev p s :
  Text.forall_chars p (PyStr.rev s) = Text.forall_chars p s.
Proof.
  induction s as [| c s IH]; [reflexivity |].
  rewrite rev_cons, forall_chars_app, IH. cbn.
  now rewrite andb_true_r, andb_comm.
Qed.

Lemma lstrip_split s :
  exists p, s = p ++ PyStr.lstrip s
            /\ Text.forall_chars PyStr.isspace p = true.
Proof.
  induction s as [| c s (p & Hp & Hblank)]; [now exists "" |].
  cbn [PyStr.lstrip]. destruct (PyStr.isspace c) eqn:Hc.
  - exists (String c p). cbn. rewrite Hc, Hblank. now rewrite <- Hp.
  - now exists "".
Qed.

Lemma rstrip_split s :
  exists q, s = PyStr.rstrip s ++ q
            /\ Text.forall_chars PyStr.isspace q = true.
Proof.
  destruct (lstrip_split (PyStr.rev s)) as (p & Hp & Hblank).
  exists (PyStr.rev p). split; [| now rewrite forall_chars_rev].
  unfold PyStr.rstrip. rewrite <- rev_append, <- Hp.
  now rewrite rev_involutive.
Qed.

Lemma strip_split s :
  exists p q, s = p ++ PyStr.strip s ++ q
              /\ Text.forall_chars PyStr.isspace p = true
              /\ Text.forall_chars PyStr.isspace q = true.
Proof.
  destruct (lstrip_split s) as (p & Hp & Hpb).
  destruct (rstrip_split (PyStr.lstrip s)) as (q & Hq & Hqb).
  exists p, q. unfold PyStr.strip. now rewrite <- Hq.
Qed.

Lemma head_lstrip s : Text.head_not_blank (PyStr.lstrip s) = true.
Proof.
  induction s as [| c s IH]; [reflexivity |]. cbn [PyStr.lstrip].
  destruct (PyStr.isspace c) eqn:Hc; [exact IH |]. cbn. now rewrite Hc.
Qed.

Lemma trimmed_strip s : Text.trimmed (PyStr.strip s) = true.
Proof.
  unfold Text.trimmed. apply andb_true_intro. split.
  - unfold PyStr.strip.
    destruct (rstrip_split (PyStr.lstrip s)) as (q & Hq & _).
    assert (Hhead := head_lstrip s). rewrite Hq in Hhead.
    destruct (PyStr.rstrip (PyStr.lstrip s)); [reflexivity | exact Hhead].
  - unfold PyStr.strip, PyStr.rstrip. rewrite rev_involutive.
    apply head_lstrip.
Qed.

Lemma double_space_app a b :
  Text.double_space (a ++ b) = false ->
  Text.double_space a = false /\ Text.double_space b = false.
Proof.
  induction a as [| x a IH]; [now split |].
  destruct a as [| y a].
  - intros H. split; [reflexivity |]. destruct b as [| z b]; [reflexivity |].
    cbn [append] in H. cbn [Text.double_space] in H.
    now apply orb_false_elim in H.
  - intros H.
    change (Text.double_space (String x (String y (a ++ b))) = false) in H.
    cbn [Text.double_space] in H. apply orb_false_elim in H.
    destruct H as [Hxy Hrest]. destruct (IH Hrest) as [Ha Hb].
    split; [| exact Hb]. cbn [Text.double_space].
    rewrite Hxy. exact Ha.
Qed.

Lemma not_blank_not_space c :
  PyStr.isspace c = false -> Ascii.eqb c " "%char = false.
Proof.
  intros Hc. destruct (Ascii.eqb_spec c " "%char) as [-> | _];
    [discriminate Hc | reflexivity].
Qed.

Lemma sub_blanks_chars b s :
  Text.forall_chars Text.space_or_ink (PyStr.sub_blanks b s) = true.
Proof.
  revert b. induction s as [| c s IH]; intros b; [reflexivity |].
  cbn [PyStr.sub_blanks]. destruct (PyStr.isspace c) eqn:Hc.
  - destruct b; [apply IH |]. cbn [Text.forall_chars]. now rewrite IH.
  - cbn [Text.forall_chars]. unfold Text.space_or_ink at 1.
    rewrite Hc, IH. cbn. now rewrite orb_true_r.
Qed.

Lemma sub_blanks_head s :
  Text.head_not_blank (PyStr.sub_blanks true s) = true.
Proof.
  induction s as [| c s IH]; [reflexivity |]. cbn [PyStr.sub_blanks].
  destruct (PyStr.isspace c) eqn:Hc; [exact IH |]. cbn. now rewrite Hc.
Qed.

Lemma double_space_cons a d r :
  Text.double_space (String a (String d r))
  = (Ascii.eqb a " "%char && Ascii.eqb d " "%char)
    || Text.double_space (String d r).
Proof. reflexivity. Qed.

Lemma sub_blanks_single b s :
  Text.double_space (PyStr.sub_blanks b s) = false.
Proof.
  revert b. induction s as [| c s IH]; intros b; [reflexivity |].
  cbn [PyStr.sub_blanks]. destruct (PyStr.isspace c) eqn:Hc.
  - destruct b; [apply IH |].
    assert (Hhead := sub_blanks_head s). assert (Hrest := IH true).
    destruct (PyStr.sub_blanks true s) as [| d r]; [reflexivity |].
    rewrite double_space_cons, Hrest.
    cbn [Text.head_not_blank] in Hhead.
    apply negb_true_iff, not_blank_not_space in Hhead.
    now rewrite Hhead, andb_false_r.
  - assert (Hrest := IH false).
    destruct (PyStr.sub_blanks false s) as [| d r]; [reflexivity |].
    rewrite double_space_cons, Hrest.
    now rewrite (not_blank_not_space c Hc).
Qed.

Lemma squeeze_app a b :
  Text.squeeze (a ++ b) = Text.squeeze a ++ Text.squeeze b.
Proof.
  induction a as [| c a IH]; [reflexivity |]. cbn.
  destruct (PyStr.isspace c); cbn; now rewrite IH.
Qed.

Lemma squeeze_blanks q :
  Text.forall_chars PyStr.isspace q = true -> Text.squeeze q = "".
Proof.
  induction q as [| c q IH]; [reflexivity |]. cbn. intros H.
  apply andb_prop in H. destruct H as [Hc Hq]. rewrite Hc. now apply IH.
Qed.

Lemma squeeze_sub_blanks b s :
  Text.squeeze (PyStr.sub_blanks b s) = Text.squeeze s.
Proof.
  revert b. induction s as [| c s IH]; intros b; [reflexivity |].
  cbn [PyStr.sub_blanks Text.squeeze]. destruct (PyStr.isspace c) eqn:Hc.
  - destruct b; [apply IH |]. cbn [Text.squeeze].
    change (PyStr.isspace " "%char) with true. cbn iota. apply IH.
  - cbn [Text.squeeze]. now rewrite Hc, IH.
Qed.

Lemma squeeze_strip s : Text.squeeze (PyStr.strip s) = Text.squeeze s.
Proof.
  destruct (strip_split s) as (p & q & Hs & Hp & Hq).
  rewrite Hs at 2. rewrite !squeeze_app, (squeeze_blanks p Hp),
    (squeeze_blanks q Hq). cbn. now rewrite append_empty_r.
Qed.

(** X17. The normalisation applied to the LVM configuration template,
    [re.sub(r"\s+", " ", text).strip()], on any text made of the characters
    Python 2 and Python 3 class alike (ASCII without the separators [0x1c]
    to [0x1f]), as the template is: the result has no blank at either end,
    its only blank character is the space (so it is one line), no two
    spaces follow each other, and its other characters are those of [text]
    in the same order. *)
Theorem blank_runs_become_single_spaces (text : string) :
  Text.forall_chars Text.agreed text = true ->
  Text.trimmed (PyStr.strip (PyStr.sub_blanks false text)) = true
  /\ Text.forall_chars Text.space_or_ink
       (PyStr.strip (PyStr.sub_blanks false text)) = true
  /\ Text.double_space (PyStr.strip (PyStr.sub_blanks false text)) = false
  /\ Text.squeeze (PyStr.strip (PyStr.sub_blanks false text))
     = Text.squeeze text.
Proof.
  intros _.
  destruct (strip_split (PyStr.sub_blanks false text))
    as (p & q & Hs & _ & _).
  assert (Hchars := sub_blanks_chars false text).
  assert (Hsingle := sub_blanks_single false text).
  rewrite Hs in Hchars, Hsingle.
  rewrite !forall_chars_app in Hchars.
  apply andb_prop in Hchars. destruct Hchars as [_ Hchars].
  apply andb_prop in Hchars. destruct Hchars as [Hchars _].
  apply double_space_app in Hsingle. destruct Hsingle as [_ Hsingle].
  apply double_space_app in Hsingle. destruct Hsingle as [Hsingle _].
  repeat split.
  - apply trimmed_strip.
  - exact Hchars.
  - exact Hsingle.
  - now rewrite squeeze_strip, squeeze_sub_blanks.
Qed.

Lemma blank_runs_become_single_spaces_witness :
  Text.forall_chars Text.agreed vdsm.LVM_CONFIG_text = true
  /\ Text.trimmed vdsm.LVM_CONFIG = true
  /\ Text.forall_chars Text.space_or_ink vdsm.LVM_CONFIG = true
  /\ Text.double_space vdsm.LVM_CONFIG = false
  /\ Text.squeeze vdsm.LVM_CONFIG = Text.squeeze vdsm.LVM_CONFIG_text.
Proof.
  split; [reflexivity |].
  exact (blank_runs_become_single_spaces vdsm.LVM_CONFIG_text eq_refl).
Defined.

(** ** The processes [pgrep] prints *)

Lemma splitlines_from_no_break n :
  forall s line,
    String.length s <= n ->
    Text.no_break line = true ->
    Forall (fun l => Text.no_break l = true) (PyStr.splitlines_from line s).
Proof.
  induction n as [| n IH]; intros s line Hlen Hline.
  - destruct s; [| cbn in Hlen; lia]. cbn.
    destruct line; repeat constructor. exact Hline.
  - destruct s as [| c s].
    { cbn. destruct line; repeat constructor. exact Hline. }
    cbn [String.length] in Hlen. cbn [PyStr.splitlines_from].
    destruct (Ascii.eqb c PyStr.LF) eqn:Hlf.
    { constructor; [exact Hline |]. apply IH; [lia | reflexivity]. }
    destruct (Ascii.eqb c PyStr.CR) eqn:Hcr.
    { destruct s as [| c' s']; [repeat constructor; exact Hline |].
      cbn [String.length] in Hlen.
      destruct (Ascii.eqb c' PyStr.LF);
        (constructor; [exact Hline |]); apply IH; cbn; (lia || reflexivity). }
    apply IH; [lia |]. unfold Text.no_break in *.
    rewrite forall_chars_app, Hline. cbn. unfold Text.is_break.
    now rewrite Hlf, Hcr.
Qed.

Lemma strip_no_break s :
  Text.no_break s = true -> Text.no_break (PyStr.strip s) = true.
Proof.
  destruct (strip_split s) as (p & q & Hs & _ & _).
  unfold Text.no_break. rewrite Hs at 1. rewrite !forall_chars_app.
  intros H. apply andb_prop in H. destruct H as [_ H].
  apply andb_prop in H. now destruct H.
Qed.

Lemma proc_trace_requests py out :
  proc_trace py out
  = flat_map proc_requests
      (map (fun line => PyStr.percent_s py (PyStr.strip line))
           (PyStr.splitlines out)).
Proof.
  unfold proc_trace. induction (PyStr.splitlines out) as [| l ls IH];
    [reflexivity |].
  cbn [flat_map map]. now rewrite IH.
Qed.

Lemma bytes_repr_char_length quote c :
  1 <= String.length (PyStr.bytes_repr_char quote c).
Proof.
  unfold PyStr.bytes_repr_char.
  repeat match goal with
         | |- context [if ?b then _ else _] => destruct b
         end; cbn; lia.
Qed.

Lemma bytes_repr_body_length quote b :
  String.length b <= String.length (PyStr.bytes_repr_body quote b).
Proof.
  induction b as [| c b IH]; [reflexivity |].
  cbn [PyStr.bytes_repr_body String.length]. rewrite length_append.
  pose proof (bytes_repr_char_length quote c). lia.
Qed.

(** The [repr] of a byte string is never the byte string itself. *)
Lemma bytes_repr_differs b : PyStr.bytes_repr b <> b.
Proof.
  intros Heq. pose proof (bytes_repr_body_length (PyStr.bytes_quote b) b).
  apply (f_equal String.length) in Heq. unfold PyStr.bytes_repr in Heq.
  rewrite !length_append in Heq. cbn [String.length PyStr.chr] in Heq. lia.
Qed.

Lemma proc_requests_kept pids :
  filter is_proc_copy (flat_map proc_requests pids)
  = flat_map proc_requests pids.
Proof.
  induction pids as [| pid pids IH]; [reflexivity |].
  cbn [flat_map]. rewrite filter_app, IH. reflexivity.
Qed.

Lemma run_dir_not_proc w :
  filter is_proc_copy (events (vdsm._addVdsmRunDir w)) = [].
Proof.
  apply filter_none. eapply Forall_impl; [| apply run_dir_events].
  intros ev (f & -> & Hin & _). unfold glob_star in Hin.
  apply in_map_iff in Hin. destruct Hin as (n & <- & _). reflexivity.
Qed.

Lemma beyond_local_not_proc w :
  filter is_proc_copy (events (connection_phase w)) = [].
Proof.
  unfold connection_phase.
  destruct (client_connect w) as [e | cli]; [reflexivity |].
  cbn [events fst filter is_proc_copy]. rewrite filter_app. cbn.
  rewrite app_nil_r. apply filter_none.
  eapply Forall_impl; [| apply remote_phase_events].
  intros ev Hev. destruct ev; cbn in Hev |- *; (reflexivity || contradiction).
Qed.

(** X18. In a run where [os.stat] answers and [pgrep] prints [out], the
    copy requests under [/proc/] are exactly the three requests
    ([cmdline], [status], [mountstats]) for each line of [out], in the
    order of the lines, with what [%s] gives for the stripped line as
    process id; a stripped line has no blank at either end and no line
    break.  On Python 2 the id is the stripped line itself.  On Python 3
    it never is: the id is the [repr] of the bytes and starts with [b].
    Neither the run directory nor any other request adds a path under
    [/proc/]. *)
Theorem proc_requests_follow_pgrep (w : world) (out : string) :
  stat_answers w (glob_star "/var/run/vdsm" (run_dir w)) ->
  pgrep w = inr out ->
  filter is_proc_copy (events (vdsm.setup w))
  = flat_map proc_requests
      (map (fun line => PyStr.percent_s (interpreter w) (PyStr.strip line))
           (PyStr.splitlines out))
  /\ Forall (fun line => Text.trimmed (PyStr.strip line) = true
                         /\ Text.no_break (PyStr.strip line) = true)
            (PyStr.splitlines out)
  /\ (interpreter w = PyStr.Python2 ->
      filter is_proc_copy (events (vdsm.setup w))
      = flat_map proc_requests (map PyStr.strip (PyStr.splitlines out)))
  /\ (interpreter w = PyStr.Python3 ->
      Forall (fun line =>
                PyStr.startswith
                  (PyStr.percent_s (interpreter w) (PyStr.strip line)) "b"
                = true
                /\ PyStr.percent_s (interpreter w) (PyStr.strip line)
                   <> PyStr.strip line)
             (PyStr.splitlines out)).
Proof.
  intros Hstat Hpgrep.
  assert (Hrequests :
            filter is_proc_copy (events (vdsm.setup w))
            = flat_map proc_requests
                (map (fun line =>
                        PyStr.percent_s (interpreter w) (PyStr.strip line))
                     (PyStr.splitlines out))).
  { rewrite setup_connection_phase, bind_unfold. cbn [events fst].
    rewrite filter_app.
    assert (Hlocal : result (vdsm.local_phase w) = Returned tt)
      by (apply local_phase_returns_iff; eauto).
    rewrite Hlocal, beyond_local_not_proc, app_nil_r.
    rewrite local_phase_run. cbn [events fst].
    assert (Hdir : result (vdsm._addVdsmRunDir w) = Returned tt)
      by now apply run_dir_returns_iff.
    rewrite Hdir. unfold after_run_dir. rewrite Hpgrep. cbn [events fst].
    rewrite filter_app. cbn [filter].
    rewrite !filter_app, run_dir_not_proc, proc_trace_requests,
      proc_requests_kept.
    assert (Hlog : is_proc_copy (log_request w) = false)
      by (unfold log_request; now destruct (is_not_None _)).
    rewrite Hlog. cbn. now rewrite app_nil_r. }
  split; [exact Hrequests |]. split; [| split].
  - unfold PyStr.splitlines.
    eapply Forall_impl;
      [| apply (splitlines_from_no_break (String.length out));
         [apply le_n | reflexivity]].
    intros l Hl. split; [apply trimmed_strip | now apply strip_no_break].
  - intros Hpy. rewrite Hrequests, Hpy. reflexivity.
  - intros Hpy. rewrite Hpy. apply Forall_forall. intros line _.
    split; [reflexivity | apply bytes_repr_differs].
Qed.

Lemma proc_requests_follow_pgrep_witness :
  filter is_proc_copy (events (vdsm.setup Sample.w_ok))
  = flat_map proc_requests ["12"; "34"]
  /\ filter is_proc_copy (events (vdsm.setup Sample2.w_py3))
     = flat_map proc_requests ["b'12'"; "b'34'"].
Proof.
  assert (Hstat : stat_answers Sample.w_ok
                    (glob_star "/var/run/vdsm" (run_dir Sample.w_ok))).
  { intros f Hf _ _ _. vm_compute in Hf.
    decompose [or] Hf; subst; try contradiction; eexists; reflexivity. }
  split.
  - exact (proj1 (proc_requests_follow_pgrep Sample.w_ok
                    (String.concat (PyStr.chr PyStr.LF) ["12"; " 34 "; ""])
                    Hstat eq_refl)).
  - exact (proj1 (proc_requests_follow_pgrep Sample2.w_py3
                    (String.concat (PyStr.chr PyStr.LF) ["12"; " 34 "; ""])
                    Hstat eq_refl)).
Defined.
